(** * OSU micro-benchmarks: osu_ireduce_scatter, osu_latency_dt, osu_multi_lat_dt

    A shallow embedding of the three [main] programs and of [multi_latency],
    followed by the properties of the benchmarking methodology: the
    reduce-scatter partition, the message-size series, the layout
    descriptor, the timing loops, the validation counters and the exit
    codes. *)

From Stdlib Require Import ZArith Lia List Bool Floats Uint63 Ascii.
From stdpp Require Import base option list.

Local Open Scope Z_scope.

(** ** C arithmetic *)

(** [int] is 32 bits wide.  Overflow is written out as two's-complement
    wrap-around. *)
Module CInt.

Definition INT_MAX : Z := 2147483647.
Definition INT_MIN : Z := -2147483648.

Definition wrap (z : Z) : Z := (z + 2147483648) mod 4294967296 - 2147483648.

Definition in_range (z : Z) : Prop := INT_MIN <= z <= INT_MAX.

Definition add (a b : Z) : Z := wrap (a + b).
Definition mul (a b : Z) : Z := wrap (a * b).
(** [/] and [%] truncate towards zero. *)
Definition div (a b : Z) : Z := Z.quot a b.
Definition rem (a b : Z) : Z := Z.rem a b.

End CInt.

(** [size_t] is 64 bits wide and unsigned. *)
Module SizeT.

Definition modulus : Z := 18446744073709551616.
Definition SIZE_MAX : Z := 18446744073709551615.

Definition wrap (z : Z) : Z := z mod modulus.

Definition in_range (z : Z) : Prop := 0 <= z <= SIZE_MAX.

(** The usual arithmetic conversion of an [int] operand. *)
Definition of_int (z : Z) : Z := wrap z.

Definition add (a b : Z) : Z := wrap (a + b).
Definition mul (a b : Z) : Z := wrap (a * b).
Definition div (a b : Z) : Z := a / b.

Definition sizeof_float : Z := 4.

End SizeT.

(** [double] is IEEE binary64, the primitive [float]. *)
Module CDouble.

(** Conversion of an integer to [double]; exact below 2^53. *)
Definition of_Z (z : Z) : float :=
  if z <? 0 then PrimFloat.opp (PrimFloat.of_uint63 (Uint63.of_Z (- z)))
  else PrimFloat.of_uint63 (Uint63.of_Z z).

(** Accumulation [acc += x] over a list, in order. *)
Definition accumulate (acc : float) (xs : list float) : float :=
  foldl PrimFloat.add acc xs.

End CDouble.

(** ** osu_util_mpi.h

    Every program includes this header, which is not among the sources.
    Its macros are parameters of the development; its option structure
    and enumerations are declared with the members the programs use. *)

Class macros := {
  LARGE_MESSAGE_SIZE : Z;
  MIN_MESSAGE_SIZE : Z;
  MAX_DT_BLOCK_SIZE : Z;
  MAX_DT_STRIDE_SIZE : Z }.

Inductive po_ret_type :=
| PO_CUDA_NOT_AVAIL
| PO_OPENACC_NOT_AVAIL
| PO_BAD_USAGE
| PO_HELP_MESSAGE
| PO_VERSION_MESSAGE
| PO_OKAY.

Inductive accel_type := NONE | DEVICE.

(** The global [options].  Its integer members are read as mathematical
    integers: the header decides whether they are [int] or [size_t], and
    the two readings agree on the values the properties below admit
    (non-negative, within [int]). *)
Record options_t := {
  min_message_size : Z;
  max_message_size : Z;
  iterations : Z;
  iterations_large : Z;
  skip : Z;
  skip_large : Z;
  dt_block_size : Z;
  dt_stride_size : Z;
  warmup_validation : Z;
  validate : bool;
  accel : accel_type;
  graph : bool }.

(** [options.skip = sk; options.iterations = it;] *)
Definition set_iterations_skip (it sk : Z) (o : options_t) : options_t :=
  {| min_message_size := min_message_size o;
     max_message_size := max_message_size o;
     iterations := it;
     iterations_large := iterations_large o;
     skip := sk;
     skip_large := skip_large o;
     dt_block_size := dt_block_size o;
     dt_stride_size := dt_stride_size o;
     warmup_validation := warmup_validation o;
     validate := validate o;
     accel := accel o;
     graph := graph o |}.

(** [options.min_message_size = m;] *)
Definition set_min_message_size (m : Z) (o : options_t) : options_t :=
  {| min_message_size := m;
     max_message_size := max_message_size o;
     iterations := iterations o;
     iterations_large := iterations_large o;
     skip := skip o;
     skip_large := skip_large o;
     dt_block_size := dt_block_size o;
     dt_stride_size := dt_stride_size o;
     warmup_validation := warmup_validation o;
     validate := validate o;
     accel := accel o;
     graph := graph o |}.

(** [if (size > LARGE_MESSAGE_SIZE) { options.skip = options.skip_large;
    options.iterations = options.iterations_large; }] *)
Definition large_message_profile `{macros} (size : Z) (o : options_t) : options_t :=
  if LARGE_MESSAGE_SIZE <? size
  then set_iterations_skip (iterations_large o) (skip_large o) o
  else o.

Definition EXIT_SUCCESS : Z := 0.
Definition EXIT_FAILURE : Z := 1.

(** How a run of the model ends: normally, in an integer division by
    zero, or with the bound on the number of rounds used up. *)
Inductive result (A : Type) :=
| Ok (a : A)
| Div_by_zero
| Out_of_fuel.

Arguments Ok {A} a.
Arguments Div_by_zero {A}.
Arguments Out_of_fuel {A}.

#[global] Instance po_ret_type_eq_dec : EqDecision po_ret_type.
Proof. solve_decision. Defined.

#[global] Instance accel_type_eq_dec : EqDecision accel_type.
Proof. solve_decision. Defined.

(** The reduction operations the programs use, and the two buffers of
    the latency benchmarks. *)
Inductive mpi_op := MPI_SUM.

Inductive buffer := s_buf | r_buf.

(** The calls a process makes to the messaging substrate and to the
    helpers of the benchmark library, in the order it makes them.
    [MPI_Wtime] is not among them: what the clock returns is part of the
    substrate of each program. *)
Inductive call :=
| MPI_Barrier
| MPI_Ireduce_scatter (recvcounts : list Z)
| MPI_Wait
| MPI_Isend (dest : Z)
| MPI_Irecv (source : Z)
| MPI_Type_vector (count blocklength stride : Z)
| MPI_Type_commit
| MPI_Type_free
| MPI_Allreduce
| MPI_Reduce (op : mpi_op)
| set_buffer_pt2pt (buf : buffer) (data : ascii) (size : Z)
| set_buffer_validation (size : Z) (iter : nat)
| validate_reduce_scatter (size : Z) (iter : nat)
| init_arrays (seconds : float)
| dummy_compute (seconds : float)
| print_latency (size : Z) (latency : float).

(** *** What the properties read off a list of calls *)

(** The calls that start a non-blocking operation.  Each program has one
    [MPI_Request] variable, [request], which every such call fills,
    every [MPI_Wait] is called on, and [dummy_compute] is handed. *)
Definition starts_request (c : call) : bool :=
  match c with
  | MPI_Ireduce_scatter _ | MPI_Isend _ | MPI_Irecv _ => true
  | _ => false
  end.

(** [request] along a list of calls, [pending] telling whether an
    operation has been started and not yet waited for.  The result is
    [Some pending'] when no operation is started while another is
    pending, every [MPI_Wait(&request, ...)] finds one pending and
    completes it, every [dummy_compute(latency_in_secs, &request)] is
    handed one that is pending and leaves it so, and no other call of
    the list is made while one is pending; it is [None] otherwise.  The
    readings of the clock, which are no calls of the list, are not
    looked at: osu_ireduce_scatter.c reads it at lines 187-191, between
    the start of the operation and the wait. *)
Fixpoint request_after (pending : bool) (cs : list call) : option bool :=
  match cs with
  | [] => Some pending
  | c :: cs =>
      match c with
      | MPI_Wait => if pending then request_after false cs else None
      | dummy_compute _ => if pending then request_after true cs else None
      | _ => if pending then None else request_after (starts_request c) cs
      end
  end.

(** The number of calls in [cs] that [f] selects. *)
Definition count_calls (f : call -> bool) (cs : list call) : nat :=
  length (List.filter f cs).

Definition is_reduce_scatter (c : call) : bool :=
  match c with MPI_Ireduce_scatter _ => true | _ => false end.

Definition is_wait (c : call) : bool :=
  match c with MPI_Wait => true | _ => false end.

Definition is_dummy_compute (c : call) : bool :=
  match c with dummy_compute _ => true | _ => false end.

Definition is_set_buffer_validation (c : call) : bool :=
  match c with set_buffer_validation _ _ => true | _ => false end.

Definition is_validate_reduce_scatter (c : call) : bool :=
  match c with validate_reduce_scatter _ _ => true | _ => false end.

Definition is_point_to_point (c : call) : bool :=
  match c with MPI_Isend _ | MPI_Irecv _ => true | _ => false end.



(** The sends and receives among [cs], in order. *)
Definition point_to_point (cs : list call) : list call :=
  List.filter is_point_to_point cs.

(** Call [a] of rank [x] is met by call [b] of rank [y]: a send to [y]
    by a receive from [x], a receive from [y] by a send to [x]. *)
Definition met_by (x y : Z) (a b : call) : bool :=
  match a, b with
  | MPI_Isend dest, MPI_Irecv source => (dest =? y) && (source =? x)
  | MPI_Irecv source, MPI_Isend dest => (source =? y) && (dest =? x)
  | _, _ => false
  end.

(** ** Series of message sizes

    [series next bound first sizes complete]: a loop over sizes that
    starts at [first], steps with [next] and runs while [bound] holds
    visits [sizes]; [complete] tells whether it ran until [bound] failed
    or left through a [break] after the last size. *)

Module Series.

Inductive series (next : Z -> Z) (bound : Z -> Prop)
    : Z -> list Z -> bool -> Prop :=
| series_end s :
    ~ bound s -> series next bound s [] true
| series_break s :
    bound s -> series next bound s [s] false
| series_step s sizes complete :
    bound s -> s < next s ->
    series next bound (next s) sizes complete ->
    series next bound s (s :: sizes) complete.

(** The step of the loops over sizes, in integers: twice the size, and 1
    after the size 0. *)
Definition doubled (s : Z) : Z := if s =? 0 then 1 else 2 * s.

(** The same in the terms the specification uses.  The sizes visited
    from [first] under [bound]: the first one is [first] unless it is out
    of bound, in which case no size is visited; each next one is the one
    before doubled (1 after 0) and is larger; all are within [bound];
    and, when the loop was not left through a [break], the size after the
    last one is out of bound. *)
Definition doubling_series (first : Z) (bound : Z -> Prop)
    (sizes : list Z) (complete : bool) : Prop :=
  (bound first -> head sizes = Some first) /\
  (~ bound first -> sizes = []) /\
  (forall k a b,
     sizes !! k = Some a -> sizes !! S k = Some b ->
     b = (if a =? 0 then 1 else 2 * a) /\ a < b) /\
  (forall s, s ∈ sizes -> bound s) /\
  (complete = true ->
   forall a, last sizes = Some a -> ~ bound (if a =? 0 then 1 else 2 * a)) /\
  (complete = false -> sizes <> []).

End Series.

(** ** osu_ireduce_scatter.c: the scatter partition *)

Module IreduceScatter.

(** [portion = size / numprocs; remainder = size % numprocs;] *)
Definition portion (size numprocs : Z) : Z := CInt.div size numprocs.
Definition remainder (size numprocs : Z) : Z := CInt.rem size numprocs.

(** The body of the loop over [i]: the value [recvcounts[i]] holds once
    the body has run.  [c] stands for [recvcounts[i]]. *)
Definition recvcount (size numprocs i : Z) : Z :=
  let c := 0 in
  if size <? numprocs then
    if i <? size then 1 else c
  else
    let c :=
      if negb (remainder size numprocs =? 0) && (i <? remainder size numprocs)
      then CInt.add c 1 else c in
    CInt.add c (portion size numprocs).

(** [for (i = 0; i < numprocs; i++) { recvcounts[i] = ...; }] on the
    array [recvcounts], which keeps whatever the previous round left. *)
Definition set_recvcounts (size numprocs : Z) (recvcounts : list Z) : list Z :=
  foldl (fun a (i : nat) => <[i := recvcount size numprocs (Z.of_nat i)]> a)
        recvcounts (seq 0 (Z.to_nat numprocs)).

(** The partition in the specification's words: for [S] elements and
    [R] ranks, entry [i] is [S/R + 1] below the remainder and [S/R] from
    it on when [S >= R], and [1] below [S] and [0] from it on when
    [S < R]. *)
Definition partition_entry (S R i : Z) : Z :=
  if R <=? S then (if i <? S mod R then S / R + 1 else S / R)
  else (if i <? S then 1 else 0).

(** Sum of the entries of an array of counts. *)
Definition total (counts : list Z) : Z := foldr Z.add 0 counts.

(** *** The environment of a run

    What the messaging substrate and the benchmark library hand back to
    rank [rank] in iteration [i] of the round of [size] elements: the
    readings of [MPI_Wtime], the value of [dummy_compute] and the count
    returned by [validate_reduce_scatter] ([overlap] tells the second
    loop of the round from the first). *)

Record wtime_latency := {
  l_t_start : float;
  l_t_stop : float }.

Record wtime_overlap := {
  o_t_start : float;
  o_init_begin : float;
  o_init_end : float;
  o_tcomp_begin : float;
  o_tcomp_end : float;
  o_wait_begin : float;
  o_wait_end : float;
  o_t_stop : float }.

Record substrate := {
  Wtime_latency : Z -> Z -> nat -> wtime_latency;
  Wtime_overlap : Z -> Z -> nat -> wtime_overlap;
  dummy_compute_result : Z -> Z -> nat -> float;
  validate_result : Z -> Z -> bool -> nat -> Z }.

(** *** The variables of one rank *)

Record locals := {
  timer : float;
  latency : float;
  latency_in_secs : float;
  tcomp_total : float;
  wait_total : float;
  test_total : float;
  init_total : float;
  local_errors : Z;
  recvcounts : list Z;
  calls : list call }.

Definition emit (cs : list call) (l : locals) : locals :=
  {| timer := timer l; latency := latency l;
     latency_in_secs := latency_in_secs l;
     tcomp_total := tcomp_total l; wait_total := wait_total l;
     test_total := test_total l; init_total := init_total l;
     local_errors := local_errors l; recvcounts := recvcounts l;
     calls := calls l ++ cs |}.

Definition set_timer (t : float) (l : locals) : locals :=
  {| timer := t; latency := latency l;
     latency_in_secs := latency_in_secs l;
     tcomp_total := tcomp_total l; wait_total := wait_total l;
     test_total := test_total l; init_total := init_total l;
     local_errors := local_errors l; recvcounts := recvcounts l;
     calls := calls l |}.

Definition set_latency (lat secs : float) (l : locals) : locals :=
  {| timer := timer l; latency := lat;
     latency_in_secs := secs;
     tcomp_total := tcomp_total l; wait_total := wait_total l;
     test_total := test_total l; init_total := init_total l;
     local_errors := local_errors l; recvcounts := recvcounts l;
     calls := calls l |}.

Definition set_totals (t tcomp wait test init : float) (l : locals) : locals :=
  {| timer := t; latency := latency l;
     latency_in_secs := latency_in_secs l;
     tcomp_total := tcomp; wait_total := wait;
     test_total := test; init_total := init;
     local_errors := local_errors l; recvcounts := recvcounts l;
     calls := calls l |}.

Definition set_local_errors (e : Z) (l : locals) : locals :=
  {| timer := timer l; latency := latency l;
     latency_in_secs := latency_in_secs l;
     tcomp_total := tcomp_total l; wait_total := wait_total l;
     test_total := test_total l; init_total := init_total l;
     local_errors := e; recvcounts := recvcounts l;
     calls := calls l |}.

Definition set_counts (rc : list Z) (l : locals) : locals :=
  {| timer := timer l; latency := latency l;
     latency_in_secs := latency_in_secs l;
     tcomp_total := tcomp_total l; wait_total := wait_total l;
     test_total := test_total l; init_total := init_total l;
     local_errors := local_errors l; recvcounts := rc;
     calls := calls l |}.

(** *** The two timed loops of a round *)

(** [if (options.validate) { set_buffer_validation(...); for (j = 0;
    j < options.warmup_validation; j++) { barrier; reduce-scatter; wait }
    barrier }] *)
Definition validation_warmup (o : options_t) (size : Z) (i : nat)
    (rc : list Z) : list call :=
  if validate o then
    set_buffer_validation size i ::
    concat (replicate (Z.to_nat (warmup_validation o))
              [MPI_Barrier; MPI_Ireduce_scatter rc; MPI_Wait])
    ++ [MPI_Barrier]
  else [].

(** [if (options.validate) { if (recvcounts[rank] != 0) { local_errors +=
    validate_reduce_scatter(...); } }] *)
Definition validation_check (o : options_t) (sub : substrate)
    (rank size : Z) (overlap : bool) (i : nat) (l : locals) : locals :=
  if validate o then
    if negb (default 0 (recvcounts l !! Z.to_nat rank) =? 0) then
      set_local_errors
        (CInt.add (local_errors l) (validate_result sub rank size overlap i))
        (emit [validate_reduce_scatter size i] l)
    else l
  else l.

(** The body of the first loop, iteration [i]. *)
Definition latency_iteration (o : options_t) (sub : substrate)
    (rank size : Z) (l : locals) (i : nat) : locals :=
  let l := emit (validation_warmup o size i (recvcounts l)) l in
  let t_start := l_t_start (Wtime_latency sub rank size i) in
  let l := emit [MPI_Ireduce_scatter (recvcounts l); MPI_Wait] l in
  let t_stop := l_t_stop (Wtime_latency sub rank size i) in
  let l := emit [MPI_Barrier] l in
  let l := validation_check o sub rank size false i l in
  if skip o <=? Z.of_nat i
  then set_timer (timer l + (t_stop - t_start))%float l
  else l.

(** [for (i = 0; i < options.iterations + options.skip; i++)], where [i]
    is an [int]: these are the values [i] takes as long as [iterations +
    skip] is within [int], which is what the properties that count the
    iterations of a loop ask of the options. *)
Definition iteration_indices (o : options_t) : list nat :=
  seq 0 (Z.to_nat (iterations o + skip o)).

Definition latency_loop (o : options_t) (sub : substrate)
    (rank size : Z) (l : locals) : locals :=
  foldl (latency_iteration o sub rank size) l (iteration_indices o).

(** The body of the second loop, iteration [i]. *)
Definition overlap_iteration (o : options_t) (sub : substrate)
    (rank size : Z) (l : locals) (i : nat) : locals :=
  let l := emit (validation_warmup o size i (recvcounts l)) l in
  let w := Wtime_overlap sub rank size i in
  let t_start := o_t_start w in
  let init_time := o_init_begin w in
  let l := emit [MPI_Ireduce_scatter (recvcounts l)] l in
  let init_time := (o_init_end w - init_time)%float in
  let tcomp := o_tcomp_begin w in
  let test_time := dummy_compute_result sub rank size i in
  let l := emit [dummy_compute (latency_in_secs l)] l in
  let tcomp := (o_tcomp_end w - tcomp)%float in
  let wait_time := o_wait_begin w in
  let l := emit [MPI_Wait] l in
  let wait_time := (o_wait_end w - wait_time)%float in
  let t_stop := o_t_stop w in
  let l := emit [MPI_Barrier] l in
  let l := validation_check o sub rank size true i l in
  if skip o <=? Z.of_nat i
  then set_totals (timer l + (t_stop - t_start))%float
                  (tcomp_total l + tcomp)%float
                  (wait_total l + wait_time)%float
                  (test_total l + test_time)%float
                  (init_total l + init_time)%float l
  else l.

Definition overlap_loop (o : options_t) (sub : substrate)
    (rank size : Z) (l : locals) : locals :=
  foldl (overlap_iteration o sub rank size) l (iteration_indices o).

(** One round of rank [rank], from the partition to the barrier that
    precedes [MPI_Allreduce]. *)
Definition round_of_rank (o : options_t) (sub : substrate)
    (numprocs size rank : Z) (l : locals) : locals :=
  let l := set_counts (set_recvcounts size numprocs (recvcounts l)) l in
  let l := emit [MPI_Barrier] l in
  let l := set_timer 0%float l in
  let l := latency_loop o sub rank size l in
  let l := emit [MPI_Barrier] l in
  let l := set_latency ((timer l * 1e6) / CDouble.of_Z (iterations o))%float
                       (timer l / CDouble.of_Z (iterations o))%float l in
  let l := emit [init_arrays (latency_in_secs l); MPI_Barrier] l in
  let l := set_totals 0%float 0%float 0%float 0%float 0%float l in
  let l := overlap_loop o sub rank size l in
  emit [MPI_Barrier] l.

(** *** Quantities the properties speak of *)

(** The total time of iteration [i] of the first loop:
    [t_stop - t_start]. *)
Definition total_time (w : wtime_latency) : float :=
  (l_t_stop w - l_t_start w)%float.

(** The indices of the measured iterations: [skip], ..., [skip +
    iterations - 1]. *)
Definition measured_indices (o : options_t) : list nat :=
  seq (Z.to_nat (skip o)) (Z.to_nat (iterations o)).

(** The sum of the total times of the measured iterations of the first
    loop, added up in the order of the iterations, from [0.0]. *)
Definition measured_total (o : options_t) (sub : substrate)
    (rank size : Z) : float :=
  CDouble.accumulate 0%float
    (map (fun i => total_time (Wtime_latency sub rank size i))
         (measured_indices o)).

(** The mean latency of the round in seconds: that sum divided by the
    number of measured iterations. *)
Definition mean_latency (o : options_t) (sub : substrate)
    (rank size : Z) : float :=
  (measured_total o sub rank size / CDouble.of_Z (iterations o))%float.

(** The timing statistics of a round, as [main] hands them to
    [calculate_and_print_stats]: [timer], [latency], [test_total],
    [tcomp_total], [wait_total], [init_total]. *)
Definition statistics (l : locals) : list float :=
  [timer l; latency l; test_total l; tcomp_total l; wait_total l;
   init_total l].

(** The same six values as sums over the measured iterations alone, each
    added up in the order of the iterations from [0.0]. *)
Definition measured_statistics (o : options_t) (sub : substrate)
    (rank size : Z) : list float :=
  let w := Wtime_overlap sub rank size in
  let sum f := CDouble.accumulate 0%float (map f (measured_indices o)) in
  [sum (fun i => (o_t_stop (w i) - o_t_start (w i))%float);
   ((measured_total o sub rank size * 1e6) / CDouble.of_Z (iterations o))%float;
   sum (dummy_compute_result sub rank size);
   sum (fun i => (o_tcomp_end (w i) - o_tcomp_begin (w i))%float);
   sum (fun i => (o_wait_end (w i) - o_wait_begin (w i))%float);
   sum (fun i => (o_init_end (w i) - o_init_begin (w i))%float)].

(** The durations given to [dummy_compute] in a list of calls. *)
Definition dummy_compute_targets (cs : list call) : list float :=
  omap (fun c => match c with dummy_compute t => Some t | _ => None end) cs.

(** The calls of iteration [i] of the first loop on a rank whose
    partition is [rc]: the validation warm-up when validation is on, the
    timed collective with its wait and the barrier, and the check of the
    result when validation is on and the rank has elements to check. *)
Definition validation_check_calls (o : options_t) (rc : list Z)
    (rank size : Z) (i : nat) : list call :=
  if validate o && negb (default 0 (rc !! Z.to_nat rank) =? 0)
  then [validate_reduce_scatter size i] else [].

Definition latency_iteration_calls (o : options_t) (rc : list Z)
    (rank size : Z) (i : nat) : list call :=
  validation_warmup o size i rc
  ++ [MPI_Ireduce_scatter rc; MPI_Wait; MPI_Barrier]
  ++ validation_check_calls o rc rank size i.

(** The same for the second loop, where [dummy_compute] runs for
    [seconds] between the collective and its wait. *)
Definition overlap_iteration_calls (o : options_t) (rc : list Z)
    (rank size : Z) (seconds : float) (i : nat) : list call :=
  validation_warmup o size i rc
  ++ [MPI_Ireduce_scatter rc; dummy_compute seconds; MPI_Wait; MPI_Barrier]
  ++ validation_check_calls o rc rank size i.

(** The counts [validate_reduce_scatter] returns to rank [rank] during
    the round of [size] elements, summed over both loops: the mismatches
    the rank detects in that round. *)
Definition round_mismatches (o : options_t) (sub : substrate)
    (numprocs size rank : Z) : Z :=
  if validate o && negb (recvcount size numprocs rank =? 0) then
    total (map (validate_result sub rank size false) (iteration_indices o))
    + total (map (validate_result sub rank size true) (iteration_indices o))
  else 0.

(** *** The ranks together

    Every rank runs the same [main].  [size], [options] and [errors]
    depend on the configuration and on what [MPI_Allreduce] delivers,
    which is the same on every rank, and are kept once; the other
    variables are kept per rank.  [history] is a ghost log: one record
    per round entered, with [local_errors] of every rank as the round
    found it and [errors] as the round left it. *)

Record round_record := {
  at_size : Z;
  local_errors_at_entry : list Z;
  errors_at_exit : Z }.

Record world := {
  msg_size : Z;
  options : options_t;
  errors : Z;
  ranks : list locals;
  history : list round_record }.

Definition set_msg_size (sz : Z) (w : world) : world :=
  {| msg_size := sz; options := options w; errors := errors w;
     ranks := ranks w; history := history w |}.

(** [MPI_Allreduce(&local_errors, &errors, 1, MPI_INT, MPI_SUM, ...)] *)
Definition allreduce_sum (contributions : list Z) : Z :=
  CInt.wrap (total contributions).

(** The body of the loop over sizes. *)
Definition round `{macros} (sub : substrate) (numprocs : Z) (w : world) : world :=
  let o := large_message_profile (msg_size w) (options w) in
  let rs :=
    imap (fun r l => round_of_rank o sub numprocs (msg_size w) (Z.of_nat r) l)
         (ranks w) in
  let errs :=
    if validate o then allreduce_sum (map local_errors rs) else errors w in
  let rs := if validate o then map (emit [MPI_Allreduce]) rs else rs in
  {| msg_size := msg_size w; options := o; errors := errs; ranks := rs;
     history := history w ++
       [{| at_size := msg_size w;
           local_errors_at_entry := map local_errors (ranks w);
           errors_at_exit := errs |}] |}.

(** [size * sizeof(float) <= options.max_message_size] *)
Definition size_in_bounds (size : Z) (o : options_t) : bool :=
  SizeT.mul (SizeT.of_int size) SizeT.sizeof_float <=? max_message_size o.

(** [for (size = ...; size * sizeof(float) <= options.max_message_size;
    size *= 2) { ...; if (0 != errors) break; }] *)
Fixpoint size_loop `{macros} (sub : substrate) (numprocs : Z) (fuel : nat)
    (w : world) : result world :=
  match fuel with
  | O => Out_of_fuel
  | S fuel =>
      if size_in_bounds (msg_size w) (options w) then
        let w := round sub numprocs w in
        if negb (errors w =? 0) then Ok w
        else size_loop sub numprocs fuel
               (set_msg_size (CInt.mul (msg_size w) 2) w)
      else Ok w
  end.

(** [options.min_message_size /= sizeof(float); if
    (options.min_message_size < MIN_MESSAGE_SIZE) options.min_message_size
    = MIN_MESSAGE_SIZE;] *)
Definition element_min_message_size `{macros} (o : options_t) : Z :=
  let m := SizeT.div (min_message_size o) SizeT.sizeof_float in
  if m <? MIN_MESSAGE_SIZE then MIN_MESSAGE_SIZE else m.

(** [bufsize = sizeof(float) * (options.max_message_size / numprocs /
    sizeof(float) + 1);], the size in bytes of [recvbuf]. *)
Definition recvbuf_bufsize (o : options_t) (numprocs : Z) : Z :=
  SizeT.mul SizeT.sizeof_float
    (SizeT.add
       (SizeT.div (SizeT.div (max_message_size o) (SizeT.of_int numprocs))
                  SizeT.sizeof_float)
       1).

(** [bufsize = (options.max_message_size);], the size in bytes of
    [sendbuf]. *)
Definition sendbuf_bufsize (o : options_t) : Z := max_message_size o.

Definition initial_locals (numprocs : Z) : locals :=
  {| timer := 0%float; latency := 0%float; latency_in_secs := 0%float;
     tcomp_total := 0%float; wait_total := 0%float; test_total := 0%float;
     init_total := 0%float; local_errors := 0;
     recvcounts := replicate (Z.to_nat numprocs) 0; calls := [] |}.

Definition initial_world `{macros} (o : options_t) (numprocs : Z) : world :=
  let o := set_min_message_size (element_min_message_size o) o in
  {| msg_size := CInt.wrap (min_message_size o);
     options := o;
     errors := 0;
     ranks := replicate (Z.to_nat numprocs) (initial_locals numprocs);
     history := [] |}.

(** What the start-up and shut-down calls of one process return: a
    non-zero return is [true]. *)
Record process := {
  po_ret : po_ret_type;
  init_accel : bool;
  numprocs : Z;
  rank : Z;
  allocate_recvcounts : bool;
  allocate_sendbuf : bool;
  allocate_recvbuf : bool;
  cleanup_accel : bool }.

(** [main], as the exit status of process [p].  A failed allocation ends
    in [MPI_Abort(MPI_COMM_WORLD, EXIT_FAILURE)], which ends the process
    with that status.  [o] holds the options as [process_options] and
    [check_mem_limit], two helpers of the benchmark library, leave them;
    the performance counters and the plots are left out. *)
Definition main `{macros} (fuel : nat) (sub : substrate) (o : options_t)
    (p : process) : result Z :=
  if bool_decide (po_ret p = PO_OKAY) && bool_decide (accel o <> NONE)
     && init_accel p
  then Ok EXIT_FAILURE
  else
    match po_ret p with
    | PO_BAD_USAGE => Ok EXIT_FAILURE
    | PO_HELP_MESSAGE => Ok EXIT_SUCCESS
    | PO_VERSION_MESSAGE => Ok EXIT_SUCCESS
    | _ =>
        if numprocs p <? 2 then Ok EXIT_FAILURE
        else if allocate_recvcounts p then Ok EXIT_FAILURE
        else if allocate_sendbuf p then Ok EXIT_FAILURE
        else if allocate_recvbuf p then Ok EXIT_FAILURE
        else
          match size_loop sub (numprocs p) fuel (initial_world o (numprocs p)) with
          | Ok w =>
              if bool_decide (accel (options w) <> NONE) && cleanup_accel p
              then Ok EXIT_FAILURE
              else if negb (errors w =? 0) && validate (options w)
                      && (rank p =? 0)
              then Ok EXIT_FAILURE
              else Ok EXIT_SUCCESS
          | Div_by_zero => Div_by_zero
          | Out_of_fuel => Out_of_fuel
          end
    end.

(** *** Configurations the properties admit *)

(** The members of [options] and the rank count are non-negative and
    within the types the program gives them: the first size fits an
    [int], and no size the loop reaches overflows one when doubled. *)
Definition well_formed `{macros} (o : options_t) (numprocs : Z) : Prop :=
  2 <= numprocs <= CInt.INT_MAX /\
  0 <= min_message_size o /\
  min_message_size o / SizeT.sizeof_float <= CInt.INT_MAX /\
  1 <= MIN_MESSAGE_SIZE <= CInt.INT_MAX /\
  0 <= max_message_size o < 4294967296 /\
  0 <= iterations o /\ 0 <= skip o /\
  0 <= iterations_large o /\ 0 <= skip_large o.

(** [validate_reduce_scatter] returns a count: a number between 0 and
    some [B], small enough for the sum over the calls and the ranks of a
    round to fit an [int]. *)
Definition counts_fit (o : options_t) (sub : substrate)
    (numprocs B : Z) : Prop :=
  (forall rank size overlap i,
     0 <= validate_result sub rank size overlap i <= B) /\
  numprocs * (2 * (iterations o + skip o) * B) <= CInt.INT_MAX /\
  numprocs * (2 * (iterations_large o + skip_large o) * B) <= CInt.INT_MAX.

(** The ranks 0, ..., [numprocs - 1]. *)
Definition all_ranks (numprocs : Z) : list Z :=
  map Z.of_nat (seq 0 (Z.to_nat numprocs)).

(** What the properties say of the record of one round, in a run of [R]
    ranks started with the options [o0] that ends with [errors = final]:
    every rank entered the round with its counter at zero, and the
    round left in [errors] the mismatches all the ranks detected in this
    round. *)
Definition sound_record `{macros} (o0 : options_t) (sub : substrate)
    (R final : Z) (rec : round_record) : Prop :=
  Forall (fun e => e = 0) (local_errors_at_entry rec) /\
  length (local_errors_at_entry rec) = Z.to_nat R /\
  errors_at_exit rec
  = (if validate o0
     then total (map (round_mismatches
                        (large_message_profile (at_size rec) o0) sub R
                        (at_size rec))
                     (all_ranks R))
     else 0) /\
  (errors_at_exit rec = 0 \/ errors_at_exit rec = final).

(** The options once a size above [LARGE_MESSAGE_SIZE] has been met. *)
Definition large_profile (o0 : options_t) : options_t :=
  set_iterations_skip (iterations_large o0) (skip_large o0) o0.

(** What holds of the [R] ranks of a run started with the options [o0]
    whenever the loop over sizes tests its condition. *)
Definition entered `{macros} (o0 : options_t) (R : Z) (w : world) : Prop :=
  1 <= msg_size w <= CInt.INT_MAX /\
  errors w = 0 /\
  length (ranks w) = Z.to_nat R /\
  Forall (fun l => local_errors l = 0 /\ length (recvcounts l) = Z.to_nat R)
         (ranks w) /\
  (options w = o0 \/
   options w = large_profile o0 /\ LARGE_MESSAGE_SIZE < msg_size w).

End IreduceScatter.

(** ** What osu_latency_dt.c and osu_multi_lat_dt.c share

    Both programs open with the same sanity check and the same adjustment
    of the minimum size, run their rounds under the same loop header,
    build the layout descriptor alike and compute the latency of a rank
    with the same expression. *)

Module Dt.

(** [options.dt_block_size > options.dt_stride_size ||
    options.dt_block_size > MAX_DT_BLOCK_SIZE ||
    options.dt_stride_size > MAX_DT_STRIDE_SIZE] *)
Definition sanity_check `{macros} (o : options_t) : bool :=
  (dt_stride_size o <? dt_block_size o)
  || (MAX_DT_BLOCK_SIZE <? dt_block_size o)
  || (MAX_DT_STRIDE_SIZE <? dt_stride_size o).

(** [if (options.dt_block_size > options.min_message_size)
    options.min_message_size = options.dt_block_size;] *)
Definition raise_min_message_size (o : options_t) : options_t :=
  if min_message_size o <? dt_block_size o
  then set_min_message_size (dt_block_size o) o
  else o.

(** [size <= options.max_message_size] *)
Definition size_in_bounds (size : Z) (o : options_t) : bool :=
  size <=? max_message_size o.

(** [size = (size ? size * 2 : 1)] *)
Definition next_size (size : Z) : Z :=
  if negb (size =? 0) then CInt.mul size 2 else 1.

(** [rep_count = size / options.dt_block_size;] *)
Definition rep_count (size : Z) (o : options_t) : Z :=
  CInt.div size (dt_block_size o).

(** [(t_end - t_start) * 1e6 / (2.0 * options.iterations)] *)
Definition one_way_latency (t_start t_end : float) (o : options_t) : float :=
  (((t_end - t_start) * 1e6) / (2 * CDouble.of_Z (iterations o)))%float.

(** Ghost log of a process: the sanity check with its verdict, and the
    rounds with their size and repeat count. *)
Inductive step :=
| Sanity_check (failed : bool)
| Round (size : Z) (rep_count : Z).

Definition is_round (s : step) : Prop :=
  match s with
  | Round _ _ => True
  | Sanity_check _ => False
  end.

(** [for (i = 0; i < options.iterations + options.skip; i++)], where [i]
    is an [int]: these are the values [i] takes as long as [iterations +
    skip] is within [int], which is what the properties that count the
    iterations of a loop ask of the options. *)
Definition iteration_indices (o : options_t) : list nat :=
  seq 0 (Z.to_nat (iterations o + skip o)).

(** The four calls of an iteration, on the side that sends first and on
    the side that receives first. *)
Definition ping (peer : Z) : list call :=
  [MPI_Isend peer; MPI_Wait; MPI_Irecv peer; MPI_Wait].

Definition pong (peer : Z) : list call :=
  [MPI_Irecv peer; MPI_Wait; MPI_Isend peer; MPI_Wait].

(** What a process leaves behind: its exit status, its ghost log and the
    calls of its rounds. *)
Record run := {
  exit_status : result Z;
  steps : list step;
  trace : list call }.

End Dt.

(** ** osu_latency_dt.c *)

Module LatencyDt.

Import Dt.

(** [Wtime size k]: what [MPI_Wtime] returns on rank 0, in the round of
    [size] bytes, once [k] iterations of the loop are over. *)
Record substrate := {
  Wtime : Z -> nat -> float }.

Record state := {
  msg_size : Z;
  options : options_t;
  t_start : float;
  t_end : float;
  calls : list call;
  log : list step }.

Definition emit (cs : list call) (st : state) : state :=
  {| msg_size := msg_size st; options := options st;
     t_start := t_start st; t_end := t_end st;
     calls := calls st ++ cs; log := log st |}.

Definition set_t_start (t : float) (st : state) : state :=
  {| msg_size := msg_size st; options := options st;
     t_start := t; t_end := t_end st;
     calls := calls st; log := log st |}.

Definition set_t_end (t : float) (st : state) : state :=
  {| msg_size := msg_size st; options := options st;
     t_start := t_start st; t_end := t;
     calls := calls st; log := log st |}.

Definition set_options (o : options_t) (st : state) : state :=
  {| msg_size := msg_size st; options := o;
     t_start := t_start st; t_end := t_end st;
     calls := calls st; log := log st |}.

Definition set_msg_size (sz : Z) (st : state) : state :=
  {| msg_size := sz; options := options st;
     t_start := t_start st; t_end := t_end st;
     calls := calls st; log := log st |}.

Definition record_step (s : step) (st : state) : state :=
  {| msg_size := msg_size st; options := options st;
     t_start := t_start st; t_end := t_end st;
     calls := calls st; log := log st ++ [s] |}.

(** The body of the loop of rank 0, iteration [i]. *)
Definition sender_iteration (sub : substrate) (st : state) (i : nat) : state :=
  let st :=
    if Z.of_nat i =? skip (options st)
    then set_t_start (Wtime sub (msg_size st) i) st
    else st in
  emit (ping 1) st.

(** The body of the loop of rank 1. *)
Definition receiver_iteration (st : state) (i : nat) : state :=
  emit (pong 0) st.

(** [set_buffer_pt2pt(s_buf, myid, options.accel, 'a', size);
    set_buffer_pt2pt(r_buf, myid, options.accel, 'b', size);] *)
Definition set_buffers (st : state) : state :=
  emit [set_buffer_pt2pt s_buf "a" (msg_size st);
        set_buffer_pt2pt r_buf "b" (msg_size st)] st.

(** The body of the loop over sizes, on rank [myid]. *)
Definition round `{macros} (sub : substrate) (myid : Z) (st : state)
    : result state :=
  let st := set_buffers st in
  let size := msg_size st in
  let st := set_options (large_message_profile size (options st)) st in
  let o := options st in
  if dt_block_size o =? 0 then Div_by_zero
  else
    let rep := rep_count size o in
    let st := record_step (Round size rep) st in
    let st :=
      emit [MPI_Type_vector rep (dt_block_size o) (dt_stride_size o);
            MPI_Type_commit; MPI_Barrier] st in
    let st :=
      if myid =? 0 then
        let st := foldl (sender_iteration sub) st (iteration_indices o) in
        set_t_end (Wtime sub size (length (iteration_indices o))) st
      else if myid =? 1 then
        foldl receiver_iteration st (iteration_indices o)
      else st in
    let st :=
      if myid =? 0
      then emit [print_latency size (one_way_latency (t_start st) (t_end st) o)] st
      else st in
    Ok (emit [MPI_Type_free] st).

(** [for (size = options.min_message_size; size <=
    options.max_message_size; size = (size ? size * 2 : 1))] *)
Fixpoint size_loop `{macros} (sub : substrate) (myid : Z) (fuel : nat)
    (st : state) : result state :=
  match fuel with
  | O => Out_of_fuel
  | S fuel =>
      if size_in_bounds (msg_size st) (options st) then
        match round sub myid st with
        | Ok st => size_loop sub myid fuel (set_msg_size (next_size (msg_size st)) st)
        | Div_by_zero => Div_by_zero
        | Out_of_fuel => Out_of_fuel
        end
      else Ok st
  end.

(** The calls of the round of [size] bytes on rank [myid] when it runs
    with the options [o]: the filling of the two buffers, the layout
    descriptor, the exchanges of all the iterations, on rank 0 the line
    with the latency between the clock reading at the end of the warm-up
    and the one at the end of the loop, and the release of the
    descriptor. *)
Definition round_calls (sub : substrate) (myid : Z) (o : options_t)
    (size : Z) : list call :=
  [set_buffer_pt2pt s_buf "a" size; set_buffer_pt2pt r_buf "b" size;
   MPI_Type_vector (rep_count size o) (dt_block_size o) (dt_stride_size o);
   MPI_Type_commit; MPI_Barrier]
  ++ (if myid =? 0 then concat (map (fun _ => ping 1) (iteration_indices o))
      else if myid =? 1
      then concat (map (fun _ => pong 0) (iteration_indices o))
      else [])
  ++ (if myid =? 0
      then [print_latency size
              (one_way_latency
                 (Wtime sub size (Z.to_nat (skip o)))
                 (Wtime sub size (Z.to_nat (iterations o + skip o))) o)]
      else [])
  ++ [MPI_Type_free].

Record process := {
  po_ret : po_ret_type;
  init_accel : bool;
  numprocs : Z;
  myid : Z;
  allocate_memory_pt2pt : bool;
  cleanup_accel : bool }.

Definition stop (status : Z) (st : state) : run :=
  {| exit_status := Ok status; steps := log st; trace := calls st |}.

(** The variables as the loop over sizes finds them: [size =
    options.min_message_size], the clock readings at [0.0]. *)
Definition initial_state (failed : bool) (o : options_t) : state :=
  {| msg_size := CInt.wrap (min_message_size o); options := o;
     t_start := 0%float; t_end := 0%float; calls := [];
     log := [Sanity_check failed] |}.

(** [main], as what process [p] leaves behind.  The block length is the
    same in every round, so a division by zero is that of the first
    round, which the filling of the two buffers precedes. *)
Definition main `{macros} (fuel : nat) (sub : substrate) (o : options_t)
    (p : process) : run :=
  let failed := sanity_check o in
  let po := if failed then PO_BAD_USAGE else po_ret p in
  let o := raise_min_message_size o in
  let st := initial_state failed o in
  if bool_decide (po = PO_OKAY) && bool_decide (accel o <> NONE)
     && init_accel p
  then stop EXIT_FAILURE st
  else if (myid p =? 0) && bool_decide (po = PO_VERSION_MESSAGE)
  then stop EXIT_SUCCESS st
  else
    match po with
    | PO_CUDA_NOT_AVAIL | PO_OPENACC_NOT_AVAIL | PO_BAD_USAGE =>
        stop EXIT_FAILURE st
    | PO_HELP_MESSAGE | PO_VERSION_MESSAGE => stop EXIT_SUCCESS st
    | PO_OKAY =>
        if negb (numprocs p =? 2) then stop EXIT_FAILURE st
        else if allocate_memory_pt2pt p then stop EXIT_FAILURE st
        else
          match size_loop sub (myid p) fuel st with
          | Ok st =>
              if bool_decide (accel (options st) <> NONE) && cleanup_accel p
              then stop EXIT_FAILURE st
              else stop EXIT_SUCCESS st
          | Div_by_zero =>
              {| exit_status := Div_by_zero; steps := log st;
                 trace := calls (set_buffers st) |}
          | Out_of_fuel =>
              {| exit_status := Out_of_fuel; steps := log st; trace := calls st |}
          end
    end.

End LatencyDt.

(** ** osu_multi_lat_dt.c *)

Module MultiLatDt.

Import Dt.

(** [Wtime rank size k]: what [MPI_Wtime] returns on rank [rank], in the
    round of [size] bytes, once [k] iterations of the loop are over.
    [Reduce_sum]: the sum [MPI_Reduce] delivers at the root for the
    contributions of ranks 0, 1, ... in this order. *)
Record substrate := {
  Wtime : Z -> Z -> nat -> float;
  Reduce_sum : list float -> float }.



(** The variables of one rank in [multi_latency]. *)
Record locals := {
  t_start : float;
  t_end : float;
  latency : float;
  total_lat : float;
  avg_lat : float;
  calls : list call }.

Definition emit (cs : list call) (l : locals) : locals :=
  {| t_start := t_start l; t_end := t_end l; latency := latency l;
     total_lat := total_lat l; avg_lat := avg_lat l;
     calls := calls l ++ cs |}.

Definition set_t_start (t : float) (l : locals) : locals :=
  {| t_start := t; t_end := t_end l; latency := latency l;
     total_lat := total_lat l; avg_lat := avg_lat l; calls := calls l |}.

Definition set_t_end (t : float) (l : locals) : locals :=
  {| t_start := t_start l; t_end := t; latency := latency l;
     total_lat := total_lat l; avg_lat := avg_lat l; calls := calls l |}.

Definition set_latency (x : float) (l : locals) : locals :=
  {| t_start := t_start l; t_end := t_end l; latency := x;
     total_lat := total_lat l; avg_lat := avg_lat l; calls := calls l |}.

Definition set_total_lat (x : float) (l : locals) : locals :=
  {| t_start := t_start l; t_end := t_end l; latency := latency l;
     total_lat := x; avg_lat := avg_lat l; calls := calls l |}.

Definition set_avg_lat (x : float) (l : locals) : locals :=
  {| t_start := t_start l; t_end := t_end l; latency := latency l;
     total_lat := total_lat l; avg_lat := x; calls := calls l |}.

(** The ranks together: [size] and [options] are the same on every
    rank. *)
Record world := {
  msg_size : Z;
  options : options_t;
  ranks : list locals;
  log : list step }.

Definition set_msg_size (sz : Z) (w : world) : world :=
  {| msg_size := sz; options := options w; ranks := ranks w; log := log w |}.

(** The body of either inner loop, iteration [i]; [exchange] is [ping] on
    the ranks below [pairs] and [pong] on the others. *)
Definition iteration (sub : substrate) (o : options_t) (rank size : Z)
    (exchange : list call) (l : locals) (i : nat) : locals :=
  let l :=
    if Z.of_nat i =? skip o
    then emit [MPI_Barrier] (set_t_start (Wtime sub rank size i) l)
    else l in
  emit exchange l.

(** One round of rank [rank], from the layout descriptor to the
    computation of [latency].  The calls are those the rank makes when
    none of its waits is left pending, which is so when its partner runs
    the same round with the rank as its own partner: [nprocs] is even.  A
    rank nobody sends to stops in its first [MPI_Wait]; the calls it has
    made by then are the first of these. *)
Definition round_of_rank (sub : substrate) (o : options_t)
    (pairs size rank : Z) (l : locals) : locals :=
  let rep := rep_count size o in
  let l :=
    emit [MPI_Type_vector rep (dt_block_size o) (dt_stride_size o);
          MPI_Type_commit; MPI_Barrier] l in
  let partner :=
    if rank <? pairs then CInt.add rank pairs else CInt.add rank (- pairs) in
  let exchange := if rank <? pairs then ping partner else pong partner in
  let l := foldl (iteration sub o rank size exchange) l (iteration_indices o) in
  let l := set_t_end (Wtime sub rank size (length (iteration_indices o))) l in
  let l := emit [MPI_Type_free] l in
  set_latency (one_way_latency (t_start l) (t_end l) o) l.

(** The two branches of [if (rank < pairs)] on their own: which side
    sends first, and [partner = rank + pairs] or [partner = rank - pairs]. *)
Definition sends_first (pairs rank : Z) : bool := rank <? pairs.

Definition partner (pairs rank : Z) : Z :=
  if sends_first pairs rank then CInt.add rank pairs
  else CInt.add rank (- pairs).

(** The calls of iteration [i] of either inner loop of rank [rank]. *)
Definition iteration_calls (o : options_t) (pairs rank : Z) (i : nat)
    : list call :=
  (if Z.of_nat i =? skip o then [MPI_Barrier] else [])
  ++ (if sends_first pairs rank then ping (partner pairs rank)
      else pong (partner pairs rank)).

(** [MPI_Reduce] to rank 0, [avg_lat = total_lat / (double)(pairs * 2)]
    and the line rank 0 prints. *)
Definition reduce_and_report (sub : substrate) (pairs size : Z)
    (latencies : list float) (rank : nat) (l : locals) : locals :=
  let l := emit [MPI_Reduce MPI_SUM] l in
  let l :=
    if Z.of_nat rank =? 0 then set_total_lat (Reduce_sum sub latencies) l
    else l in
  let l :=
    set_avg_lat (total_lat l / CDouble.of_Z (CInt.mul pairs 2))%float l in
  if Z.of_nat rank =? 0 then emit [print_latency size (avg_lat l)] l else l.

(** The latency rank [rank] measures in the round of [size] bytes: the
    time from the end of the warm-up to the end of the loop, by the
    expression both programs use. *)
Definition rank_latency (sub : substrate) (o : options_t)
    (size rank : Z) : float :=
  one_way_latency
    (Wtime sub rank size (Z.to_nat (skip o)))
    (Wtime sub rank size (Z.to_nat (iterations o + skip o))) o.

(** The body of the loop over sizes. *)
Definition round `{macros} (sub : substrate) (pairs : Z) (w : world)
    : result world :=
  let size := msg_size w in
  let o := large_message_profile size (options w) in
  if dt_block_size o =? 0 then Div_by_zero
  else
    let rs :=
      imap (fun r l => round_of_rank sub o pairs size (Z.of_nat r) l)
           (ranks w) in
    let rs := imap (reduce_and_report sub pairs size (map latency rs)) rs in
    Ok {| msg_size := size; options := o; ranks := rs;
          log := log w ++ [Round size (rep_count size o)] |}.

(** [multi_latency], run by all the ranks. *)
Fixpoint multi_latency `{macros} (sub : substrate) (pairs : Z) (fuel : nat)
    (w : world) : result world :=
  match fuel with
  | O => Out_of_fuel
  | S fuel =>
      if size_in_bounds (msg_size w) (options w) then
        match round sub pairs w with
        | Ok w =>
            multi_latency sub pairs fuel (set_msg_size (next_size (msg_size w)) w)
        | Div_by_zero => Div_by_zero
        | Out_of_fuel => Out_of_fuel
        end
      else Ok w
  end.

Record process := {
  po_ret : po_ret_type;
  init_accel : bool;
  nprocs : Z;
  rank : Z;
  allocate_memory_pt2pt_mul : bool }.

Definition initial_locals : locals :=
  {| t_start := 0%float; t_end := 0%float; latency := 0%float;
     total_lat := 0%float; avg_lat := 0%float; calls := [] |}.

Definition stop (status : Z) (w : world) (rank : Z) : run :=
  {| exit_status := Ok status; steps := log w;
     trace := calls (default initial_locals (ranks w !! Z.to_nat rank)) |}.

(** The ranks as [multi_latency] finds them. *)
Definition initial_world (failed : bool) (o : options_t) (nprocs : Z) : world :=
  {| msg_size := CInt.wrap (min_message_size o); options := o;
     ranks := replicate (Z.to_nat nprocs) initial_locals;
     log := [Sanity_check failed] |}.

(** [main], as what process [p] leaves behind.  The exit status is that
    of the program when no rank is left waiting and [MPI_Finalize] is
    called once: with [PO_OKAY] the ranks come in pairs ([nprocs] is
    even and at least 2), and the version is not asked of rank 0, which
    would finalize at lines 71-74 and again at lines 86-89. *)
Definition main `{macros} (fuel : nat) (sub : substrate) (o : options_t)
    (p : process) : run :=
  let failed := sanity_check o in
  let po := if failed then PO_BAD_USAGE else po_ret p in
  let o := raise_min_message_size o in
  let w := initial_world failed o (nprocs p) in
  if bool_decide (po = PO_OKAY) && bool_decide (accel o <> NONE)
     && init_accel p
  then stop EXIT_FAILURE w (rank p)
  else
    let pairs := CInt.div (nprocs p) 2 in
    match po with
    | PO_CUDA_NOT_AVAIL | PO_OPENACC_NOT_AVAIL | PO_BAD_USAGE =>
        stop EXIT_FAILURE w (rank p)
    | PO_HELP_MESSAGE | PO_VERSION_MESSAGE => stop EXIT_SUCCESS w (rank p)
    | PO_OKAY =>
        if allocate_memory_pt2pt_mul p then stop EXIT_FAILURE w (rank p)
        else
          match multi_latency sub pairs fuel w with
          | Ok w => stop EXIT_SUCCESS w (rank p)
          | Div_by_zero =>
              {| exit_status := Div_by_zero; steps := log w; trace := [] |}
          | Out_of_fuel =>
              {| exit_status := Out_of_fuel; steps := log w; trace := [] |}
          end
    end.

End MultiLatDt.

(** ** A small configuration

    Two ranks, sizes from 4 to 32 bytes, three measured iterations after
    two warm-up iterations, blocks of 3 bytes every 4 bytes, validation
    on. *)

Module Example.

Definition example_macros : macros :=
  {| LARGE_MESSAGE_SIZE := 8192;
     MIN_MESSAGE_SIZE := 1;
     MAX_DT_BLOCK_SIZE := 1024;
     MAX_DT_STRIDE_SIZE := 4096 |}.

Definition example_options : options_t :=
  {| min_message_size := 4;
     max_message_size := 32;
     iterations := 3;
     iterations_large := 2;
     skip := 2;
     skip_large := 1;
     dt_block_size := 3;
     dt_stride_size := 4;
     warmup_validation := 1;
     validate := true;
     accel := NONE;
     graph := false |}.

(** The same options with another block length. *)
Definition options_with_block (block : Z) : options_t :=
  {| min_message_size := min_message_size example_options;
     max_message_size := max_message_size example_options;
     iterations := iterations example_options;
     iterations_large := iterations_large example_options;
     skip := skip example_options;
     skip_large := skip_large example_options;
     dt_block_size := block;
     dt_stride_size := dt_stride_size example_options;
     warmup_validation := warmup_validation example_options;
     validate := validate example_options;
     accel := accel example_options;
     graph := graph example_options |}.

(** A clock that ticks once per iteration: iteration [i] of the first
    loop lasts [size] seconds on every rank.  The validation finds one
    mismatch: on rank 1, at 4 elements, in the second loop, iteration 1. *)
Definition reduce_scatter_substrate : IreduceScatter.substrate :=
  {| IreduceScatter.Wtime_latency := fun rank size i =>
       {| IreduceScatter.l_t_start := CDouble.of_Z (Z.of_nat i);
          IreduceScatter.l_t_stop := CDouble.of_Z (Z.of_nat i + size) |};
     IreduceScatter.Wtime_overlap := fun rank size i =>
       {| IreduceScatter.o_t_start := 0%float;
          IreduceScatter.o_init_begin := 1%float;
          IreduceScatter.o_init_end := 2%float;
          IreduceScatter.o_tcomp_begin := 3%float;
          IreduceScatter.o_tcomp_end := 4%float;
          IreduceScatter.o_wait_begin := 5%float;
          IreduceScatter.o_wait_end := 6%float;
          IreduceScatter.o_t_stop := 7%float |};
     IreduceScatter.dummy_compute_result := fun rank size i => 1%float;
     IreduceScatter.validate_result := fun rank size overlap i =>
       if (size =? 4) && (rank =? 1) && overlap && (i =? 1)%nat then 1 else 0 |}.

(** The same run as seen without the two warm-up iterations: what was
    iteration [2 + i] is iteration [i]. *)
Definition reduce_scatter_substrate_shifted : IreduceScatter.substrate :=
  {| IreduceScatter.Wtime_latency := fun rank size i =>
       IreduceScatter.Wtime_latency reduce_scatter_substrate rank size (2 + i);
     IreduceScatter.Wtime_overlap := fun rank size i =>
       IreduceScatter.Wtime_overlap reduce_scatter_substrate rank size (2 + i);
     IreduceScatter.dummy_compute_result := fun rank size i =>
       IreduceScatter.dummy_compute_result reduce_scatter_substrate rank size
         (2 + i);
     IreduceScatter.validate_result := fun rank size overlap i =>
       IreduceScatter.validate_result reduce_scatter_substrate rank size
         overlap (2 + i) |}.

(** A process of the reduce-scatter benchmark whose start-up and
    shut-down succeed. *)
Definition reduce_scatter_process (rank : Z) : IreduceScatter.process :=
  {| IreduceScatter.po_ret := PO_OKAY;
     IreduceScatter.init_accel := false;
     IreduceScatter.numprocs := 2;
     IreduceScatter.rank := rank;
     IreduceScatter.allocate_recvcounts := false;
     IreduceScatter.allocate_sendbuf := false;
     IreduceScatter.allocate_recvbuf := false;
     IreduceScatter.cleanup_accel := false |}.

(** The clock of the latency benchmarks: one second per iteration. *)
Definition latency_substrate : LatencyDt.substrate :=
  {| LatencyDt.Wtime := fun size k => CDouble.of_Z (Z.of_nat k) |}.

(** The variables of osu_latency_dt as its loop over sizes finds them
    when the minimum size is 0. *)
Definition latency_state_from_zero : LatencyDt.state :=
  {| LatencyDt.msg_size := 0;
     LatencyDt.options := example_options;
     LatencyDt.t_start := 0%float;
     LatencyDt.t_end := 0%float;
     LatencyDt.calls := [];
     LatencyDt.log := [] |}.

(** The same at the head of the round of [size] bytes. *)
Definition latency_state_at (size : Z) : LatencyDt.state :=
  {| LatencyDt.msg_size := size;
     LatencyDt.options := example_options;
     LatencyDt.t_start := 0%float;
     LatencyDt.t_end := 0%float;
     LatencyDt.calls := [];
     LatencyDt.log := [] |}.

(** The ranks of osu_multi_lat_dt at the head of the round of [size]
    bytes. *)
Definition multi_latency_world_at (size : Z) (nprocs : nat)
    : MultiLatDt.world :=
  {| MultiLatDt.msg_size := size;
     MultiLatDt.options := example_options;
     MultiLatDt.ranks := replicate nprocs MultiLatDt.initial_locals;
     MultiLatDt.log := [] |}.

(** The clock and the variables of the same run without the two warm-up
    iterations. *)
Definition latency_substrate_shifted : LatencyDt.substrate :=
  {| LatencyDt.Wtime := fun size k => LatencyDt.Wtime latency_substrate size (2 + k) |}.

Definition latency_state_without_warmup (size : Z) : LatencyDt.state :=
  LatencyDt.set_options (set_iterations_skip 3 0 example_options)
    (latency_state_at size).

Definition latency_process (po : po_ret_type) (numprocs myid : Z)
    : LatencyDt.process :=
  {| LatencyDt.po_ret := po;
     LatencyDt.init_accel := false;
     LatencyDt.numprocs := numprocs;
     LatencyDt.myid := myid;
     LatencyDt.allocate_memory_pt2pt := false;
     LatencyDt.cleanup_accel := false |}.

(** [MPI_Reduce] adding up the contributions in the order of the
    ranks. *)
Definition sum_in_rank_order (xs : list float) : float :=
  match xs with
  | [] => 0%float
  | x :: xs => foldl PrimFloat.add x xs
  end.

Definition multi_latency_substrate : MultiLatDt.substrate :=
  {| MultiLatDt.Wtime := fun rank size k => CDouble.of_Z (rank + Z.of_nat k);
     MultiLatDt.Reduce_sum := sum_in_rank_order |}.

Definition multi_latency_process (po : po_ret_type) (nprocs rank : Z)
    : MultiLatDt.process :=
  {| MultiLatDt.po_ret := po;
     MultiLatDt.init_accel := false;
     MultiLatDt.nprocs := nprocs;
     MultiLatDt.rank := rank;
     MultiLatDt.allocate_memory_pt2pt_mul := false |}.

(** The same options with a device selected. *)
Definition options_on_device : options_t :=
  {| min_message_size := min_message_size example_options;
     max_message_size := max_message_size example_options;
     iterations := iterations example_options;
     iterations_large := iterations_large example_options;
     skip := skip example_options;
     skip_large := skip_large example_options;
     dt_block_size := dt_block_size example_options;
     dt_stride_size := dt_stride_size example_options;
     warmup_validation := warmup_validation example_options;
     validate := validate example_options;
     accel := DEVICE;
     graph := graph example_options |}.

(** Processes by what [process_options], [init_accel] and
    [cleanup_accel] return; the allocations succeed. *)
Definition reduce_scatter_start_up (po : po_ret_type) (init cleanup : bool)
    (numprocs rank : Z) : IreduceScatter.process :=
  {| IreduceScatter.po_ret := po;
     IreduceScatter.init_accel := init;
     IreduceScatter.numprocs := numprocs;
     IreduceScatter.rank := rank;
     IreduceScatter.allocate_recvcounts := false;
     IreduceScatter.allocate_sendbuf := false;
     IreduceScatter.allocate_recvbuf := false;
     IreduceScatter.cleanup_accel := cleanup |}.

Definition latency_start_up (po : po_ret_type) (init cleanup : bool)
    (numprocs myid : Z) : LatencyDt.process :=
  {| LatencyDt.po_ret := po;
     LatencyDt.init_accel := init;
     LatencyDt.numprocs := numprocs;
     LatencyDt.myid := myid;
     LatencyDt.allocate_memory_pt2pt := false;
     LatencyDt.cleanup_accel := cleanup |}.

Definition multi_latency_start_up (po : po_ret_type) (init : bool)
    (nprocs rank : Z) : MultiLatDt.process :=
  {| MultiLatDt.po_ret := po;
     MultiLatDt.init_accel := init;
     MultiLatDt.nprocs := nprocs;
     MultiLatDt.rank := rank;
     MultiLatDt.allocate_memory_pt2pt_mul := false |}.

End Example.

(** * Properties *)

(** ** C arithmetic within range *)

Lemma CInt_wrap_id (z : Z) : CInt.in_range z -> CInt.wrap z = z.
Proof.
  unfold CInt.in_range, CInt.INT_MIN, CInt.INT_MAX, CInt.wrap. intros Hz.
  rewrite Z.mod_small; lia.
Qed.

Lemma CInt_div_nonneg (a b : Z) : 0 <= a -> 0 < b -> CInt.div a b = a / b.
Proof. intros Ha Hb. unfold CInt.div. apply Z.quot_div_nonneg; lia. Qed.

Lemma CInt_rem_nonneg (a b : Z) : 0 <= a -> 0 < b -> CInt.rem a b = a mod b.
Proof. intros Ha Hb. unfold CInt.rem. apply Z.rem_mod_nonneg; lia. Qed.

(** ** The scatter partition *)

Section Partition.

Import IreduceScatter.

Lemma recvcount_partition_entry (S R i : Z) :
  1 <= S <= CInt.INT_MAX -> 2 <= R <= CInt.INT_MAX -> 0 <= i ->
  recvcount S R i = partition_entry S R i.
Proof.
  intros HS HR Hi0. unfold recvcount, partition_entry, portion, remainder.
  rewrite CInt_div_nonneg, CInt_rem_nonneg by lia.
  assert (Hq : 0 <= S / R <= S).
  { split; [apply Z.div_pos; lia|]. apply Z.div_le_upper_bound; nia. }
  pose proof (Z.mod_pos_bound S R ltac:(lia)) as Hm.
  destruct (Z.ltb_spec S R) as [Hlt|Hge];
    destruct (Z.leb_spec R S) as [Hle|Hgt]; try lia.
  unfold CInt.add.
  assert (HSR : S / R < S) by (apply Z.div_lt_upper_bound; nia).
  destruct (Z.ltb_spec i (S mod R)) as [Hi|Hi].
  - destruct (Z.eqb_spec (S mod R) 0) as [H0|H0]; simpl.
    + (* no index lies below a zero remainder *)
      lia.
    + rewrite (CInt_wrap_id (0 + 1)) by
        (unfold CInt.in_range, CInt.INT_MIN, CInt.INT_MAX; lia).
      rewrite CInt_wrap_id; [lia|].
      unfold CInt.in_range, CInt.INT_MIN, CInt.INT_MAX in *. lia.
  - rewrite andb_false_r.
    rewrite CInt_wrap_id; [lia|].
    unfold CInt.in_range, CInt.INT_MIN, CInt.INT_MAX in *. lia.
Qed.

(** A loop that stores [f i] at every index below [k] leaves the rest of
    the array alone. *)
Lemma foldl_insert_seq {A} (f : nat -> A) (k : nat) (a : list A) :
  (k <= length a)%nat ->
  foldl (fun a (i : nat) => <[i := f i]> a) a (seq 0 k) = map f (seq 0 k) ++ drop k a.
Proof.
  induction k as [|k IH]; intros Hk.
  - simpl. by rewrite drop_0.
  - rewrite seq_S, foldl_app, map_app. simpl.
    rewrite IH by lia.
    destruct (lookup_lt_is_Some_2 a k ltac:(lia)) as [x Hx].
    rewrite (drop_S a x k Hx).
    rewrite insert_app_r_alt; rewrite length_map, length_seq; [|lia].
    rewrite Nat.sub_diag. simpl. by rewrite <- app_assoc.
Qed.

Lemma set_recvcounts_map (S R : Z) (a : list Z) :
  length a = Z.to_nat R ->
  set_recvcounts S R a = map (fun i : nat => recvcount S R (Z.of_nat i)) (seq 0 (Z.to_nat R)).
Proof.
  intros Hlen. unfold set_recvcounts.
  rewrite (foldl_insert_seq (fun i : nat => recvcount S R (Z.of_nat i))) by lia.
  rewrite <- Hlen, drop_all. apply app_nil_r.
Qed.

Lemma total_app (l1 l2 : list Z) : total (l1 ++ l2) = total l1 + total l2.
Proof. unfold total. induction l1 as [|x l1 IH]; simpl; lia. Qed.

(** [k] entries of which those below [r] are [q + 1] and the others [q]. *)
Lemma total_two_level (q r : Z) (k : nat) :
  0 <= r ->
  total (map (fun i : nat => if Z.of_nat i <? r then q + 1 else q) (seq 0 k))
  = Z.of_nat k * q + Z.min (Z.of_nat k) r.
Proof.
  intros Hr. induction k as [|k IH].
  - simpl. unfold total. simpl. lia.
  - rewrite seq_S, map_app, total_app, IH. simpl. unfold total. simpl.
    destruct (Z.ltb_spec (Z.of_nat k) r); lia.
Qed.

Lemma partition_entry_nonneg (S R i : Z) :
  1 <= S -> 2 <= R -> 0 <= partition_entry S R i.
Proof.
  intros HS HR. unfold partition_entry.
  assert (0 <= S / R) by (apply Z.div_pos; lia).
  repeat case_match; lia.
Qed.

Lemma total_partition (S R : Z) :
  1 <= S -> 2 <= R ->
  total (map (fun i : nat => partition_entry S R (Z.of_nat i)) (seq 0 (Z.to_nat R))) = S.
Proof.
  intros HS HR. unfold partition_entry.
  pose proof (Z.mod_pos_bound S R ltac:(lia)) as Hm.
  destruct (Z.leb_spec R S) as [Hle|Hgt].
  - rewrite total_two_level by lia. rewrite Z2Nat.id by lia.
    rewrite Z.min_r by lia. rewrite (Z.div_mod S R) at 3 by lia. lia.
  - rewrite (total_two_level 0 S) by lia. rewrite Z2Nat.id by lia. lia.
Qed.

Lemma set_recvcounts_lookup (S R i : Z) (recvcounts : list Z) :
  1 <= S <= CInt.INT_MAX -> 2 <= R <= CInt.INT_MAX ->
  length recvcounts = Z.to_nat R -> 0 <= i < R ->
  set_recvcounts S R recvcounts !! Z.to_nat i = Some (partition_entry S R i).
Proof.
  intros HS HR Hlen Hi. rewrite set_recvcounts_map by done.
  rewrite list_lookup_fmap, lookup_seq_lt by lia. simpl.
  rewrite Z2Nat.id by lia. f_equal.
  apply recvcount_partition_entry; lia.
Qed.

(** C1.  For [S >= 1] elements and [R >= 2] ranks (both [int]s) the
    partition loop fills the [R] entries of [recvcounts], whatever the
    array held before, with: [S/R + 1] at the indices below [S mod R]
    and [S/R] at the others when [S >= R]; [1] at the indices below [S]
    and [0] at the others when [S < R].  No entry is negative and the
    entries sum to [S]. *)
Theorem scatter_partition (S R : Z) (recvcounts : list Z) :
  1 <= S <= CInt.INT_MAX -> 2 <= R <= CInt.INT_MAX ->
  length recvcounts = Z.to_nat R ->
  let rc := set_recvcounts S R recvcounts in
  length rc = Z.to_nat R /\
  (forall i, 0 <= i < R ->
     rc !! Z.to_nat i =
     Some (if R <=? S then (if i <? S mod R then S / R + 1 else S / R)
           else (if i <? S then 1 else 0))) /\
  (forall c, c ∈ rc -> 0 <= c) /\
  total rc = S.
Proof.
  intros HS HR Hlen rc. subst rc.
  rewrite set_recvcounts_map by done.
  assert (Heq : map (fun i : nat => recvcount S R (Z.of_nat i)) (seq 0 (Z.to_nat R))
              = map (fun i : nat => partition_entry S R (Z.of_nat i)) (seq 0 (Z.to_nat R))).
  { apply map_ext. intros i. apply recvcount_partition_entry; lia. }
  rewrite Heq. repeat split.
  - by rewrite length_map, length_seq.
  - intros i Hi. rewrite list_lookup_fmap.
    rewrite lookup_seq_lt by lia. simpl. by rewrite Z2Nat.id by lia.
  - intros c Hc. apply list_elem_of_fmap in Hc as (i & -> & _).
    apply partition_entry_nonneg; lia.
  - apply total_partition; lia.
Qed.

End Partition.

(** Ten elements over four ranks, and two elements over four ranks; the
    array is overwritten whatever it held. *)
Example recvcounts_of_10_over_4 :
  IreduceScatter.set_recvcounts 10 4 [7; 7; 7; 7] = [3; 3; 2; 2].
Proof. reflexivity. Qed.

Example recvcounts_of_2_over_4 :
  IreduceScatter.set_recvcounts 2 4 [3; 3; 2; 2] = [1; 1; 0; 0].
Proof. reflexivity. Qed.

Lemma scatter_partition_witness :
  IreduceScatter.set_recvcounts 10 4 [7; 7; 7; 7] !! 1%nat = Some 3 /\
  IreduceScatter.total (IreduceScatter.set_recvcounts 10 4 [7; 7; 7; 7]) = 10.
Proof.
  destruct (scatter_partition 10 4 [7; 7; 7; 7]) as (_ & Hentry & _ & Hsum).
  - unfold CInt.INT_MAX. lia.
  - unfold CInt.INT_MAX. lia.
  - reflexivity.
  - split; [exact (Hentry 1 ltac:(lia)) | exact Hsum].
Defined.


(** ** The timed loops of the reduce-scatter benchmark *)

Section TimedLoops.

Import IreduceScatter.

Variables (o : options_t) (sub : substrate) (rank size : Z).

(** Projections of the updated variables, computed from the outside in. *)
Ltac project :=
  cbn [timer latency latency_in_secs tcomp_total wait_total test_total
       init_total local_errors recvcounts calls
       emit set_timer set_totals set_local_errors set_latency set_counts].

Lemma validation_check_frame (overlap : bool) (i : nat) (l : locals) :
  let l' := validation_check o sub rank size overlap i l in
  timer l' = timer l /\ tcomp_total l' = tcomp_total l /\
  wait_total l' = wait_total l /\ test_total l' = test_total l /\
  init_total l' = init_total l /\ recvcounts l' = recvcounts l /\
  latency l' = latency l /\ latency_in_secs l' = latency_in_secs l.
Proof.
  unfold validation_check. cbv zeta.
  repeat case_match; project; auto 10.
Qed.

Lemma validation_check_emits (overlap : bool) (i : nat) (l : locals) :
  calls (validation_check o sub rank size overlap i l)
  = calls l ++ validation_check_calls o (recvcounts l) rank size i.
Proof.
  unfold validation_check, validation_check_calls.
  repeat case_match; project; simpl in *; try discriminate;
    rewrite ?app_nil_r; reflexivity.
Qed.

Lemma validation_check_local_errors (overlap : bool) (i : nat) (l : locals) :
  local_errors (validation_check o sub rank size overlap i l)
  = if validate o && negb (default 0 (recvcounts l !! Z.to_nat rank) =? 0)
    then CInt.add (local_errors l) (validate_result sub rank size overlap i)
    else local_errors l.
Proof.
  unfold validation_check. repeat case_match; project; simpl in *; congruence.
Qed.

Ltac frame_of_check :=
  match goal with
  | |- context [validation_check o sub rank size ?b ?i ?l] =>
      let H := fresh in
      let H1 := fresh in let H2 := fresh in let H3 := fresh in
      let H4 := fresh in let H5 := fresh in let H6 := fresh in
      let H7 := fresh in let H8 := fresh in
      pose proof (validation_check_frame b i l) as H; cbv zeta in H;
      destruct H as (H1 & H2 & H3 & H4 & H5 & H6 & H7 & H8);
      rewrite ?H1, ?H2, ?H3, ?H4, ?H5, ?H6, ?H7, ?H8;
      clear H1 H2 H3 H4 H5 H6 H7 H8
  end.

(** What one iteration of the first loop does to each variable. *)
Lemma latency_iteration_timer (l : locals) (i : nat) :
  timer (latency_iteration o sub rank size l i)
  = if skip o <=? Z.of_nat i
    then (timer l + total_time (Wtime_latency sub rank size i))%float
    else timer l.
Proof.
  unfold latency_iteration. cbv zeta.
  case_match; project; frame_of_check; project; reflexivity.
Qed.

Lemma latency_iteration_frame (l : locals) (i : nat) :
  let l' := latency_iteration o sub rank size l i in
  recvcounts l' = recvcounts l /\
  latency l' = latency l /\
  latency_in_secs l' = latency_in_secs l.
Proof.
  unfold latency_iteration. cbv zeta.
  case_match; project; frame_of_check; project; auto.
Qed.

Lemma latency_iteration_emits (l : locals) (i : nat) :
  calls (latency_iteration o sub rank size l i)
  = calls l ++ latency_iteration_calls o (recvcounts l) rank size i.
Proof.
  unfold latency_iteration, latency_iteration_calls. cbv zeta.
  case_match; project; rewrite validation_check_emits; project;
    rewrite <- ?app_assoc; reflexivity.
Qed.

Lemma latency_iteration_local_errors (l : locals) (i : nat) :
  local_errors (latency_iteration o sub rank size l i)
  = if validate o && negb (default 0 (recvcounts l !! Z.to_nat rank) =? 0)
    then CInt.add (local_errors l) (validate_result sub rank size false i)
    else local_errors l.
Proof.
  unfold latency_iteration. cbv zeta.
  case_match; project; rewrite validation_check_local_errors; project;
    reflexivity.
Qed.

(** The same for the second loop. *)
Lemma overlap_iteration_totals (l : locals) (i : nat) :
  let l' := overlap_iteration o sub rank size l i in
  let w := Wtime_overlap sub rank size i in
  if skip o <=? Z.of_nat i then
    timer l' = (timer l + (o_t_stop w - o_t_start w))%float /\
    tcomp_total l' = (tcomp_total l + (o_tcomp_end w - o_tcomp_begin w))%float /\
    wait_total l' = (wait_total l + (o_wait_end w - o_wait_begin w))%float /\
    test_total l' = (test_total l + dummy_compute_result sub rank size i)%float /\
    init_total l' = (init_total l + (o_init_end w - o_init_begin w))%float
  else
    timer l' = timer l /\ tcomp_total l' = tcomp_total l /\
    wait_total l' = wait_total l /\ test_total l' = test_total l /\
    init_total l' = init_total l.
Proof.
  unfold overlap_iteration. cbv zeta.
  case_match; project; frame_of_check; project; auto 10.
Qed.

Lemma overlap_iteration_frame (l : locals) (i : nat) :
  let l' := overlap_iteration o sub rank size l i in
  recvcounts l' = recvcounts l /\
  latency l' = latency l /\
  latency_in_secs l' = latency_in_secs l.
Proof.
  unfold overlap_iteration. cbv zeta.
  case_match; project; frame_of_check; project; auto.
Qed.

Lemma overlap_iteration_emits (l : locals) (i : nat) :
  calls (overlap_iteration o sub rank size l i)
  = calls l ++ overlap_iteration_calls o (recvcounts l) rank size
                 (latency_in_secs l) i.
Proof.
  unfold overlap_iteration, overlap_iteration_calls. cbv zeta.
  case_match; project; rewrite validation_check_emits; project;
    rewrite <- ?app_assoc; reflexivity.
Qed.

Lemma overlap_iteration_local_errors (l : locals) (i : nat) :
  local_errors (overlap_iteration o sub rank size l i)
  = if validate o && negb (default 0 (recvcounts l !! Z.to_nat rank) =? 0)
    then CInt.add (local_errors l) (validate_result sub rank size true i)
    else local_errors l.
Proof.
  unfold overlap_iteration. cbv zeta.
  case_match; project; rewrite validation_check_local_errors; project;
    reflexivity.
Qed.

(** *** Runs of iterations *)

Lemma latency_run_frame (l : locals) (js : list nat) :
  let l' := foldl (latency_iteration o sub rank size) l js in
  recvcounts l' = recvcounts l /\
  latency l' = latency l /\
  latency_in_secs l' = latency_in_secs l.
Proof.
  revert l. induction js as [|j js IH]; intros l; simpl; [auto|].
  destruct (IH (latency_iteration o sub rank size l j)) as (-> & -> & ->).
  apply latency_iteration_frame.
Qed.

Lemma overlap_run_frame (l : locals) (js : list nat) :
  let l' := foldl (overlap_iteration o sub rank size) l js in
  recvcounts l' = recvcounts l /\
  latency l' = latency l /\
  latency_in_secs l' = latency_in_secs l.
Proof.
  revert l. induction js as [|j js IH]; intros l; simpl; [auto|].
  destruct (IH (overlap_iteration o sub rank size l j)) as (-> & -> & ->).
  apply overlap_iteration_frame.
Qed.

(** Every iteration of a run, warm-up or measured, makes its calls. *)
Lemma latency_run_calls (l : locals) (js : list nat) :
  calls (foldl (latency_iteration o sub rank size) l js)
  = calls l
    ++ concat (map (latency_iteration_calls o (recvcounts l) rank size) js).
Proof.
  revert l. induction js as [|j js IH]; intros l; simpl.
  - by rewrite app_nil_r.
  - rewrite IH, latency_iteration_emits.
    destruct (latency_iteration_frame l j) as (-> & _).
    by rewrite <- app_assoc.
Qed.

Lemma overlap_run_calls (l : locals) (js : list nat) :
  calls (foldl (overlap_iteration o sub rank size) l js)
  = calls l
    ++ concat (map (overlap_iteration_calls o (recvcounts l) rank size
                      (latency_in_secs l)) js).
Proof.
  revert l. induction js as [|j js IH]; intros l; simpl.
  - by rewrite app_nil_r.
  - rewrite IH, overlap_iteration_emits.
    destruct (overlap_iteration_frame l j) as (-> & _ & ->).
    by rewrite <- app_assoc.
Qed.

(** Iterations below [skip] leave the timer alone. *)
Lemma latency_run_skipped (l : locals) (js : list nat) :
  Forall (fun j => Z.of_nat j < skip o) js ->
  timer (foldl (latency_iteration o sub rank size) l js) = timer l.
Proof.
  revert l. induction js as [|j js IH]; intros l Hjs; simpl; [done|].
  inversion Hjs as [|? ? Hj Hrest]; subst.
  rewrite IH by done. rewrite latency_iteration_timer.
  destruct (Z.leb_spec (skip o) (Z.of_nat j)); [lia|done].
Qed.

(** Iterations from [skip] on add their total time to it, in order. *)
Lemma latency_run_measured (l : locals) (js : list nat) :
  Forall (fun j => skip o <= Z.of_nat j) js ->
  timer (foldl (latency_iteration o sub rank size) l js)
  = CDouble.accumulate (timer l)
      (map (fun i => total_time (Wtime_latency sub rank size i)) js).
Proof.
  revert l. induction js as [|j js IH]; intros l Hjs; simpl; [done|].
  inversion Hjs as [|? ? Hj Hrest]; subst.
  rewrite IH by done. rewrite latency_iteration_timer.
  destruct (Z.leb_spec (skip o) (Z.of_nat j)); [done|lia].
Qed.

(** The iterations of a loop are the skipped ones followed by the
    measured ones. *)
Lemma iteration_indices_split :
  0 <= skip o -> 0 <= iterations o ->
  iteration_indices o = seq 0 (Z.to_nat (skip o)) ++ measured_indices o.
Proof.
  intros Hs Hi. unfold iteration_indices, measured_indices.
  replace (Z.to_nat (iterations o + skip o))
    with (Z.to_nat (skip o) + Z.to_nat (iterations o))%nat by lia.
  apply seq_app.
Qed.

Lemma skipped_indices_below :
  0 <= skip o ->
  Forall (fun j => Z.of_nat j < skip o) (seq 0 (Z.to_nat (skip o))).
Proof.
  intros Hs. apply Forall_forall. intros j Hj.
  apply elem_of_seq in Hj. lia.
Qed.

Lemma measured_indices_above :
  0 <= skip o ->
  Forall (fun j => skip o <= Z.of_nat j) (measured_indices o).
Proof.
  intros Hs. apply Forall_forall. intros j Hj.
  apply elem_of_seq in Hj. lia.
Qed.

(** The timer the first loop leaves is the sum over the measured
    iterations alone. *)
Lemma latency_loop_timer (l : locals) :
  0 <= skip o -> 0 <= iterations o ->
  timer (latency_loop o sub rank size l)
  = CDouble.accumulate (timer l)
      (map (fun i => total_time (Wtime_latency sub rank size i))
           (measured_indices o)).
Proof.
  intros Hs Hi. unfold latency_loop.
  rewrite iteration_indices_split, foldl_app by done.
  rewrite latency_run_measured by (by apply measured_indices_above).
  by rewrite latency_run_skipped by (by apply skipped_indices_below).
Qed.

(** The five accumulators of the second loop likewise. *)
Lemma overlap_run_skipped (l : locals) (js : list nat) :
  Forall (fun j => Z.of_nat j < skip o) js ->
  let l' := foldl (overlap_iteration o sub rank size) l js in
  timer l' = timer l /\ tcomp_total l' = tcomp_total l /\
  wait_total l' = wait_total l /\ test_total l' = test_total l /\
  init_total l' = init_total l.
Proof.
  revert l. induction js as [|j js IH]; intros l Hjs; simpl; [auto 10|].
  inversion Hjs as [|? ? Hj Hrest]; subst.
  destruct (IH (overlap_iteration o sub rank size l j) Hrest)
    as (-> & -> & -> & -> & ->).
  pose proof (overlap_iteration_totals l j) as Ht. cbv zeta in Ht.
  destruct (Z.leb_spec (skip o) (Z.of_nat j)); [lia|done].
Qed.

Lemma overlap_run_measured (l : locals) (js : list nat) :
  Forall (fun j => skip o <= Z.of_nat j) js ->
  let l' := foldl (overlap_iteration o sub rank size) l js in
  let w := Wtime_overlap sub rank size in
  timer l'
  = CDouble.accumulate (timer l)
      (map (fun i => (o_t_stop (w i) - o_t_start (w i))%float) js) /\
  tcomp_total l'
  = CDouble.accumulate (tcomp_total l)
      (map (fun i => (o_tcomp_end (w i) - o_tcomp_begin (w i))%float) js) /\
  wait_total l'
  = CDouble.accumulate (wait_total l)
      (map (fun i => (o_wait_end (w i) - o_wait_begin (w i))%float) js) /\
  test_total l'
  = CDouble.accumulate (test_total l)
      (map (dummy_compute_result sub rank size) js) /\
  init_total l'
  = CDouble.accumulate (init_total l)
      (map (fun i => (o_init_end (w i) - o_init_begin (w i))%float) js).
Proof.
  revert l. induction js as [|j js IH]; intros l Hjs; simpl; [auto 10|].
  inversion Hjs as [|? ? Hj Hrest]; subst.
  destruct (IH (overlap_iteration o sub rank size l j) Hrest)
    as (-> & -> & -> & -> & ->).
  pose proof (overlap_iteration_totals l j) as Ht. cbv zeta in Ht.
  destruct (Z.leb_spec (skip o) (Z.of_nat j)); [|lia].
  destruct Ht as (-> & -> & -> & -> & ->). done.
Qed.

Lemma overlap_loop_totals (l : locals) :
  0 <= skip o -> 0 <= iterations o ->
  let l' := overlap_loop o sub rank size l in
  let w := Wtime_overlap sub rank size in
  timer l'
  = CDouble.accumulate (timer l)
      (map (fun i => (o_t_stop (w i) - o_t_start (w i))%float)
           (measured_indices o)) /\
  tcomp_total l'
  = CDouble.accumulate (tcomp_total l)
      (map (fun i => (o_tcomp_end (w i) - o_tcomp_begin (w i))%float)
           (measured_indices o)) /\
  wait_total l'
  = CDouble.accumulate (wait_total l)
      (map (fun i => (o_wait_end (w i) - o_wait_begin (w i))%float)
           (measured_indices o)) /\
  test_total l'
  = CDouble.accumulate (test_total l)
      (map (dummy_compute_result sub rank size) (measured_indices o)) /\
  init_total l'
  = CDouble.accumulate (init_total l)
      (map (fun i => (o_init_end (w i) - o_init_begin (w i))%float)
           (measured_indices o)).
Proof.
  intros Hs Hi. unfold overlap_loop.
  rewrite iteration_indices_split, foldl_app by done.
  pose proof (overlap_run_measured
    (foldl (overlap_iteration o sub rank size) l (seq 0 (Z.to_nat (skip o))))
    (measured_indices o) (measured_indices_above Hs)) as Hm.
  cbv zeta in Hm. destruct Hm as (-> & -> & -> & -> & ->).
  pose proof (overlap_run_skipped l (seq 0 (Z.to_nat (skip o)))
    (skipped_indices_below Hs)) as Hk.
  cbv zeta in Hk. destruct Hk as (-> & -> & -> & -> & ->). done.
Qed.

(** *** A whole round of one rank *)

Variable numprocs : Z.

Lemma round_of_rank_latency (l : locals) :
  0 <= skip o -> 0 <= iterations o ->
  let l' := round_of_rank o sub numprocs size rank l in
  latency_in_secs l' = mean_latency o sub rank size /\
  latency l'
  = ((measured_total o sub rank size * 1e6) / CDouble.of_Z (iterations o))%float /\
  recvcounts l' = set_recvcounts size numprocs (recvcounts l).
Proof.
  intros Hs Hi. unfold round_of_rank. cbv zeta. project.
  match goal with
  | |- context [overlap_loop o sub rank size ?x] =>
      destruct (overlap_run_frame x (iteration_indices o)) as (Hrc & Hlat & Hsec)
  end.
  unfold overlap_loop. rewrite Hrc, Hlat, Hsec. clear Hrc Hlat Hsec. project.
  rewrite latency_loop_timer by done. project.
  match goal with
  | |- context [latency_loop o sub rank size ?x] =>
      destruct (latency_run_frame x (iteration_indices o)) as (Hrc & _ & _)
  end.
  unfold latency_loop. rewrite Hrc. project. done.
Qed.

Lemma round_of_rank_calls (l : locals) :
  0 <= skip o -> 0 <= iterations o ->
  let rc := set_recvcounts size numprocs (recvcounts l) in
  calls (round_of_rank o sub numprocs size rank l)
  = calls l
    ++ [MPI_Barrier]
    ++ concat (map (latency_iteration_calls o rc rank size) (iteration_indices o))
    ++ [MPI_Barrier; init_arrays (mean_latency o sub rank size); MPI_Barrier]
    ++ concat (map (overlap_iteration_calls o rc rank size
                      (mean_latency o sub rank size))
                   (iteration_indices o))
    ++ [MPI_Barrier].
Proof.
  intros Hs Hi. unfold round_of_rank. cbv zeta. project.
  unfold overlap_loop. rewrite overlap_run_calls. project.
  rewrite latency_loop_timer by done. project.
  fold (measured_total o sub rank size). fold (mean_latency o sub rank size).
  match goal with
  | |- context [latency_loop o sub rank size ?x] =>
      destruct (latency_run_frame x (iteration_indices o)) as (Hrc & _ & _)
  end.
  unfold latency_loop in *. rewrite Hrc. clear Hrc.
  rewrite latency_run_calls. project.
  rewrite <- !app_assoc. reflexivity.
Qed.

Lemma round_of_rank_totals (l : locals) :
  0 <= skip o -> 0 <= iterations o ->
  let l' := round_of_rank o sub numprocs size rank l in
  let w := Wtime_overlap sub rank size in
  timer l'
  = CDouble.accumulate 0%float
      (map (fun i => (o_t_stop (w i) - o_t_start (w i))%float)
           (measured_indices o)) /\
  tcomp_total l'
  = CDouble.accumulate 0%float
      (map (fun i => (o_tcomp_end (w i) - o_tcomp_begin (w i))%float)
           (measured_indices o)) /\
  wait_total l'
  = CDouble.accumulate 0%float
      (map (fun i => (o_wait_end (w i) - o_wait_begin (w i))%float)
           (measured_indices o)) /\
  test_total l'
  = CDouble.accumulate 0%float
      (map (dummy_compute_result sub rank size) (measured_indices o)) /\
  init_total l'
  = CDouble.accumulate 0%float
      (map (fun i => (o_init_end (w i) - o_init_begin (w i))%float)
           (measured_indices o)).
Proof.
  intros Hs Hi. unfold round_of_rank. cbv zeta. project.
  match goal with
  | |- context [overlap_loop o sub rank size ?x] =>
      pose proof (overlap_loop_totals x Hs Hi) as Ht
  end.
  cbv zeta in Ht. revert Ht. project. auto.
Qed.

(** *** The error counter of a rank *)

Lemma latency_run_local_errors (l : locals) (js : list nat) :
  local_errors (foldl (latency_iteration o sub rank size) l js)
  = if validate o && negb (default 0 (recvcounts l !! Z.to_nat rank) =? 0)
    then foldl CInt.add (local_errors l)
           (map (validate_result sub rank size false) js)
    else local_errors l.
Proof.
  revert l. induction js as [|j js IH]; intros l; simpl.
  - by case_match.
  - rewrite IH, latency_iteration_local_errors.
    destruct (latency_iteration_frame l j) as (-> & _).
    by case_match.
Qed.

Lemma overlap_run_local_errors (l : locals) (js : list nat) :
  local_errors (foldl (overlap_iteration o sub rank size) l js)
  = if validate o && negb (default 0 (recvcounts l !! Z.to_nat rank) =? 0)
    then foldl CInt.add (local_errors l)
           (map (validate_result sub rank size true) js)
    else local_errors l.
Proof.
  revert l. induction js as [|j js IH]; intros l; simpl.
  - by case_match.
  - rewrite IH, overlap_iteration_local_errors.
    destruct (overlap_iteration_frame l j) as (-> & _).
    by case_match.
Qed.

Lemma round_of_rank_local_errors (l : locals) :
  let rc := set_recvcounts size numprocs (recvcounts l) in
  local_errors (round_of_rank o sub numprocs size rank l)
  = if validate o && negb (default 0 (rc !! Z.to_nat rank) =? 0)
    then foldl CInt.add
           (foldl CInt.add (local_errors l)
              (map (validate_result sub rank size false) (iteration_indices o)))
           (map (validate_result sub rank size true) (iteration_indices o))
    else local_errors l.
Proof.
  unfold round_of_rank. cbv zeta. project.
  unfold overlap_loop. rewrite overlap_run_local_errors. project.
  match goal with
  | |- context [latency_loop o sub rank size ?x] =>
      destruct (latency_run_frame x (iteration_indices o)) as (Hrc & _ & _);
      pose proof (latency_run_local_errors x (iteration_indices o)) as He
  end.
  unfold latency_loop in *. rewrite Hrc, He. project.
  destruct (validate o && negb (default 0
    (set_recvcounts size numprocs (recvcounts l) !! Z.to_nat rank) =? 0));
    reflexivity.
Qed.

(** *** The durations handed to [dummy_compute] *)

Lemma targets_app (cs1 cs2 : list call) :
  dummy_compute_targets (cs1 ++ cs2)
  = dummy_compute_targets cs1 ++ dummy_compute_targets cs2.
Proof. apply omap_app. Qed.

Lemma targets_validation_warmup (i : nat) (rc : list Z) :
  dummy_compute_targets (validation_warmup o size i rc) = [].
Proof.
  unfold validation_warmup. destruct (validate o); [|done].
  simpl. rewrite targets_app. simpl. rewrite app_nil_r.
  induction (Z.to_nat (warmup_validation o)) as [|n IH]; [done|].
  simpl. exact IH.
Qed.

Lemma targets_validation_check (i : nat) (rc : list Z) :
  dummy_compute_targets (validation_check_calls o rc rank size i) = [].
Proof. unfold validation_check_calls. by case_match. Qed.

Lemma targets_latency_iteration (rc : list Z) (i : nat) :
  dummy_compute_targets (latency_iteration_calls o rc rank size i) = [].
Proof.
  unfold latency_iteration_calls.
  rewrite !targets_app, targets_validation_warmup, targets_validation_check.
  done.
Qed.

Lemma targets_overlap_iteration (rc : list Z) (secs : float) (i : nat) :
  dummy_compute_targets (overlap_iteration_calls o rc rank size secs i) = [secs].
Proof.
  unfold overlap_iteration_calls.
  rewrite !targets_app, targets_validation_warmup, targets_validation_check.
  done.
Qed.

Lemma targets_latency_run (rc : list Z) (js : list nat) :
  dummy_compute_targets
    (concat (map (latency_iteration_calls o rc rank size) js)) = [].
Proof.
  induction js as [|j js IH]; [done|].
  simpl. by rewrite targets_app, targets_latency_iteration, IH.
Qed.

Lemma targets_overlap_run (rc : list Z) (secs : float) (js : list nat) :
  dummy_compute_targets
    (concat (map (overlap_iteration_calls o rc rank size secs) js))
  = replicate (length js) secs.
Proof.
  induction js as [|j js IH]; [done|].
  simpl. by rewrite targets_app, targets_overlap_iteration, IH.
Qed.

(** C2.  In a round of the non-blocking reduce-scatter benchmark, the
    mean latency computed after the first (latency) loop is the sum of
    the total times [t_stop - t_start] of the measured iterations, those
    from [skip] on, divided by their number [iterations]; and the second
    (overlap) loop calls [dummy_compute] once in each of its [iterations
    + skip] iterations, every time with exactly this mean latency in
    seconds.  The two counts are not negative and their sum is within
    [int], the type of the loop counter. *)
Theorem mean_latency_feeds_dummy_compute (l : locals) :
  0 <= skip o -> 0 <= iterations o ->
  iterations o + skip o <= CInt.INT_MAX ->
  let l' := round_of_rank o sub numprocs size rank l in
  latency_in_secs l'
  = (CDouble.accumulate 0%float
       (map (fun i => total_time (Wtime_latency sub rank size i))
            (measured_indices o))
     / CDouble.of_Z (iterations o))%float /\
  length (measured_indices o) = Z.to_nat (iterations o) /\
  (forall i, i ∈ measured_indices o <-> skip o <= Z.of_nat i < skip o + iterations o) /\
  exists cs,
    calls l' = calls l ++ cs /\
    dummy_compute_targets cs
    = replicate (Z.to_nat (iterations o + skip o)) (latency_in_secs l').
Proof.
  intros Hs Hi _ l'.
  destruct (round_of_rank_latency l Hs Hi) as (Hsecs & _ & _).
  fold l' in Hsecs. split; [exact Hsecs|]. split.
  { unfold measured_indices. apply length_seq. }
  split.
  { intros i. unfold measured_indices. rewrite elem_of_seq. lia. }
  eexists. split.
  { subst l'. rewrite round_of_rank_calls by done. reflexivity. }
  rewrite Hsecs, !targets_app, targets_latency_run, targets_overlap_run.
  simpl. rewrite app_nil_r.
  unfold iteration_indices. by rewrite length_seq.
Qed.

End TimedLoops.

(** ** The rounds of osu_latency_dt *)

Section LatencyDtRounds.

Import Dt LatencyDt.

Context `{M : macros}.
Variable sub : substrate.

Ltac project :=
  cbn [msg_size options t_start t_end calls log emit set_t_start set_t_end
       set_options set_msg_size record_step set_buffers].

(** A run of iterations on rank 0 makes one ping per iteration. *)
Lemma sender_run_calls (st : state) (js : list nat) :
  calls (foldl (sender_iteration sub) st js)
  = calls st ++ concat (map (fun _ => ping 1) js).
Proof.
  revert st. induction js as [|j js IH]; intros st; simpl.
  - by rewrite app_nil_r.
  - rewrite IH. unfold sender_iteration. cbv zeta.
    case_match; project; by rewrite <- app_assoc.
Qed.

Lemma sender_run_frame (st : state) (js : list nat) :
  let st' := foldl (sender_iteration sub) st js in
  msg_size st' = msg_size st /\ options st' = options st /\
  t_end st' = t_end st /\ log st' = log st.
Proof.
  revert st. induction js as [|j js IH]; intros st; simpl; [auto|].
  destruct (IH (sender_iteration sub st j)) as (-> & -> & -> & ->).
  unfold sender_iteration. cbv zeta. case_match; project; auto.
Qed.

(** Only the iteration of index [skip] reads the clock. *)
Lemma sender_run_other (st : state) (js : list nat) :
  Forall (fun j => Z.of_nat j <> skip (options st)) js ->
  t_start (foldl (sender_iteration sub) st js) = t_start st.
Proof.
  revert st. induction js as [|j js IH]; intros st Hjs; simpl; [done|].
  inversion Hjs as [|? ? Hj Hrest]; subst.
  assert (Hst : options (sender_iteration sub st j) = options st
              /\ t_start (sender_iteration sub st j) = t_start st).
  { unfold sender_iteration. cbv zeta.
    destruct (Z.eqb_spec (Z.of_nat j) (skip (options st))); [lia|].
    project. auto. }
  destruct Hst as (Ho & Ht). rewrite IH; [done|]. by rewrite Ho.
Qed.

Lemma sender_iteration_frame (st : state) (j : nat) :
  msg_size (sender_iteration sub st j) = msg_size st /\
  options (sender_iteration sub st j) = options st.
Proof. unfold sender_iteration. cbv zeta. case_match; project; auto. Qed.

Lemma sender_iteration_at_skip (st : state) (j : nat) :
  Z.of_nat j = skip (options st) ->
  t_start (sender_iteration sub st j) = Wtime sub (msg_size st) j.
Proof.
  intros Hj. unfold sender_iteration. cbv zeta.
  destruct (Z.eqb_spec (Z.of_nat j) (skip (options st))); [|lia].
  project. reflexivity.
Qed.

Lemma sender_loop_t_start (st : state) :
  0 <= skip (options st) -> 1 <= iterations (options st) ->
  t_start (foldl (sender_iteration sub) st (iteration_indices (options st)))
  = Wtime sub (msg_size st) (Z.to_nat (skip (options st))).
Proof.
  intros Hs Hi. unfold iteration_indices.
  set (k := Z.to_nat (skip (options st))).
  replace (Z.to_nat (iterations (options st) + skip (options st)))
    with (k + S (Z.to_nat (iterations (options st)) - 1))%nat by lia.
  rewrite seq_app, foldl_app. simpl.
  destruct (sender_run_frame st (seq 0 k)) as (Hsz & Ho & _ & _).
  set (st1 := foldl (sender_iteration sub) st (seq 0 k)) in *.
  destruct (sender_iteration_frame st1 k) as (Hsz1 & Ho1).
  rewrite sender_run_other.
  - rewrite sender_iteration_at_skip by (rewrite Ho; lia).
    by rewrite Hsz.
  - apply Forall_forall. intros j Hj. apply elem_of_seq in Hj.
    rewrite Ho1, Ho. lia.
Qed.

Lemma receiver_run_calls (st : state) (js : list nat) :
  calls (foldl receiver_iteration st js)
  = calls st ++ concat (map (fun _ => pong 0) js).
Proof.
  revert st. induction js as [|j js IH]; intros st; simpl.
  - by rewrite app_nil_r.
  - rewrite IH. unfold receiver_iteration. project. by rewrite <- app_assoc.
Qed.

Lemma receiver_run_frame (st : state) (js : list nat) :
  let st' := foldl receiver_iteration st js in
  msg_size st' = msg_size st /\ options st' = options st /\
  log st' = log st.
Proof.
  revert st. induction js as [|j js IH]; intros st; simpl; [auto|].
  destruct (IH (receiver_iteration st j)) as (-> & -> & ->).
  unfold receiver_iteration. project. auto.
Qed.

(** What a round leaves of the variables that steer the loop over sizes,
    on any rank. *)
Lemma round_control (myid : Z) (st : state) :
  let o := large_message_profile (msg_size st) (options st) in
  dt_block_size o <> 0 ->
  exists st',
    round sub myid st = Ok st' /\
    msg_size st' = msg_size st /\
    options st' = o /\
    log st' = log st ++ [Round (msg_size st) (rep_count (msg_size st) o)].
Proof.
  intros o Hb. unfold round. cbv zeta. project. fold o.
  destruct (Z.eqb_spec (dt_block_size o) 0) as [|_]; [done|].
  eexists. split; [reflexivity|].
  destruct (myid =? 0); [|destruct (myid =? 1)]; project.
  - match goal with
    | |- context [foldl (sender_iteration sub) ?x ?js] =>
        destruct (sender_run_frame x js) as (-> & -> & _ & ->)
    end. project. auto.
  - match goal with
    | |- context [foldl receiver_iteration ?x ?js] =>
        destruct (receiver_run_frame x js) as (-> & -> & ->)
    end. project. auto.
  - auto.
Qed.

(** Every round builds its layout descriptor first, with the repeat
    count of its size. *)
Lemma round_descriptor (myid : Z) (st st' : state) :
  let o := large_message_profile (msg_size st) (options st) in
  round sub myid st = Ok st' ->
  exists rest,
    calls st'
    = calls st
      ++ [set_buffer_pt2pt s_buf "a" (msg_size st);
          set_buffer_pt2pt r_buf "b" (msg_size st)]
      ++ MPI_Type_vector (rep_count (msg_size st) o) (dt_block_size o)
           (dt_stride_size o) :: rest.
Proof.
  intros o. unfold round. cbv zeta. project. fold o.
  destruct (dt_block_size o =? 0); [done|].
  intros [= <-].
  destruct (myid =? 0); [|destruct (myid =? 1)]; project.
  - rewrite sender_run_calls. project.
    rewrite <- !app_assoc. simpl. eauto.
  - rewrite receiver_run_calls. project.
    rewrite <- !app_assoc. simpl. eauto.
  - rewrite <- !app_assoc. simpl. eauto.
Qed.

(** A round on rank 0: the calls it makes and the latency it prints. *)
Lemma round_of_rank_0 (st : state) :
  let size := msg_size st in
  let o := large_message_profile size (options st) in
  dt_block_size o <> 0 -> 0 <= skip o -> 1 <= iterations o ->
  exists st',
    round sub 0 st = Ok st' /\
    t_start st' = Wtime sub size (Z.to_nat (skip o)) /\
    t_end st' = Wtime sub size (Z.to_nat (iterations o + skip o)) /\
    calls st'
    = calls st
      ++ [set_buffer_pt2pt s_buf "a" size; set_buffer_pt2pt r_buf "b" size;
          MPI_Type_vector (rep_count size o) (dt_block_size o) (dt_stride_size o);
          MPI_Type_commit; MPI_Barrier]
      ++ concat (map (fun _ => ping 1) (iteration_indices o))
      ++ [print_latency size
            (one_way_latency (Wtime sub size (Z.to_nat (skip o)))
               (Wtime sub size (Z.to_nat (iterations o + skip o))) o);
          MPI_Type_free].
Proof.
  intros size o Hb Hs Hi. unfold round. cbv zeta. project. fold size o.
  destruct (Z.eqb_spec (dt_block_size o) 0) as [|_]; [done|].
  eexists. split; [reflexivity|].
  change (0 =? 0) with true. cbv iota. project.
  match goal with
  | |- context [foldl (sender_iteration sub) ?x ?js] =>
      pose proof (sender_loop_t_start x) as Ht;
      pose proof (sender_run_calls x js) as Hc
  end.
  revert Ht Hc. project. intros Ht Hc.
  rewrite Ht by done. rewrite Hc. project.
  assert (Hlen : length (iteration_indices o) = Z.to_nat (iterations o + skip o))
    by apply length_seq.
  rewrite Hlen. subst size.
  repeat split; try reflexivity.
  rewrite <- !app_assoc. reflexivity.
Qed.

End LatencyDtRounds.

(** ** Series of sizes *)

Section SeriesFacts.

Import Series.

Variables (next : Z -> Z) (bound : Z -> Prop).

Lemma series_head first sizes complete :
  series next bound first sizes complete ->
  forall a, head sizes = Some a -> a = first.
Proof. intros Hs a. destruct Hs; simpl; congruence. Qed.

Lemma series_nonempty first sizes complete :
  series next bound first sizes complete ->
  bound first -> head sizes = Some first.
Proof. intros Hs Hb. destruct Hs; simpl; try done. Qed.

Lemma series_empty first sizes complete :
  series next bound first sizes complete ->
  ~ bound first -> sizes = [].
Proof. intros Hs Hb. destruct Hs; simpl; try done. Qed.

Lemma series_consecutive first sizes complete :
  series next bound first sizes complete ->
  forall k a b,
    sizes !! k = Some a -> sizes !! S k = Some b -> b = next a /\ a < b.
Proof.
  induction 1 as [s Hs|s Hs|s sizes complete Hb Hlt Hrest IH];
    intros k a b Ha Hb'.
  - done.
  - destruct k; simpl in *; done.
  - destruct k as [|k]; simpl in *.
    + injection Ha as <-.
      assert (b = next s) as ->; [|done].
      apply (series_head _ _ _ Hrest). by destruct sizes.
    + by apply (IH k).
Qed.

Lemma series_bounded first sizes complete :
  series next bound first sizes complete ->
  forall s, s ∈ sizes -> bound s.
Proof.
  induction 1 as [s Hs|s Hs|s sizes complete Hb Hlt Hrest IH]; intros x Hx.
  - by apply elem_of_nil in Hx.
  - apply list_elem_of_singleton in Hx. by subst.
  - apply elem_of_cons in Hx as [->|Hx]; [done|by apply IH].
Qed.

Lemma series_last first sizes :
  series next bound first sizes true ->
  forall a, last sizes = Some a -> ~ bound (next a).
Proof.
  intros Hs. remember true as complete eqn:Hc.
  induction Hs as [s Hs|s Hs|s sizes complete Hb Hlt Hrest IH]; intros a Ha.
  - done.
  - done.
  - destruct sizes as [|s' sizes].
    + simpl in Ha. injection Ha as <-.
      inversion Hrest; subst. done.
    + apply IH; [done|]. by rewrite last_cons_cons in Ha.
Qed.

Lemma series_broken first sizes :
  series next bound first sizes false -> sizes <> [].
Proof. intros Hs. inversion Hs; done. Qed.

End SeriesFacts.

Lemma series_doubling (bound : Z -> Prop) first sizes complete :
  Series.series Series.doubled bound first sizes complete ->
  Series.doubling_series first bound sizes complete.
Proof.
  intros Hs. unfold Series.doubling_series.
  split; [by apply (series_nonempty _ _ _ _ _ Hs)|].
  split; [by apply (series_empty _ _ _ _ _ Hs)|].
  split; [exact (series_consecutive _ _ _ _ _ Hs)|].
  split; [exact (series_bounded _ _ _ _ _ Hs)|].
  split.
  - intros ->. exact (series_last _ _ _ _ Hs).
  - intros ->. exact (series_broken _ _ _ _ Hs).
Qed.

(** ** The error counters of the reduce-scatter benchmark *)

Section Counters.

Import IreduceScatter.

Lemma total_nonneg (vs : list Z) :
  Forall (fun v => 0 <= v) vs -> 0 <= total vs.
Proof. unfold total. induction 1; simpl; lia. Qed.

Lemma total_bounded (B : Z) (vs : list Z) :
  Forall (fun v => 0 <= v <= B) vs ->
  0 <= total vs <= Z.of_nat (length vs) * B.
Proof. unfold total. induction 1; simpl; lia. Qed.

(** A sum of non-negative counts that is zero has zero terms only. *)
Lemma total_zero (vs : list Z) :
  Forall (fun v => 0 <= v) vs -> total vs = 0 -> Forall (fun v => v = 0) vs.
Proof.
  unfold total. induction 1 as [|v vs Hv Hvs IH]; simpl; intros Hsum.
  - constructor.
  - pose proof (total_nonneg vs Hvs) as Hn. unfold total in Hn.
    constructor; [lia|apply IH; lia].
Qed.

(** [local_errors += ...] over counts whose sum fits an [int]. *)
Lemma counter_no_overflow (e : Z) (vs : list Z) :
  0 <= e -> Forall (fun v => 0 <= v) vs -> e + total vs <= CInt.INT_MAX ->
  foldl CInt.add e vs = e + total vs.
Proof.
  intros He Hvs. revert e He.
  induction Hvs as [|v vs Hv Hvs IH]; intros e He Hfit; simpl.
  - unfold total. simpl. lia.
  - pose proof (total_nonneg vs Hvs) as Hn.
    unfold total in *. simpl in *.
    unfold CInt.add at 2. rewrite CInt_wrap_id.
    + rewrite IH; lia.
    + unfold CInt.in_range, CInt.INT_MIN, CInt.INT_MAX in *. lia.
Qed.

End Counters.

(** ** The rounds of the reduce-scatter benchmark *)

Section Rounds.

Import IreduceScatter.

Context `{M : macros}.
Variables (sub : substrate) (R B : Z) (o0 : options_t).

Hypothesis HR : 2 <= R <= CInt.INT_MAX.
Hypothesis Hiter : 0 <= iterations o0 /\ 0 <= skip o0.
Hypothesis Hlarge : 0 <= iterations_large o0 /\ 0 <= skip_large o0.
Hypothesis Hfit : counts_fit o0 sub R B.

Lemma large_message_profile_cases (s : Z) :
  large_message_profile s o0 = o0 /\ s <= LARGE_MESSAGE_SIZE \/
  large_message_profile s o0 = (large_profile o0) /\ LARGE_MESSAGE_SIZE < s.
Proof.
  unfold large_message_profile, large_profile.
  destruct (Z.ltb_spec LARGE_MESSAGE_SIZE s); auto.
Qed.

Lemma large_message_profile_again (s : Z) :
  LARGE_MESSAGE_SIZE < s ->
  large_message_profile s (large_profile o0) = (large_profile o0).
Proof.
  intros Hs. unfold large_message_profile, large_profile.
  destruct (Z.ltb_spec LARGE_MESSAGE_SIZE s); [|lia].
  reflexivity.
Qed.

Lemma large_message_profile_frame (s : Z) (o : options_t) :
  let o' := large_message_profile s o in
  validate o' = validate o /\
  max_message_size o' = max_message_size o /\
  min_message_size o' = min_message_size o /\
  dt_block_size o' = dt_block_size o /\
  dt_stride_size o' = dt_stride_size o /\
  accel o' = accel o /\
  iterations_large o' = iterations_large o /\
  skip_large o' = skip_large o.
Proof.
  unfold large_message_profile. destruct (LARGE_MESSAGE_SIZE <? s); simpl; auto 10.
Qed.

(** In either profile the counts of a round fit. *)
Lemma profile_fits (s : Z) :
  let o := large_message_profile s o0 in
  0 <= iterations o + skip o /\
  R * (2 * (iterations o + skip o) * B) <= CInt.INT_MAX /\
  validate o = validate o0.
Proof.
  destruct Hfit as (_ & Hf1 & Hf2).
  destruct Hiter, Hlarge.
  destruct (large_message_profile_cases s) as [(-> & _)|(-> & _)];
    unfold large_profile; simpl; (split; [lia|split; [lia|reflexivity]]).
Qed.

Lemma B_nonneg : 0 <= B.
Proof. destruct Hfit as (HV & _). specialize (HV 0 0 false O). lia. Qed.

Lemma validate_results_bounded (rank size : Z) (overlap : bool) (js : list nat) :
  Forall (fun v => 0 <= v <= B) (map (validate_result sub rank size overlap) js).
Proof.
  destruct Hfit as (HV & _).
  apply Forall_forall. intros v Hv.
  apply list_elem_of_fmap in Hv as (i & -> & _). apply HV.
Qed.

Lemma length_iteration_indices (o : options_t) :
  length (iteration_indices o) = Z.to_nat (iterations o + skip o).
Proof. apply length_seq. Qed.

Lemma round_mismatches_bounded (s rank size : Z) :
  let o := large_message_profile s o0 in
  0 <= round_mismatches o sub R size rank <= 2 * (iterations o + skip o) * B.
Proof.
  intros o. destruct (profile_fits s) as (Hn & _ & _). fold o in Hn.
  pose proof B_nonneg as HB.
  unfold round_mismatches. case_match; [|nia].
  pose proof (total_bounded B _
    (validate_results_bounded rank size false (iteration_indices o))) as H1.
  pose proof (total_bounded B _
    (validate_results_bounded rank size true (iteration_indices o))) as H2.
  rewrite length_map, length_iteration_indices, Z2Nat.id in H1, H2 by lia.
  lia.
Qed.

(** The counter of a rank that enters a round at zero leaves it with
    the mismatches of the round. *)
Lemma rank_round_errors (s size rank : Z) (l : locals) :
  let o := large_message_profile s o0 in
  1 <= size <= CInt.INT_MAX -> 0 <= rank < R ->
  length (recvcounts l) = Z.to_nat R -> local_errors l = 0 ->
  local_errors (round_of_rank o sub R size rank l)
  = round_mismatches o sub R size rank.
Proof.
  intros o Hsize Hrank Hlen Hzero.
  destruct (profile_fits s) as (Hn & Hf & _). fold o in Hn, Hf.
  pose proof B_nonneg as HB.
  rewrite round_of_rank_local_errors. cbv zeta.
  rewrite set_recvcounts_map by done.
  rewrite list_lookup_fmap, lookup_seq_lt by lia. simpl.
  rewrite Z2Nat.id by lia. rewrite Hzero.
  unfold round_mismatches. case_match; [|done].
  pose proof (validate_results_bounded rank size false (iteration_indices o)) as H1.
  pose proof (validate_results_bounded rank size true (iteration_indices o)) as H2.
  pose proof (total_bounded B _ H1) as Hb1.
  pose proof (total_bounded B _ H2) as Hb2.
  rewrite length_map, length_iteration_indices, Z2Nat.id in Hb1, Hb2 by lia.
  assert (Hsum : 2 * (iterations o + skip o) * B <= CInt.INT_MAX) by nia.
  rewrite (counter_no_overflow 0); [|lia| |lia].
  2:{ eapply Forall_impl; [exact H1|]. simpl. lia. }
  rewrite counter_no_overflow; [lia|lia| |lia].
  eapply Forall_impl; [exact H2|]. simpl. lia.
Qed.

Lemma entered_profile (w : world) :
  entered o0 R w ->
  large_message_profile (msg_size w) (options w)
  = large_message_profile (msg_size w) o0.
Proof.
  intros (_ & _ & _ & _ & [->|(-> & Hl)]); [done|].
  rewrite large_message_profile_again by done.
  destruct (large_message_profile_cases (msg_size w)) as [(_ & ?)|(-> & _)];
    [lia|done].
Qed.

Lemma all_ranks_lookup (i : nat) :
  (i < Z.to_nat R)%nat -> all_ranks R !! i = Some (Z.of_nat i).
Proof.
  intros Hi. unfold all_ranks.
  by rewrite list_lookup_fmap, lookup_seq_lt.
Qed.

Lemma length_all_ranks : length (all_ranks R) = Z.to_nat R.
Proof. unfold all_ranks. by rewrite length_map, length_seq. Qed.

Lemma round_recvcounts_length (o : options_t) (size rank : Z) (l : locals) :
  0 <= skip o -> 0 <= iterations o ->
  length (recvcounts l) = Z.to_nat R ->
  length (recvcounts (round_of_rank o sub R size rank l)) = Z.to_nat R.
Proof.
  intros Hs Hi Hlen.
  destruct (round_of_rank_latency o sub rank size R l Hs Hi) as (_ & _ & ->).
  rewrite set_recvcounts_map by done.
  by rewrite length_map, length_seq.
Qed.

Lemma profile_nonneg (s : Z) :
  let o := large_message_profile s o0 in
  0 <= skip o /\ 0 <= iterations o.
Proof.
  destruct Hiter, Hlarge.
  destruct (large_message_profile_cases s) as [(-> & _)|(-> & _)];
    unfold large_profile; simpl; lia.
Qed.

(** The body of the loop over sizes, entered with every counter at
    zero. *)
Lemma round_entered (w : world) :
  entered o0 R w ->
  let o := large_message_profile (msg_size w) o0 in
  let w' := round sub R w in
  msg_size w' = msg_size w /\
  options w' = o /\
  map local_errors (ranks w')
  = map (round_mismatches o sub R (msg_size w)) (all_ranks R) /\
  errors w'
  = (if validate o0
     then total (map (round_mismatches o sub R (msg_size w)) (all_ranks R))
     else 0) /\
  history w'
  = history w ++ [{| at_size := msg_size w;
                     local_errors_at_entry := map local_errors (ranks w);
                     errors_at_exit := errors w' |}] /\
  length (ranks w') = Z.to_nat R /\
  Forall (fun l => length (recvcounts l) = Z.to_nat R) (ranks w').
Proof.
  intros Hw o w'.
  pose proof (entered_profile w Hw) as Ho. fold o in Ho.
  destruct Hw as (Hsize & Herr & Hlen & Hranks & _).
  destruct (profile_fits (msg_size w)) as (Hn & Hf & Hv). fold o in Hn, Hf, Hv.
  destruct (profile_nonneg (msg_size w)) as (Hsk & Hit). fold o in Hsk, Hit.
  set (rs := imap (fun r l => round_of_rank o sub R (msg_size w) (Z.of_nat r) l)
                  (ranks w)).
  assert (Hrs : map local_errors rs
              = map (round_mismatches o sub R (msg_size w)) (all_ranks R)).
  { apply list_eq. intros i. subst rs.
    rewrite !list_lookup_fmap, list_lookup_imap.
    destruct (decide (i < Z.to_nat R)%nat) as [Hi|Hi].
    - rewrite all_ranks_lookup by done.
      destruct (lookup_lt_is_Some_2 (ranks w) i ltac:(lia)) as [l Hl].
      rewrite Hl. simpl. f_equal.
      destruct (proj1 (Forall_lookup _ _) Hranks i l Hl) as (Hz & Hrc).
      apply (rank_round_errors (msg_size w)); [done|lia|done|done].
    - rewrite (lookup_ge_None_2 (ranks w)) by lia.
      rewrite (lookup_ge_None_2 (all_ranks R)); [done|].
      rewrite length_all_ranks. lia. }
  assert (Hsum : 0 <= total (map (round_mismatches o sub R (msg_size w))
                                 (all_ranks R)) <= CInt.INT_MAX).
  { pose proof (total_bounded (2 * (iterations o + skip o) * B)
                  (map (round_mismatches o sub R (msg_size w)) (all_ranks R)))
      as Hb.
    rewrite length_map, length_all_ranks, Z2Nat.id in Hb by lia.
    enough (0 <= total (map (round_mismatches o sub R (msg_size w)) (all_ranks R))
            <= R * (2 * (iterations o + skip o) * B)) by lia.
    apply Hb. apply Forall_forall. intros v Hv'.
    apply list_elem_of_fmap in Hv' as (r & -> & _).
    apply (round_mismatches_bounded (msg_size w)). }
  assert (Hw' : w' = {|
      msg_size := msg_size w; options := o;
      errors := if validate o then allreduce_sum (map local_errors rs)
                else errors w;
      ranks := if validate o then map (emit [MPI_Allreduce]) rs else rs;
      history := history w ++
        [{| at_size := msg_size w;
            local_errors_at_entry := map local_errors (ranks w);
            errors_at_exit :=
              if validate o then allreduce_sum (map local_errors rs)
              else errors w |}] |}).
  { subst w' rs. unfold round. cbv zeta. rewrite Ho. reflexivity. }
  rewrite Hw'. simpl.
  assert (Hranks' : map local_errors
            (if validate o then map (emit [MPI_Allreduce]) rs else rs)
          = map local_errors rs).
  { destruct (validate o); [|done]. rewrite <- list_fmap_compose.
    apply list_fmap_ext. intros ? l ?. reflexivity. }
  assert (Herrs : (if validate o then allreduce_sum (map local_errors rs)
                   else errors w)
                = (if validate o0
                   then total (map (round_mismatches o sub R (msg_size w))
                                   (all_ranks R))
                   else 0)).
  { rewrite Hv. destruct (validate o0); [|done].
    unfold allreduce_sum. rewrite Hrs. apply CInt_wrap_id.
    unfold CInt.in_range, CInt.INT_MIN. lia. }
  rewrite Hranks', Herrs.
  repeat split; try done.
  - destruct (validate o); subst rs;
      rewrite ?length_map, length_imap; done.
  - apply Forall_forall. intros l Hl.
    assert (Hin : exists i l0, ranks w !! i = Some l0 /\
              length (recvcounts l) = length
                (recvcounts (round_of_rank o sub R (msg_size w) (Z.of_nat i) l0))).
    { destruct (validate o).
      - apply list_elem_of_fmap in Hl as (l1 & -> & Hl1).
        apply list_elem_of_lookup in Hl1 as (i & Hi). subst rs.
        rewrite list_lookup_imap in Hi.
        destruct (ranks w !! i) as [l0|] eqn:Hl0; [|done].
        simpl in Hi. injection Hi as <-. by exists i, l0.
      - apply list_elem_of_lookup in Hl as (i & Hi). subst rs.
        rewrite list_lookup_imap in Hi.
        destruct (ranks w !! i) as [l0|] eqn:Hl0; [|done].
        simpl in Hi. injection Hi as <-. by exists i, l0. }
    destruct Hin as (i & l0 & Hl0 & ->).
    apply round_recvcounts_length; [done|done|].
    by destruct (proj1 (Forall_lookup _ _) Hranks i l0 Hl0).
Qed.

(** *** The loop over sizes *)

Hypothesis Hmax : 0 <= max_message_size o0 < 4294967296.

Lemma size_in_bounds_spec (size : Z) (o : options_t) :
  0 <= size <= CInt.INT_MAX ->
  size_in_bounds size o = true <-> 4 * size <= max_message_size o.
Proof.
  intros Hs. unfold size_in_bounds, SizeT.mul, SizeT.of_int, SizeT.wrap,
    SizeT.modulus, SizeT.sizeof_float.
  unfold CInt.INT_MAX in Hs.
  rewrite (Z.mod_small size) by lia. rewrite Z.mod_small by lia.
  rewrite Z.leb_le. lia.
Qed.

Lemma entered_max (w : world) :
  entered o0 R w -> max_message_size (options w) = max_message_size o0.
Proof. intros (_ & _ & _ & _ & [->|(-> & _)]); reflexivity. Qed.

Lemma size_loop_run (fuel : nat) (w : world) :
  entered o0 R w ->
  max_message_size o0 < 4 * msg_size w * 2 ^ Z.of_nat fuel ->
  exists w' recs,
    size_loop sub R (S fuel) w = Ok w' /\
    history w' = history w ++ recs /\
    Series.series Series.doubled (fun s => 4 * s <= max_message_size o0)
      (msg_size w) (map at_size recs) (errors w' =? 0) /\
    Forall (sound_record o0 sub R (errors w')) recs /\
    (errors w' <> 0 -> exists rec, rec ∈ recs /\ errors_at_exit rec = errors w') /\
    validate (options w') = validate o0 /\
    accel (options w') = accel o0.
Proof.
  revert w. induction fuel as [|fuel IH]; intros w Hw Hfuel.
  - (* the size is out of bounds *)
    pose proof Hw as (Hsize & Herr & _ & _ & Ho).
    exists w, []. simpl.
    destruct (size_in_bounds (msg_size w) (options w)) eqn:Hb.
    { apply size_in_bounds_spec in Hb; [|lia].
      rewrite (entered_max w Hw) in Hb. simpl in Hfuel. lia. }
    rewrite app_nil_r, Herr. simpl.
    repeat split; try done.
    + apply Series.series_end. lia.
    + destruct Ho as [->|(-> & _)]; reflexivity.
    + destruct Ho as [->|(-> & _)]; reflexivity.
  - pose proof Hw as (Hsize & Herr & Hlen & Hranks & Ho).
    cbn [size_loop].
    destruct (size_in_bounds (msg_size w) (options w)) eqn:Hb.
    2:{ (* out of bounds at once *)
      exists w, []. rewrite app_nil_r, Herr. simpl.
      assert (~ 4 * msg_size w <= max_message_size o0).
      { intros Hle. rewrite <- (entered_max w Hw) in Hle.
        apply size_in_bounds_spec in Hle; [congruence|lia]. }
      repeat split; try done.
      + by apply Series.series_end.
      + destruct Ho as [->|(-> & _)]; reflexivity.
      + destruct Ho as [->|(-> & _)]; reflexivity. }
    apply size_in_bounds_spec in Hb; [|lia].
    rewrite (entered_max w Hw) in Hb.
    destruct (round_entered w Hw)
      as (Hsz1 & Ho1 & Hle1 & Herr1 & Hhist1 & Hlen1 & Hrc1).
    cbv zeta in Hsz1, Ho1, Hle1, Herr1, Hhist1, Hlen1, Hrc1.
    remember (round sub R w) as w1 eqn:Hw1.
    set (o1 := large_message_profile (msg_size w) o0) in *.
    set (rec := {| at_size := msg_size w;
                   local_errors_at_entry := map local_errors (ranks w);
                   errors_at_exit := errors w1 |}) in *.
    assert (Hentry : Forall (fun e => e = 0) (local_errors_at_entry rec)
                     /\ length (local_errors_at_entry rec) = Z.to_nat R).
    { subst rec. simpl. split; [|by rewrite length_map].
      apply Forall_fmap. eapply Forall_impl; [exact Hranks|].
      simpl. by intros l (? & _). }
    destruct (profile_fits (msg_size w)) as (_ & _ & Hv1).
    destruct (large_message_profile_frame (msg_size w) o0)
      as (_ & _ & _ & _ & _ & Hacc1 & _).
    cbv zeta in Hv1, Hacc1. fold o1 in Hv1, Hacc1.
    cbv beta iota zeta.
    destruct (Z.eqb_spec (errors w1) 0) as [Hz|Hnz]; cbn [negb].
    + (* no error: on to the next size *)
      unfold CInt.INT_MAX in Hsize.
      assert (Hnext : CInt.mul (msg_size w1) 2 = 2 * msg_size w).
      { rewrite Hsz1. unfold CInt.mul. rewrite CInt_wrap_id; [lia|].
        unfold CInt.in_range, CInt.INT_MIN, CInt.INT_MAX. lia. }
      rewrite Hnext.
      set (w2 := set_msg_size (2 * msg_size w) w1).
      assert (Hw2 : entered o0 R w2).
      { subst w2. unfold entered, set_msg_size. simpl.
        unfold CInt.INT_MAX.
        split; [lia|]. split; [done|]. split; [done|]. split.
        - assert (Hzero : Forall (fun v => v = 0) (map local_errors (ranks w1))).
          { rewrite Hle1. destruct (validate o0) eqn:Hval.
            - apply total_zero; [|congruence].
              apply Forall_forall. intros v Hv.
              apply list_elem_of_fmap in Hv as (r & -> & _).
              apply (round_mismatches_bounded (msg_size w)).
            - apply Forall_forall. intros v Hv.
              apply list_elem_of_fmap in Hv as (r & -> & _).
              unfold round_mismatches. fold o1. by rewrite Hv1. }
          apply Forall_lookup. intros i l Hl. split.
          + apply (proj1 (Forall_lookup _ _) Hzero i).
            by rewrite list_lookup_fmap, Hl.
          + by apply (proj1 (Forall_lookup _ _) Hrc1 i).
        - rewrite Ho1.
          destruct (large_message_profile_cases (msg_size w))
            as [(Heq & _)|(Heq & Hl)]; fold o1 in Heq; rewrite Heq;
            [by left|right; split; [done|lia]]. }
      destruct (IH w2 Hw2) as (w' & recs & Hrun & Hhist & Hser & Hrecs & Hex & Hv & Ha).
      { subst w2. simpl. rewrite Nat2Z.inj_succ, Z.pow_succ_r in Hfuel by lia.
        lia. }
      exists w', (rec :: recs). split; [exact Hrun|].
      split.
      { rewrite Hhist. subst w2. simpl. rewrite Hhist1.
        by rewrite <- app_assoc. }
      split.
      { assert (Hd : Series.doubled (msg_size w) = 2 * msg_size w).
        { unfold Series.doubled. destruct (Z.eqb_spec (msg_size w) 0); lia. }
        simpl. apply Series.series_step; [done|lia|].
        rewrite Hd. exact Hser. }
      split.
      { constructor; [|done].
        destruct Hentry as (He1 & He2).
        split; [done|]. split; [done|]. split.
        - subst rec. simpl. exact Herr1.
        - left. subst rec. simpl. done. }
      split; [|done].
      intros Hne. destruct (Hex Hne) as (rec' & Hin & Heq).
      exists rec'. split; [by apply elem_of_cons; right|done].
    + (* errors: leave the loop *)
      exists w1, [rec]. split; [reflexivity|].
      split; [exact Hhist1|].
      split.
      { simpl. destruct (Z.eqb_spec (errors w1) 0); [done|].
        by apply Series.series_break. }
      split.
      { constructor; [|constructor].
        destruct Hentry as (He1 & He2).
        split; [done|]. split; [done|]. split.
        - subst rec. simpl. exact Herr1.
        - right. reflexivity. }
      split.
      { intros _. exists rec. split; [apply list_elem_of_singleton; done|done]. }
      rewrite Ho1. split; [exact Hv1|exact Hacc1].
Qed.

End Rounds.

(** ** A run of the reduce-scatter benchmark *)

Section ReduceScatterRun.

Import IreduceScatter.

Context `{M : macros}.
Variables (sub : substrate) (o : options_t) (R B : Z).

Hypothesis Hwf : well_formed o R.
Hypothesis Hfit : counts_fit o sub R B.

Lemma element_min_message_size_range :
  1 <= element_min_message_size o <= CInt.INT_MAX.
Proof.
  destruct Hwf as (_ & Hmin & Hdiv & HMIN & _).
  unfold element_min_message_size, SizeT.div.
  assert (0 <= min_message_size o / SizeT.sizeof_float)
    by (apply Z.div_pos; [lia|unfold SizeT.sizeof_float; lia]).
  case_match; lia.
Qed.

Lemma initial_world_entered :
  entered (options (initial_world o R)) R (initial_world o R).
Proof.
  pose proof element_min_message_size_range as Hrange.
  unfold entered, initial_world. simpl.
  rewrite CInt_wrap_id by (unfold CInt.in_range, CInt.INT_MIN; lia).
  split; [done|]. split; [done|].
  split; [by rewrite length_replicate|]. split; [|by left].
  apply Forall_replicate. simpl. by rewrite length_replicate.
Qed.

Lemma round_mismatches_initial (s size rank : Z) :
  round_mismatches (large_message_profile s (options (initial_world o R)))
    sub R size rank
  = round_mismatches (large_message_profile s o) sub R size rank.
Proof.
  unfold round_mismatches, iteration_indices, large_message_profile,
    initial_world. simpl.
  destruct (LARGE_MESSAGE_SIZE <? s); reflexivity.
Qed.

(** With fuel for 31 rounds the loop over sizes runs to its end, and
    every round it enters is sound. *)
Lemma size_loop_from_initial_world (fuel : nat) :
  (31 <= fuel)%nat ->
  exists w',
    size_loop sub R fuel (initial_world o R) = Ok w' /\
    Series.series Series.doubled (fun s => 4 * s <= max_message_size o)
      (element_min_message_size o) (map at_size (history w'))
      (errors w' =? 0) /\
    Forall (sound_record o sub R (errors w')) (history w') /\
    (errors w' <> 0 ->
     exists rec, rec ∈ history w' /\ errors_at_exit rec = errors w') /\
    validate (options w') = validate o /\
    accel (options w') = accel o.
Proof.
  intros Hfuel. destruct fuel as [|fuel]; [lia|].
  pose proof element_min_message_size_range as Hrange.
  pose proof Hwf as (HR & _ & _ & _ & Hmax & Hit & Hsk & Hitl & Hskl).
  assert (Hsize : msg_size (initial_world o R) = element_min_message_size o).
  { unfold initial_world. simpl.
    apply CInt_wrap_id. unfold CInt.in_range, CInt.INT_MIN. lia. }
  destruct (size_loop_run sub R B (options (initial_world o R)))
    with (fuel := fuel) (w := initial_world o R)
    as (w' & recs & Hrun & Hhist & Hser & Hrecs & Hex & Hv & Ha);
    try done.
  - exact initial_world_entered.
  - rewrite Hsize. simpl.
    assert (2 ^ 30 <= 2 ^ Z.of_nat fuel) by (apply Z.pow_le_mono_r; lia).
    change (2 ^ 30) with 1073741824 in *. nia.
  - simpl in Hhist. subst recs. rewrite Hsize in Hser.
    exists w'. split; [done|]. split; [exact Hser|].
    split; [|by repeat split].
    eapply Forall_impl; [exact Hrecs|].
    intros rec (H1 & H2 & H3 & H4). repeat split; try done.
    rewrite H3. simpl.
    destruct (validate o); [|done]. f_equal.
    apply map_ext. intros r. apply round_mismatches_initial.
Qed.

Lemma series_in_bytes (first : Z) (sizes : list Z) (complete : bool) :
  Series.series Series.doubled (fun s => 4 * s <= max_message_size o)
    first sizes complete ->
  Series.series Series.doubled
    (fun s => s * SizeT.sizeof_float <= max_message_size o)
    first sizes complete.
Proof.
  assert (Hb : forall s, 4 * s <= max_message_size o
                         <-> s * SizeT.sizeof_float <= max_message_size o)
    by (intros s; unfold SizeT.sizeof_float; lia).
  induction 1 as [s Hs|s Hs|s sizes complete Hs Hlt Hrest IH].
  - apply Series.series_end. by rewrite <- Hb.
  - apply Series.series_break. by rewrite <- Hb.
  - apply Series.series_step; [by rewrite <- Hb|done|done].
Qed.

(** C8.  In a run of the reduce-scatter benchmark the rounds are those
    of the sizes of the series, one record each, up to the first one
    that leaves [errors] different from zero.  Every rank enters every
    one of these rounds with its validation error count [local_errors]
    at zero, so that the global count [errors] which [MPI_Allreduce]
    delivers for a size is the sum over the ranks of the mismatches
    detected during the round of that size alone (and stays zero when
    validation is off); and [errors], when it is not zero at the end, is
    the count of one of the rounds. *)
Theorem error_count_per_round (fuel : nat) :
  (31 <= fuel)%nat ->
  exists w',
    size_loop sub R fuel (initial_world o R) = Ok w' /\
    Series.doubling_series (element_min_message_size o)
      (fun s => s * SizeT.sizeof_float <= max_message_size o)
      (map at_size (history w')) (errors w' =? 0) /\
    (forall rec, rec ∈ history w' ->
      (forall e, e ∈ local_errors_at_entry rec -> e = 0) /\
      length (local_errors_at_entry rec) = Z.to_nat R /\
      errors_at_exit rec
      = (if validate o
         then total (map (round_mismatches
                            (large_message_profile (at_size rec) o) sub R
                            (at_size rec))
                         (all_ranks R))
         else 0)) /\
    (errors w' <> 0 ->
     exists rec, rec ∈ history w' /\ errors_at_exit rec = errors w').
Proof.
  intros Hfuel.
  destruct (size_loop_from_initial_world fuel Hfuel)
    as (w' & Hrun & Hser & Hrecs & Hlast & _).
  exists w'. split; [exact Hrun|].
  split; [by apply series_doubling, series_in_bytes|].
  split; [|exact Hlast].
  intros rec Hrec.
  destruct (proj1 (Forall_forall _ _) Hrecs rec Hrec) as (H1 & H2 & H3 & _).
  split; [|by split].
  intros e He. by apply (proj1 (Forall_forall _ _) H1).
Qed.

End ReduceScatterRun.

Lemma error_count_per_round_witness :
  exists w',
    IreduceScatter.size_loop (H := Example.example_macros)
      Example.reduce_scatter_substrate 2 31
      (IreduceScatter.initial_world (H := Example.example_macros)
         Example.example_options 2) = Ok w' /\
    Series.doubling_series 1 (fun s => s * SizeT.sizeof_float <= 32)
      (map IreduceScatter.at_size (IreduceScatter.history w'))
      (IreduceScatter.errors w' =? 0) /\
    (forall rec, rec ∈ IreduceScatter.history w' ->
      (forall e, e ∈ IreduceScatter.local_errors_at_entry rec -> e = 0) /\
      length (IreduceScatter.local_errors_at_entry rec) = Z.to_nat 2 /\
      IreduceScatter.errors_at_exit rec
      = (if validate Example.example_options
         then IreduceScatter.total
                (map (IreduceScatter.round_mismatches
                        (large_message_profile (H := Example.example_macros)
                           (IreduceScatter.at_size rec) Example.example_options)
                        Example.reduce_scatter_substrate 2
                        (IreduceScatter.at_size rec))
                     (IreduceScatter.all_ranks 2))
         else 0)) /\
    (IreduceScatter.errors w' <> 0 ->
     exists rec,
       rec ∈ IreduceScatter.history w' /\
       IreduceScatter.errors_at_exit rec = IreduceScatter.errors w').
Proof.
  apply (error_count_per_round (M := Example.example_macros)
           Example.reduce_scatter_substrate Example.example_options 2 1).
  - unfold IreduceScatter.well_formed. repeat split; by vm_compute.
  - unfold IreduceScatter.counts_fit. split; [|split; by vm_compute].
    intros rank size overlap i. simpl. case_match; lia.
  - lia.
Defined.

(** ** The loop over sizes of the latency benchmarks *)

Section DtLoops.

Import Dt Series.

Context `{M : macros}.

Lemma next_size_doubled (s : Z) :
  0 <= s <= 1073741823 -> next_size s = doubled s.
Proof.
  intros Hs. unfold next_size, doubled.
  destruct (Z.eqb_spec s 0); simpl; [done|].
  unfold CInt.mul. rewrite CInt_wrap_id; [lia|].
  unfold CInt.in_range, CInt.INT_MIN, CInt.INT_MAX. lia.
Qed.

Lemma rep_count_profile (size s : Z) (o : options_t) :
  rep_count size (large_message_profile s o) = rep_count size o.
Proof.
  unfold rep_count.
  by destruct (large_message_profile_frame s o) as (_ & _ & _ & -> & _).
Qed.

Section Latency.

Import LatencyDt.

Variables (sub : substrate) (myid : Z).

Lemma latency_size_loop_run (fuel : nat) (st : state) :
  1 <= msg_size st ->
  dt_block_size (options st) <> 0 ->
  max_message_size (options st) <= 1073741823 ->
  max_message_size (options st) < msg_size st * 2 ^ Z.of_nat fuel ->
  exists st' sizes,
    size_loop sub myid (S fuel) st = Ok st' /\
    log st' = log st ++ map (fun s => Round s (rep_count s (options st))) sizes /\
    Series.series doubled (fun s => s <= max_message_size (options st))
      (msg_size st) sizes true /\
    accel (options st') = accel (options st).
Proof.
  revert st. induction fuel as [|fuel IH]; intros st Hsize Hblock Hmax Hfuel.
  - exists st, []. simpl. unfold size_in_bounds.
    destruct (Z.leb_spec (msg_size st) (max_message_size (options st)));
      [simpl in Hfuel; lia|].
    rewrite app_nil_r. repeat split; try done.
    apply Series.series_end. lia.
  - cbn [size_loop]. unfold size_in_bounds.
    destruct (Z.leb_spec (msg_size st) (max_message_size (options st))) as [Hle|Hgt].
    2:{ exists st, []. rewrite app_nil_r. repeat split; try done.
        apply Series.series_end. lia. }
    destruct (large_message_profile_frame (msg_size st) (options st))
      as (_ & Hm & _ & Hb & _ & Ha & _). cbv zeta in Hm, Hb, Ha.
    destruct (round_control sub myid st) as (st1 & -> & Hsz1 & Ho1 & Hlog1).
    { cbv zeta. by rewrite Hb. }
    rewrite Hsz1, next_size_doubled by lia.
    destruct (IH (set_msg_size (doubled (msg_size st)) st1))
      as (st' & sizes & Hrun & Hlog & Hser & Hacc).
    + simpl. unfold doubled. case_match; lia.
    + simpl. by rewrite Ho1, Hb.
    + simpl. by rewrite Ho1, Hm.
    + simpl. rewrite Ho1, Hm. unfold doubled.
      rewrite Nat2Z.inj_succ, Z.pow_succ_r in Hfuel by lia.
      destruct (Z.eqb_spec (msg_size st) 0); lia.
    + simpl in Hlog, Hser, Hacc. rewrite Ho1 in Hlog, Hser, Hacc.
      rewrite Hm in Hser. rewrite Ha in Hacc.
      exists st', (msg_size st :: sizes). split; [exact Hrun|].
      split.
      { rewrite Hlog, Hlog1, <- app_assoc. simpl.
        rewrite rep_count_profile. f_equal. f_equal.
        apply map_ext. intros s. by rewrite rep_count_profile. }
      split; [|exact Hacc].
      apply Series.series_step; [done| |done].
      unfold doubled. destruct (Z.eqb_spec (msg_size st) 0); lia.
Qed.

(** From any first size, zero included, fuel for 33 rounds is enough. *)
Lemma latency_size_loop_from (fuel : nat) (st : state) :
  (33 <= fuel)%nat ->
  0 <= msg_size st ->
  dt_block_size (options st) <> 0 ->
  max_message_size (options st) <= 1073741823 ->
  exists st' sizes,
    size_loop sub myid fuel st = Ok st' /\
    log st' = log st ++ map (fun s => Round s (rep_count s (options st))) sizes /\
    Series.series doubled (fun s => s <= max_message_size (options st))
      (msg_size st) sizes true /\
    accel (options st') = accel (options st).
Proof.
  intros Hfuel Hsize Hblock Hmax.
  destruct fuel as [|[|fuel]]; [lia|lia|].
  assert (H32 : 2 ^ 31 <= 2 ^ Z.of_nat fuel) by (apply Z.pow_le_mono_r; lia).
  change (2 ^ 31) with 2147483648 in H32.
  destruct (Z.eq_dec (msg_size st) 0) as [H0|Hn0].
  - (* one round at size 0, then the rounds from size 1 on *)
    cbn [size_loop]. unfold size_in_bounds. rewrite H0.
    destruct (Z.leb_spec 0 (max_message_size (options st))) as [Hle|Hgt].
    2:{ exists st, []. rewrite app_nil_r. repeat split; try done.
        apply Series.series_end. lia. }
    destruct (large_message_profile_frame (msg_size st) (options st))
      as (_ & Hm & _ & Hb & _ & Ha & _). cbv zeta in Hm, Hb, Ha.
    destruct (round_control sub myid st) as (st1 & Hr & Hsz1 & Ho1 & Hlog1).
    { cbv zeta. by rewrite Hb. }
    rewrite Hr, Hsz1, H0.
    change (next_size 0) with 1.
    destruct (latency_size_loop_run fuel (set_msg_size 1 st1))
      as (st' & sizes & Hrun & Hlog & Hser & Hacc).
    + simpl. lia.
    + simpl. by rewrite Ho1, Hb.
    + simpl. by rewrite Ho1, Hm.
    + simpl. rewrite Ho1, Hm. lia.
    + simpl in Hlog, Hser, Hacc. rewrite Ho1 in Hlog, Hser, Hacc.
      rewrite Hm in Hser. rewrite Ha in Hacc.
      exists st', (0 :: sizes). split; [exact Hrun|].
      split.
      { rewrite Hlog, Hlog1, <- app_assoc, H0. simpl.
        rewrite rep_count_profile. f_equal. f_equal.
        apply map_ext. intros s. by rewrite rep_count_profile. }
      split; [|exact Hacc].
      apply Series.series_step; [done|done|exact Hser].
  - apply (latency_size_loop_run (S fuel)); try done; [lia|].
    rewrite Nat2Z.inj_succ, Z.pow_succ_r by lia. nia.
Qed.

End Latency.

End DtLoops.

(** C4.  The sizes the loop over sizes visits form a strictly
    increasing series in which every size is twice the one before, with
    the one exception that the size 0 is followed by the size 1; every
    size visited is within the configured maximum, and (unless the
    reduce-scatter loop was left early on a validation error) the loop
    stops at the first size whose successor exceeds the maximum.  This
    holds of the loop of osu_latency_dt ([size <= max_message_size], from
    any first size, with fuel for 33 rounds) and of the loop of
    osu_ireduce_scatter ([size * sizeof(float) <= max_message_size], from
    the first element count, with fuel for 31 rounds). *)
Theorem message_size_series `{M : macros}
    (lsub : LatencyDt.substrate) (myid : Z) (st : LatencyDt.state)
    (sub : IreduceScatter.substrate) (o : options_t) (R B : Z) (fuel : nat) :
  (33 <= fuel)%nat ->
  0 <= LatencyDt.msg_size st ->
  dt_block_size (LatencyDt.options st) <> 0 ->
  max_message_size (LatencyDt.options st) <= 1073741823 ->
  IreduceScatter.well_formed o R ->
  IreduceScatter.counts_fit o sub R B ->
  (exists st' sizes,
     LatencyDt.size_loop lsub myid fuel st = Ok st' /\
     LatencyDt.log st'
     = LatencyDt.log st
       ++ map (fun s => Dt.Round s (Dt.rep_count s (LatencyDt.options st))) sizes /\
     Series.doubling_series (LatencyDt.msg_size st)
       (fun s => s <= max_message_size (LatencyDt.options st)) sizes true) /\
  (exists w',
     IreduceScatter.size_loop sub R fuel (IreduceScatter.initial_world o R) = Ok w' /\
     Series.doubling_series (IreduceScatter.element_min_message_size o)
       (fun s => s * SizeT.sizeof_float <= max_message_size o)
       (map IreduceScatter.at_size (IreduceScatter.history w'))
       (IreduceScatter.errors w' =? 0)).
Proof.
  intros Hfuel Hsize Hblock Hmax Hwf Hfit. split.
  - destruct (latency_size_loop_from lsub myid fuel st)
      as (st' & sizes & Hrun & Hlog & Hser & _); try done.
    exists st', sizes. split; [done|]. split; [done|].
    by apply series_doubling.
  - destruct (size_loop_from_initial_world sub o R B Hwf Hfit fuel)
      as (w' & Hrun & Hser & _); [lia|].
    exists w'. split; [done|].
    apply series_doubling.
    assert (Hb : forall s, 4 * s <= max_message_size o
                           <-> s * SizeT.sizeof_float <= max_message_size o)
      by (intros s; unfold SizeT.sizeof_float; lia).
    clear -Hser Hb.
    induction Hser as [s Hs|s Hs|s sizes complete Hs Hlt Hrest IH].
    + apply Series.series_end. by rewrite <- Hb.
    + apply Series.series_break. by rewrite <- Hb.
    + apply Series.series_step; [by rewrite <- Hb|done|done].
Qed.

Lemma message_size_series_witness :
  (exists st' sizes,
     LatencyDt.size_loop (H := Example.example_macros)
       Example.latency_substrate 0 33 Example.latency_state_from_zero = Ok st' /\
     LatencyDt.log st'
     = LatencyDt.log Example.latency_state_from_zero
       ++ map (fun s => Dt.Round s (Dt.rep_count s Example.example_options)) sizes /\
     Series.doubling_series 0 (fun s => s <= 32) sizes true) /\
  (exists w',
     IreduceScatter.size_loop (H := Example.example_macros)
       Example.reduce_scatter_substrate 2 33
       (IreduceScatter.initial_world (H := Example.example_macros)
          Example.example_options 2) = Ok w' /\
     Series.doubling_series 1 (fun s => s * SizeT.sizeof_float <= 32)
       (map IreduceScatter.at_size (IreduceScatter.history w'))
       (IreduceScatter.errors w' =? 0)).
Proof.
  apply (message_size_series (M := Example.example_macros)
           Example.latency_substrate 0 Example.latency_state_from_zero
           Example.reduce_scatter_substrate Example.example_options 2 1 33).
  - lia.
  - simpl. lia.
  - simpl. lia.
  - simpl. lia.
  - unfold IreduceScatter.well_formed. repeat split; by vm_compute.
  - unfold IreduceScatter.counts_fit. split; [|split; by vm_compute].
    intros rank size overlap i. simpl. case_match; lia.
Defined.

(** The sizes osu_latency_dt visits for a minimum of 0 and a maximum of
    32 bytes with blocks of 1 byte ([main] raises the minimum to the block
    length before the loop), and those osu_ireduce_scatter visits from 1
    element up to the first failed validation. *)
Example latency_sizes_from_zero :
  Dt.steps
    (LatencyDt.main (H := Example.example_macros) 33 Example.latency_substrate
       (set_min_message_size 0
          (set_iterations_skip 3 2
             {| min_message_size := 0; max_message_size := 32;
                iterations := 3; iterations_large := 2; skip := 2;
                skip_large := 1; dt_block_size := 1; dt_stride_size := 2;
                warmup_validation := 0; validate := false; accel := NONE;
                graph := false |}))
       (Example.latency_process PO_OKAY 2 0))
  = [Dt.Sanity_check false; Dt.Round 1 1; Dt.Round 2 2;
     Dt.Round 4 4; Dt.Round 8 8; Dt.Round 16 16; Dt.Round 32 32].
Proof. vm_compute. reflexivity. Qed.

(** From the size 0 the loop of osu_latency_dt goes to 1 once, then
    doubles; with blocks of 3 bytes the first three rounds transfer no
    block at all. *)
Example latency_rounds_from_zero :
  match LatencyDt.size_loop (H := Example.example_macros)
          Example.latency_substrate 0 33 Example.latency_state_from_zero with
  | Ok st => LatencyDt.log st
  | _ => []
  end
  = [Dt.Round 0 0; Dt.Round 1 0; Dt.Round 2 0; Dt.Round 4 1; Dt.Round 8 2;
     Dt.Round 16 5; Dt.Round 32 10].
Proof. vm_compute. reflexivity. Qed.

Example reduce_scatter_sizes :
  match IreduceScatter.size_loop (H := Example.example_macros)
          Example.reduce_scatter_substrate 2 33
          (IreduceScatter.initial_world (H := Example.example_macros)
             Example.example_options 2) with
  | Ok w => map IreduceScatter.at_size (IreduceScatter.history w)
  | _ => []
  end = [1; 2; 4].
Proof. vm_compute. reflexivity. Qed.

Lemma mean_latency_feeds_dummy_compute_witness :
  let l' :=
    IreduceScatter.round_of_rank Example.example_options
      Example.reduce_scatter_substrate 2 4 0 (IreduceScatter.initial_locals 2) in
  IreduceScatter.latency_in_secs l' = 4%float /\
  IreduceScatter.dummy_compute_targets (IreduceScatter.calls l')
  = [4%float; 4%float; 4%float; 4%float; 4%float].
Proof.
  destruct (mean_latency_feeds_dummy_compute Example.example_options
              Example.reduce_scatter_substrate 0 4 2
              (IreduceScatter.initial_locals 2))
    as (Hmean & _ & _ & cs & Hcalls & Htargets).
  - simpl. lia.
  - simpl. lia.
  - simpl. unfold CInt.INT_MAX. lia.
  - cbv zeta. rewrite Hcalls. simpl app. rewrite Htargets, Hmean.
    split; vm_compute; reflexivity.
Defined.

(** ** The receive buffer of the reduce-scatter benchmark *)

Section ReceiveBuffer.

Import IreduceScatter.

Lemma recvbuf_bufsize_value (o : options_t) (R : Z) :
  2 <= R <= CInt.INT_MAX -> 0 <= max_message_size o <= SizeT.SIZE_MAX ->
  recvbuf_bufsize o R
  = SizeT.sizeof_float * (max_message_size o / R / SizeT.sizeof_float + 1).
Proof.
  intros HR Hmax. unfold CInt.INT_MAX, SizeT.SIZE_MAX in *.
  unfold recvbuf_bufsize, SizeT.mul, SizeT.add, SizeT.div, SizeT.of_int,
    SizeT.wrap, SizeT.modulus, SizeT.sizeof_float.
  rewrite (Z.mod_small R) by lia.
  assert (Hq : 0 <= max_message_size o / R / 4 <= max_message_size o / 8).
  { rewrite Z.div_div by lia. split; [apply Z.div_pos; lia|].
    apply Z.div_le_compat_l; lia. }
  assert (max_message_size o / 8 <= 2305843009213693952)
    by (apply Z.div_le_upper_bound; lia).
  rewrite (Z.mod_small (_ + 1)) by lia.
  rewrite Z.mod_small by lia. reflexivity.
Qed.

(** C9.  For [R >= 2] ranks, an element count [S >= 1] that passes the
    test of the loop over sizes ([S * sizeof(float) <=
    max_message_size]) and a rank [r] below [R], the partition entry
    [recvcounts[r]] is at most [max_message_size / R / sizeof(float) + 1],
    the number of floats [recvbuf] is allocated for: that many floats
    fit in the [bufsize] bytes of the buffer. *)
Theorem recvcounts_fit_recvbuf (o : options_t) (R S r : Z)
    (recvcounts : list Z) :
  2 <= R <= CInt.INT_MAX -> 1 <= S <= CInt.INT_MAX ->
  0 <= max_message_size o <= SizeT.SIZE_MAX ->
  size_in_bounds S o = true ->
  0 <= r < R ->
  length recvcounts = Z.to_nat R ->
  exists c,
    set_recvcounts S R recvcounts !! Z.to_nat r = Some c /\
    0 <= c <= max_message_size o / R / SizeT.sizeof_float + 1 /\
    c * SizeT.sizeof_float <= recvbuf_bufsize o R.
Proof.
  intros HR HS Hmax Hbound Hr Hlen.
  apply size_in_bounds_spec in Hbound; [|lia].
  eexists. split; [by apply set_recvcounts_lookup|].
  rewrite recvbuf_bufsize_value by done.
  unfold partition_entry, SizeT.sizeof_float.
  assert (Hq : S / R <= max_message_size o / R / 4).
  { rewrite Z.div_div, (Z.mul_comm R 4), <- Z.div_div by lia.
    apply Z.div_le_mono; [lia|].
    apply Z.div_le_lower_bound; lia. }
  assert (0 <= S / R) by (apply Z.div_pos; lia).
  repeat case_match; lia.
Qed.

End ReceiveBuffer.

Lemma recvcounts_fit_recvbuf_witness :
  exists c,
    IreduceScatter.set_recvcounts 8 3 [0; 0; 0] !! Z.to_nat 0 = Some c /\
    0 <= c <= 32 / 3 / SizeT.sizeof_float + 1 /\
    c * SizeT.sizeof_float
    <= IreduceScatter.recvbuf_bufsize Example.example_options 3.
Proof.
  apply (recvcounts_fit_recvbuf Example.example_options 3 8 0 [0; 0; 0]).
  - by vm_compute.
  - by vm_compute.
  - by vm_compute.
  - reflexivity.
  - lia.
  - reflexivity.
Defined.

(** ** The layout descriptor *)

Section Layout.

Import Dt.

Context `{M : macros}.

Lemma multi_round_control (sub : MultiLatDt.substrate) (pairs : Z)
    (w : MultiLatDt.world) :
  let o := large_message_profile (MultiLatDt.msg_size w) (MultiLatDt.options w) in
  dt_block_size o <> 0 ->
  exists w',
    MultiLatDt.round sub pairs w = Ok w' /\
    MultiLatDt.msg_size w' = MultiLatDt.msg_size w /\
    MultiLatDt.options w' = o /\
    MultiLatDt.log w'
    = MultiLatDt.log w
      ++ [Round (MultiLatDt.msg_size w) (rep_count (MultiLatDt.msg_size w) o)] /\
    length (MultiLatDt.ranks w') = length (MultiLatDt.ranks w).
Proof.
  intros o Hb. unfold MultiLatDt.round. cbv zeta. fold o.
  destruct (Z.eqb_spec (dt_block_size o) 0) as [|_]; [done|].
  eexists. split; [reflexivity|]. simpl.
  repeat split. by rewrite !length_imap.
Qed.

Lemma rep_count_floor (size : Z) (o : options_t) :
  0 <= size -> 1 <= dt_block_size o ->
  rep_count size o = size / dt_block_size o.
Proof. intros Hs Hb. unfold rep_count. apply CInt_div_nonneg; lia. Qed.

End Layout.


(** ** The rounds of osu_multi_lat_dt *)

Section MultiLatencyRounds.

Import Dt MultiLatDt.

Context `{M : macros}.
Variables (sub : substrate) (o : options_t) (pairs size : Z).

Ltac project :=
  cbn [t_start t_end latency total_lat avg_lat calls emit set_t_start
       set_t_end set_latency set_total_lat set_avg_lat].

Lemma iteration_frame (rank : Z) (exchange : list call) (l : locals) (i : nat) :
  let l' := iteration sub o rank size exchange l i in
  t_end l' = t_end l /\ latency l' = latency l /\
  total_lat l' = total_lat l /\ avg_lat l' = avg_lat l.
Proof. unfold iteration. cbv zeta. case_match; project; auto. Qed.

Lemma iteration_t_start (rank : Z) (exchange : list call) (l : locals) (i : nat) :
  t_start (iteration sub o rank size exchange l i)
  = if Z.of_nat i =? skip o then Wtime sub rank size i else t_start l.
Proof. unfold iteration. cbv zeta. case_match; project; auto. Qed.

Lemma run_other (rank : Z) (exchange : list call) (l : locals) (js : list nat) :
  Forall (fun j => Z.of_nat j <> skip o) js ->
  t_start (foldl (iteration sub o rank size exchange) l js) = t_start l.
Proof.
  revert l. induction js as [|j js IH]; intros l Hjs; simpl; [done|].
  inversion Hjs as [|? ? Hj Hrest]; subst.
  rewrite IH by done. rewrite iteration_t_start.
  destruct (Z.eqb_spec (Z.of_nat j) (skip o)); [lia|done].
Qed.

Lemma run_frame (rank : Z) (exchange : list call) (l : locals) (js : list nat) :
  let l' := foldl (iteration sub o rank size exchange) l js in
  t_end l' = t_end l /\ latency l' = latency l /\
  total_lat l' = total_lat l /\ avg_lat l' = avg_lat l.
Proof.
  revert l. induction js as [|j js IH]; intros l; simpl; [auto|].
  destruct (IH (iteration sub o rank size exchange l j)) as (-> & -> & -> & ->).
  apply iteration_frame.
Qed.

(** The clock is read when the warm-up is over. *)
Lemma loop_t_start (rank : Z) (exchange : list call) (l : locals) :
  0 <= skip o -> 1 <= iterations o ->
  t_start (foldl (iteration sub o rank size exchange) l (iteration_indices o))
  = Wtime sub rank size (Z.to_nat (skip o)).
Proof.
  intros Hs Hi. unfold iteration_indices.
  set (k := Z.to_nat (skip o)).
  replace (Z.to_nat (iterations o + skip o))
    with (k + S (Z.to_nat (iterations o) - 1))%nat by lia.
  rewrite seq_app, foldl_app. simpl.
  rewrite run_other.
  - rewrite iteration_t_start.
    destruct (Z.eqb_spec (Z.of_nat k) (skip o)); [done|lia].
  - apply Forall_forall. intros j Hj. apply elem_of_seq in Hj. lia.
Qed.

(** The calls of iteration [i]: the barrier that follows the reading of
    the clock when the warm-up is over, then the exchange. *)
Lemma run_calls (rank : Z) (exchange : list call) (l : locals) (js : list nat) :
  calls (foldl (iteration sub o rank size exchange) l js)
  = calls l
    ++ concat (map (fun i : nat =>
                      (if Z.of_nat i =? skip o then [MPI_Barrier] else [])
                      ++ exchange) js).
Proof.
  revert l. induction js as [|j js IH]; intros l; simpl.
  - by rewrite app_nil_r.
  - rewrite IH. unfold iteration. cbv zeta.
    case_match; project; by rewrite <- !app_assoc.
Qed.

Lemma round_of_rank_latency_value (rank : Z) (l : locals) :
  0 <= skip o -> 1 <= iterations o ->
  latency (round_of_rank sub o pairs size rank l)
  = rank_latency sub o size rank.
Proof.
  intros Hs Hi. unfold round_of_rank, rank_latency. cbv zeta. project.
  rewrite loop_t_start by done.
  by rewrite length_iteration_indices.
Qed.

Lemma round_of_rank_exchange (rank : Z) (l : locals) :
  calls (round_of_rank sub o pairs size rank l)
  = calls l
    ++ [MPI_Type_vector (rep_count size o) (dt_block_size o) (dt_stride_size o);
        MPI_Type_commit; MPI_Barrier]
    ++ concat (map (fun i : nat =>
                      (if Z.of_nat i =? skip o then [MPI_Barrier] else [])
                      ++ (if rank <? pairs
                          then ping (CInt.add rank pairs)
                          else pong (CInt.add rank (- pairs))))
                   (iteration_indices o))
    ++ [MPI_Type_free].
Proof.
  unfold round_of_rank. cbv zeta. project.
  rewrite run_calls. project.
  rewrite <- !app_assoc. simpl. do 4 f_equal.
  destruct (rank <? pairs); reflexivity.
Qed.

End MultiLatencyRounds.

Section MultiLatencyReport.

Import Dt MultiLatDt.

Context `{M : macros}.
Variables (sub : substrate) (pairs : Z).


(** The calls of a round of osu_multi_lat_dt on each of its ranks. *)
Lemma reduce_and_report_calls (size : Z) (latencies : list float) (r : nat)
    (l : locals) :
  let l' := reduce_and_report sub pairs size latencies r l in
  calls l'
  = calls l
    ++ MPI_Reduce MPI_SUM
       :: (if Z.of_nat r =? 0 then [print_latency size (avg_lat l')] else []).
Proof.
  unfold reduce_and_report. cbv zeta.
  destruct (Z.of_nat r =? 0);
    cbn [calls avg_lat total_lat emit set_total_lat set_avg_lat].
  - by rewrite <- app_assoc.
  - reflexivity.
Qed.

Lemma multi_round_calls (w : world) :
  let size := msg_size w in
  let o' := large_message_profile (msg_size w) (options w) in
  dt_block_size o' <> 0 ->
  exists w',
    round sub pairs w = Ok w' /\
    log w' = log w ++ [Round size (rep_count size o')] /\
    forall (r : nat) (l : locals),
      ranks w !! r = Some l ->
      exists l',
        ranks w' !! r = Some l' /\
        calls l'
        = calls l
          ++ [MPI_Type_vector (rep_count size o') (dt_block_size o')
                (dt_stride_size o');
              MPI_Type_commit; MPI_Barrier]
          ++ concat (map (fun i : nat =>
                            (if Z.of_nat i =? skip o' then [MPI_Barrier] else [])
                            ++ (if Z.of_nat r <? pairs
                                then ping (CInt.add (Z.of_nat r) pairs)
                                else pong (CInt.add (Z.of_nat r) (- pairs))))
                         (iteration_indices o'))
          ++ [MPI_Type_free; MPI_Reduce MPI_SUM]
          ++ (if Z.of_nat r =? 0 then [print_latency size (avg_lat l')] else []).
Proof.
  intros size o' Hb. unfold round. cbv zeta.
  fold o' size. destruct (Z.eqb_spec (dt_block_size o') 0) as [|_]; [done|].
  eexists. split; [reflexivity|]. cbn [log ranks]. split; [reflexivity|].
  intros r l Hl. rewrite !list_lookup_imap, Hl. simpl.
  eexists. split; [reflexivity|].
  rewrite reduce_and_report_calls. cbv zeta.
  rewrite round_of_rank_exchange. rewrite <- !app_assoc. reflexivity.
Qed.

End MultiLatencyReport.

Section LayoutDescriptor.

Import Dt.

Context `{M : macros}.

(** C5.  For every message size and every block length of at least 1
    (the sanity check has bounded it by the stride and the maxima), the
    repeat count of the layout descriptor is [message_size /
    block_length] in integer division: the remainder is dropped, so that
    [repeat_count * block_length <= message_size], less than one block
    being left out.  A round of osu_latency_dt builds its descriptor
    with this count, the block length and the stride once its two
    buffers are filled; a round of osu_multi_lat_dt does so on every
    rank as the first call of the round. *)
Theorem layout_repeat_count (o : options_t) (size : Z)
    (lsub : LatencyDt.substrate) (myid : Z) (st : LatencyDt.state)
    (msub : MultiLatDt.substrate) (pairs : Z) (w : MultiLatDt.world) :
  0 <= size -> 1 <= dt_block_size o ->
  LatencyDt.msg_size st = size -> LatencyDt.options st = o ->
  MultiLatDt.msg_size w = size -> MultiLatDt.options w = o ->
  rep_count size o = size / dt_block_size o /\
  rep_count size o * dt_block_size o <= size /\
  size - rep_count size o * dt_block_size o = size mod dt_block_size o /\
  (exists st' rest,
     LatencyDt.round lsub myid st = Ok st' /\
     LatencyDt.log st'
     = LatencyDt.log st ++ [Round size (size / dt_block_size o)] /\
     LatencyDt.calls st'
     = LatencyDt.calls st
       ++ [set_buffer_pt2pt s_buf "a" size; set_buffer_pt2pt r_buf "b" size]
       ++ MPI_Type_vector (size / dt_block_size o) (dt_block_size o)
            (dt_stride_size o) :: rest) /\
  (exists w',
     MultiLatDt.round msub pairs w = Ok w' /\
     MultiLatDt.log w'
     = MultiLatDt.log w ++ [Round size (size / dt_block_size o)] /\
     length (MultiLatDt.ranks w') = length (MultiLatDt.ranks w) /\
     forall (r : nat) (l : MultiLatDt.locals),
       MultiLatDt.ranks w !! r = Some l ->
       exists l' rest,
         MultiLatDt.ranks w' !! r = Some l' /\
         MultiLatDt.calls l'
         = MultiLatDt.calls l
           ++ MPI_Type_vector (size / dt_block_size o) (dt_block_size o)
                (dt_stride_size o) :: rest).
Proof.
  intros Hs Hb Hst1 Hst2 Hw1 Hw2.
  pose proof (rep_count_floor size o Hs Hb) as Hrep.
  pose proof (Z.div_mod size (dt_block_size o) ltac:(lia)) as Hdm.
  pose proof (Z.mod_pos_bound size (dt_block_size o) ltac:(lia)) as Hm.
  split; [exact Hrep|]. rewrite Hrep.
  split; [nia|]. split; [nia|].
  destruct (large_message_profile_frame size o)
    as (_ & _ & _ & Hblock & Hstride & _). cbv zeta in Hblock, Hstride.
  split.
  - destruct (round_control lsub myid st) as (st' & Hr & _ & _ & Hlog).
    { cbv zeta. rewrite Hst1, Hst2, Hblock. lia. }
    destruct (round_descriptor lsub myid st st' Hr) as (rest & Hcalls).
    rewrite Hst1, Hst2 in Hlog, Hcalls.
    rewrite rep_count_profile, Hrep in Hlog, Hcalls.
    rewrite Hblock, Hstride in Hcalls.
    by exists st', rest.
  - destruct (multi_round_control msub pairs w)
      as (w' & Hr & _ & _ & Hlog & Hlen).
    { cbv zeta. rewrite Hw1, Hw2, Hblock. lia. }
    rewrite Hw1, Hw2 in Hlog. rewrite rep_count_profile, Hrep in Hlog.
    exists w'. split; [exact Hr|]. split; [exact Hlog|]. split; [exact Hlen|].
    destruct (multi_round_calls msub pairs w) as (w2 & Hr2 & _ & Hcalls).
    { cbv zeta. rewrite Hw1, Hw2, Hblock. lia. }
    rewrite Hr in Hr2. injection Hr2 as <-.
    intros r l Hl. destruct (Hcalls r l Hl) as (l' & Hl' & Hc).
    rewrite Hw1, Hw2 in Hc.
    rewrite rep_count_profile, Hrep, Hblock, Hstride in Hc.
    exists l'. eexists. split; [exact Hl'|]. rewrite Hc. reflexivity.
Qed.

End LayoutDescriptor.

Lemma layout_repeat_count_witness :
  Dt.rep_count 16 Example.example_options = 5 /\
  Dt.rep_count 16 Example.example_options * 3 <= 16 /\
  exists w',
    MultiLatDt.round (H := Example.example_macros)
      Example.multi_latency_substrate 2
      (Example.multi_latency_world_at 16 4) = Ok w' /\
    forall (r : nat) (l : MultiLatDt.locals),
      MultiLatDt.ranks (Example.multi_latency_world_at 16 4) !! r = Some l ->
      exists l' rest,
        MultiLatDt.ranks w' !! r = Some l' /\
        MultiLatDt.calls l'
        = MultiLatDt.calls l ++ MPI_Type_vector (16 / 3) 3 4 :: rest.
Proof.
  destruct (layout_repeat_count (M := Example.example_macros)
              Example.example_options 16
              Example.latency_substrate 0 (Example.latency_state_at 16)
              Example.multi_latency_substrate 2
              (Example.multi_latency_world_at 16 4))
    as (Hrep & Hle & _ & _ & w' & Hr & _ & _ & Hcalls).
  - lia.
  - simpl. lia.
  - reflexivity.
  - reflexivity.
  - reflexivity.
  - reflexivity.
  - split; [exact Hrep|]. split; [exact Hle|].
    exists w'. split; [exact Hr|exact Hcalls].
Defined.




(** ** Warm-up iterations *)

Section Warmup.

Lemma map_seq_shift {A} (f g : nat -> A) (a b n : nat) :
  (forall j, (j < n)%nat -> f (a + j)%nat = g (b + j)%nat) ->
  map f (seq a n) = map g (seq b n).
Proof.
  revert a b. induction n as [|n IH]; intros a b Hfg; [done|].
  simpl. f_equal.
  - specialize (Hfg O ltac:(lia)). by rewrite !Nat.add_0_r in Hfg.
  - apply IH. intros j Hj. specialize (Hfg (S j) ltac:(lia)).
    by rewrite !Nat.add_succ_r in Hfg.
Qed.

Lemma round_statistics (o : options_t) (sub : IreduceScatter.substrate)
    (numprocs size rank : Z) (l : IreduceScatter.locals) :
  0 <= skip o -> 0 <= iterations o ->
  IreduceScatter.statistics (IreduceScatter.round_of_rank o sub numprocs size rank l)
  = IreduceScatter.measured_statistics o sub rank size.
Proof.
  intros Hs Hi.
  destruct (round_of_rank_totals o sub rank size numprocs l Hs Hi)
    as (Ht & Hc & Hw & Hd & Hn).
  destruct (round_of_rank_latency o sub rank size numprocs l Hs Hi)
    as (_ & Hl & _).
  unfold IreduceScatter.statistics, IreduceScatter.measured_statistics.
  cbv zeta in *. by rewrite Ht, Hc, Hw, Hd, Hn, Hl.
Qed.

(** The statistics do not depend on the warm-up count when the measured
    iterations take the same times. *)
Lemma measured_statistics_shift (o : options_t) (skip2 : Z)
    (sub sub2 : IreduceScatter.substrate) (rank size : Z) :
  0 <= skip o -> 0 <= skip2 ->
  (forall j, (j < Z.to_nat (iterations o))%nat ->
     let i := (Z.to_nat (skip o) + j)%nat in
     let i2 := (Z.to_nat skip2 + j)%nat in
     IreduceScatter.Wtime_latency sub2 rank size i2
     = IreduceScatter.Wtime_latency sub rank size i /\
     IreduceScatter.Wtime_overlap sub2 rank size i2
     = IreduceScatter.Wtime_overlap sub rank size i /\
     IreduceScatter.dummy_compute_result sub2 rank size i2
     = IreduceScatter.dummy_compute_result sub rank size i) ->
  IreduceScatter.measured_statistics
    (set_iterations_skip (iterations o) skip2 o) sub2 rank size
  = IreduceScatter.measured_statistics o sub rank size.
Proof.
  intros Hs Hs2 Hsame.
  unfold IreduceScatter.measured_statistics, IreduceScatter.measured_total,
    IreduceScatter.measured_indices, IreduceScatter.total_time.
  cbv zeta. simpl.
  assert (Hshift : forall F F2 : nat -> float,
            (forall j, (j < Z.to_nat (iterations o))%nat ->
               F2 (Z.to_nat skip2 + j)%nat = F (Z.to_nat (skip o) + j)%nat) ->
            CDouble.accumulate 0%float
              (map F2 (seq (Z.to_nat skip2) (Z.to_nat (iterations o))))
            = CDouble.accumulate 0%float
                (map F (seq (Z.to_nat (skip o)) (Z.to_nat (iterations o))))).
  { intros F F2 HF. f_equal. by apply map_seq_shift. }
  assert (Hl : forall j, (j < Z.to_nat (iterations o))%nat ->
            IreduceScatter.Wtime_latency sub2 rank size (Z.to_nat skip2 + j)
            = IreduceScatter.Wtime_latency sub rank size (Z.to_nat (skip o) + j))
    by (intros j Hj; apply (Hsame j Hj)).
  assert (Ho : forall j, (j < Z.to_nat (iterations o))%nat ->
            IreduceScatter.Wtime_overlap sub2 rank size (Z.to_nat skip2 + j)
            = IreduceScatter.Wtime_overlap sub rank size (Z.to_nat (skip o) + j))
    by (intros j Hj; apply (Hsame j Hj)).
  assert (Hd : forall j, (j < Z.to_nat (iterations o))%nat ->
            IreduceScatter.dummy_compute_result sub2 rank size (Z.to_nat skip2 + j)
            = IreduceScatter.dummy_compute_result sub rank size (Z.to_nat (skip o) + j))
    by (intros j Hj; apply (Hsame j Hj)).
  f_equal; [|f_equal; [|f_equal; [|f_equal; [|f_equal; [|f_equal]]]]].
  - apply Hshift. intros j Hj. by rewrite Ho.
  - f_equal. f_equal. apply Hshift. intros j Hj. by rewrite Hl.
  - apply Hshift. intros j Hj. by rewrite Hd.
  - apply Hshift. intros j Hj. by rewrite Ho.
  - apply Hshift. intros j Hj. by rewrite Ho.
  - apply Hshift. intros j Hj. by rewrite Ho.
Qed.

End Warmup.

(** C7.  In every round the warm-up iterations are executed like the
    measured ones but add nothing to the timing statistics.  In a round
    of osu_ireduce_scatter both loops make the calls of all their
    [iterations + skip] iterations, yet the statistics they leave
    ([timer], [latency] and the four totals) are sums over the iterations
    of index [skip] and above alone; a run with another warm-up count
    [skip2] whose measured iterations take the same times leaves the same
    statistics.  In a round of osu_latency_dt rank 0 exchanges messages
    in all the iterations, reads the clock when the warm-up is over and
    after the loop, and prints a latency that is the same in a run with
    another warm-up count and the same two readings.  In each of the
    runs the number of iterations of a loop is within [int], the type of
    its counter. *)
Theorem warmup_iterations_discarded `{M : macros}
    (o : options_t) (sub sub2 : IreduceScatter.substrate)
    (numprocs size rank : Z) (l l2 : IreduceScatter.locals) (skip2 : Z)
    (lsub lsub2 : LatencyDt.substrate) (st st2 : LatencyDt.state) :
  let o2 := set_iterations_skip (iterations o) skip2 o in
  let lsize := LatencyDt.msg_size st in
  let lo := large_message_profile lsize (LatencyDt.options st) in
  let lo2 := large_message_profile lsize (LatencyDt.options st2) in
  0 <= skip o -> 0 <= iterations o -> 0 <= skip2 ->
  iterations o + skip o <= CInt.INT_MAX ->
  iterations o2 + skip o2 <= CInt.INT_MAX ->
  (forall j, (j < Z.to_nat (iterations o))%nat ->
     let i := (Z.to_nat (skip o) + j)%nat in
     let i2 := (Z.to_nat skip2 + j)%nat in
     IreduceScatter.Wtime_latency sub2 rank size i2
     = IreduceScatter.Wtime_latency sub rank size i /\
     IreduceScatter.Wtime_overlap sub2 rank size i2
     = IreduceScatter.Wtime_overlap sub rank size i /\
     IreduceScatter.dummy_compute_result sub2 rank size i2
     = IreduceScatter.dummy_compute_result sub rank size i) ->
  LatencyDt.msg_size st2 = lsize ->
  dt_block_size lo <> 0 -> dt_block_size lo2 <> 0 ->
  0 <= skip lo -> 0 <= skip lo2 ->
  1 <= iterations lo -> iterations lo2 = iterations lo ->
  iterations lo + skip lo <= CInt.INT_MAX ->
  iterations lo2 + skip lo2 <= CInt.INT_MAX ->
  LatencyDt.Wtime lsub2 lsize (Z.to_nat (skip lo2))
  = LatencyDt.Wtime lsub lsize (Z.to_nat (skip lo)) ->
  LatencyDt.Wtime lsub2 lsize (Z.to_nat (iterations lo2 + skip lo2))
  = LatencyDt.Wtime lsub lsize (Z.to_nat (iterations lo + skip lo)) ->
  (let l' := IreduceScatter.round_of_rank o sub numprocs size rank l in
   let rc := IreduceScatter.set_recvcounts size numprocs
               (IreduceScatter.recvcounts l) in
   let all_iterations := seq 0 (Z.to_nat (iterations o + skip o)) in
   IreduceScatter.calls l'
   = IreduceScatter.calls l
     ++ [MPI_Barrier]
     ++ concat (map (IreduceScatter.latency_iteration_calls o rc rank size)
                    all_iterations)
     ++ [MPI_Barrier; init_arrays (IreduceScatter.latency_in_secs l');
         MPI_Barrier]
     ++ concat (map (IreduceScatter.overlap_iteration_calls o rc rank size
                       (IreduceScatter.latency_in_secs l'))
                    all_iterations)
     ++ [MPI_Barrier] /\
   IreduceScatter.statistics l'
   = IreduceScatter.measured_statistics o sub rank size /\
   IreduceScatter.statistics
     (IreduceScatter.round_of_rank o2 sub2 numprocs size rank l2)
   = IreduceScatter.statistics l') /\
  (exists st' st2' lat,
     LatencyDt.round lsub 0 st = Ok st' /\
     LatencyDt.round lsub2 0 st2 = Ok st2' /\
     lat = Dt.one_way_latency
             (LatencyDt.Wtime lsub lsize (Z.to_nat (skip lo)))
             (LatencyDt.Wtime lsub lsize (Z.to_nat (iterations lo + skip lo)))
             lo /\
     LatencyDt.calls st'
     = LatencyDt.calls st
       ++ [set_buffer_pt2pt s_buf "a" lsize; set_buffer_pt2pt r_buf "b" lsize;
           MPI_Type_vector (Dt.rep_count lsize lo) (dt_block_size lo)
             (dt_stride_size lo);
           MPI_Type_commit; MPI_Barrier]
       ++ concat (map (fun _ : nat => Dt.ping 1)
                      (seq 0 (Z.to_nat (iterations lo + skip lo))))
       ++ [print_latency lsize lat; MPI_Type_free] /\
     LatencyDt.calls st2'
     = LatencyDt.calls st2
       ++ [set_buffer_pt2pt s_buf "a" lsize; set_buffer_pt2pt r_buf "b" lsize;
           MPI_Type_vector (Dt.rep_count lsize lo2) (dt_block_size lo2)
             (dt_stride_size lo2);
           MPI_Type_commit; MPI_Barrier]
       ++ concat (map (fun _ : nat => Dt.ping 1)
                      (seq 0 (Z.to_nat (iterations lo2 + skip lo2))))
       ++ [print_latency lsize lat; MPI_Type_free]).
Proof.
  intros o2 lsize lo lo2 Hs Hi Hs2 _ _ Hsame Hsize2 Hb Hb2 Hls Hls2 Hli Hli2
    _ _ Hstart Hend.
  split.
  - cbv zeta.
    destruct (round_of_rank_latency o sub rank size numprocs l Hs Hi)
      as (-> & _ & _).
    split; [by apply round_of_rank_calls|].
    split; [by apply round_statistics|].
    rewrite !round_statistics; try done.
    by apply measured_statistics_shift.
  - destruct (round_of_rank_0 lsub st Hb Hls Hli) as (st' & Hr & _ & _ & Hcalls).
    subst lo2. rewrite <- Hsize2 in *.
    destruct (round_of_rank_0 lsub2 st2 Hb2 Hls2 ltac:(lia))
      as (st2' & Hr2 & _ & _ & Hcalls2).
    exists st', st2'. eexists. split; [exact Hr|]. split; [exact Hr2|].
    split; [reflexivity|]. split.
    + rewrite Hcalls. subst lsize lo. rewrite Hsize2. reflexivity.
    + rewrite Hcalls2. unfold Dt.iteration_indices.
      do 3 f_equal. unfold Dt.one_way_latency.
      rewrite Hstart, Hend, Hli2. subst lsize lo. rewrite Hsize2. reflexivity.
Qed.

Lemma warmup_iterations_discarded_witness :
  IreduceScatter.statistics
    (IreduceScatter.round_of_rank
       (set_iterations_skip 3 0 Example.example_options)
       Example.reduce_scatter_substrate_shifted 2 4 0
       (IreduceScatter.initial_locals 2))
  = IreduceScatter.statistics
      (IreduceScatter.round_of_rank Example.example_options
         Example.reduce_scatter_substrate 2 4 0
         (IreduceScatter.initial_locals 2)) /\
  IreduceScatter.statistics
    (IreduceScatter.round_of_rank Example.example_options
       Example.reduce_scatter_substrate 2 4 0
       (IreduceScatter.initial_locals 2))
  = [21%float; 4e6%float; 3%float; 3%float; 3%float; 3%float].
Proof.
  destruct (warmup_iterations_discarded (M := Example.example_macros)
              Example.example_options
              Example.reduce_scatter_substrate
              Example.reduce_scatter_substrate_shifted
              2 4 0
              (IreduceScatter.initial_locals 2)
              (IreduceScatter.initial_locals 2) 0
              Example.latency_substrate Example.latency_substrate_shifted
              (Example.latency_state_at 16)
              (Example.latency_state_without_warmup 16))
    as ((_ & Hmeasured & Hsame) & _).
  - simpl. lia.
  - simpl. lia.
  - lia.
  - by vm_compute.
  - by vm_compute.
  - intros j Hj. simpl. repeat split; reflexivity.
  - reflexivity.
  - by vm_compute.
  - by vm_compute.
  - by vm_compute.
  - by vm_compute.
  - by vm_compute.
  - reflexivity.
  - by vm_compute.
  - by vm_compute.
  - reflexivity.
  - reflexivity.
  - split; [exact Hsame|]. rewrite Hmeasured. vm_compute. reflexivity.
Defined.

(** ** The loop over sizes of osu_multi_lat_dt *)

Section MultiLatencyLoop.

Import Dt Series MultiLatDt.

Context `{M : macros}.
Variables (sub : substrate) (pairs : Z).

Lemma multi_latency_run (fuel : nat) (w : world) :
  1 <= msg_size w ->
  dt_block_size (options w) <> 0 ->
  max_message_size (options w) <= 1073741823 ->
  max_message_size (options w) < msg_size w * 2 ^ Z.of_nat fuel ->
  exists w' sizes,
    multi_latency sub pairs (S fuel) w = Ok w' /\
    log w' = log w ++ map (fun s => Round s (rep_count s (options w))) sizes /\
    Series.series doubled (fun s => s <= max_message_size (options w))
      (msg_size w) sizes true.
Proof.
  revert w. induction fuel as [|fuel IH]; intros w Hsize Hblock Hmax Hfuel.
  - exists w, []. simpl. unfold size_in_bounds.
    destruct (Z.leb_spec (msg_size w) (max_message_size (options w)));
      [simpl in Hfuel; lia|].
    rewrite app_nil_r. repeat split; try done.
    apply Series.series_end. lia.
  - cbn [multi_latency]. unfold size_in_bounds.
    destruct (Z.leb_spec (msg_size w) (max_message_size (options w))) as [Hle|Hgt].
    2:{ exists w, []. rewrite app_nil_r. repeat split; try done.
        apply Series.series_end. lia. }
    destruct (large_message_profile_frame (msg_size w) (options w))
      as (_ & Hm & _ & Hb & _). cbv zeta in Hm, Hb.
    destruct (multi_round_control sub pairs w)
      as (w1 & -> & Hsz1 & Ho1 & Hlog1 & _).
    { cbv zeta. by rewrite Hb. }
    rewrite Hsz1, next_size_doubled by lia.
    destruct (IH (set_msg_size (doubled (msg_size w)) w1))
      as (w' & sizes & Hrun & Hlog & Hser).
    + simpl. unfold doubled. case_match; lia.
    + simpl. by rewrite Ho1, Hb.
    + simpl. by rewrite Ho1, Hm.
    + simpl. rewrite Ho1, Hm. unfold doubled.
      rewrite Nat2Z.inj_succ, Z.pow_succ_r in Hfuel by lia.
      destruct (Z.eqb_spec (msg_size w) 0); lia.
    + simpl in Hlog, Hser. rewrite Ho1 in Hlog, Hser. rewrite Hm in Hser.
      exists w', (msg_size w :: sizes). split; [exact Hrun|].
      split.
      { rewrite Hlog, Hlog1, <- app_assoc. simpl.
        rewrite rep_count_profile. f_equal. f_equal.
        apply map_ext. intros s. by rewrite rep_count_profile. }
      apply Series.series_step; [done| |done].
      unfold doubled. destruct (Z.eqb_spec (msg_size w) 0); lia.
Qed.

End MultiLatencyLoop.

(** ** The exit of the latency benchmarks *)

Section DtMain.

Import Dt.

Context `{M : macros}.

Lemma sanity_check_spec (o : options_t) :
  sanity_check o = true <->
  dt_block_size o > dt_stride_size o \/
  dt_block_size o > MAX_DT_BLOCK_SIZE \/
  dt_stride_size o > MAX_DT_STRIDE_SIZE.
Proof.
  unfold sanity_check. rewrite !orb_true_iff, !Z.ltb_lt. lia.
Qed.

Lemma raise_min_message_size_frame (o : options_t) :
  let o' := raise_min_message_size o in
  dt_block_size o' = dt_block_size o /\
  max_message_size o' = max_message_size o /\
  accel o' = accel o /\
  min_message_size o' = Z.max (min_message_size o) (dt_block_size o).
Proof.
  unfold raise_min_message_size.
  destruct (Z.ltb_spec (min_message_size o) (dt_block_size o)); simpl;
    repeat split; lia.
Qed.

(** *** osu_latency_dt *)

Lemma latency_round_log (sub : LatencyDt.substrate) (myid : Z)
    (st st' : LatencyDt.state) :
  LatencyDt.round sub myid st = Ok st' ->
  exists size rep, LatencyDt.log st' = LatencyDt.log st ++ [Round size rep].
Proof.
  intros Hr.
  destruct (Z.eq_dec (dt_block_size
    (large_message_profile (LatencyDt.msg_size st) (LatencyDt.options st))) 0)
    as [H0|Hn0].
  - unfold LatencyDt.round in Hr. cbv zeta in Hr.
    cbn [LatencyDt.options LatencyDt.set_options LatencyDt.msg_size
         LatencyDt.set_buffers LatencyDt.emit] in Hr.
    rewrite H0 in Hr. done.
  - destruct (round_control sub myid st Hn0) as (st1 & Hr1 & _ & _ & Hlog).
    rewrite Hr in Hr1. injection Hr1 as <-. eauto.
Qed.

Lemma latency_size_loop_log (sub : LatencyDt.substrate) (myid : Z)
    (fuel : nat) (st st' : LatencyDt.state) :
  LatencyDt.size_loop sub myid fuel st = Ok st' ->
  exists rounds,
    LatencyDt.log st' = LatencyDt.log st ++ rounds /\ Forall is_round rounds.
Proof.
  revert st. induction fuel as [|fuel IH]; intros st Hrun; [done|].
  cbn [LatencyDt.size_loop] in Hrun.
  destruct (size_in_bounds (LatencyDt.msg_size st) (LatencyDt.options st)).
  - destruct (LatencyDt.round sub myid st) as [st1| |] eqn:Hr; try done.
    destruct (latency_round_log sub myid st st1 Hr) as (size & rep & Hlog1).
    destruct (IH _ Hrun) as (rounds & Hlog & Hrounds).
    exists (Round size rep :: rounds). split.
    + rewrite Hlog. simpl. rewrite Hlog1. by rewrite <- app_assoc.
    + by constructor.
  - injection Hrun as <-. exists []. by rewrite app_nil_r.
Qed.

(** The check comes first and is not repeated. *)
Lemma latency_main_steps (fuel : nat) (sub : LatencyDt.substrate)
    (o : options_t) (p : LatencyDt.process) :
  exists rounds,
    steps (LatencyDt.main fuel sub o p) = Sanity_check (sanity_check o) :: rounds /\
    Forall is_round rounds.
Proof.
  unfold LatencyDt.main. cbv zeta.
  repeat case_match; try (exists []; split; [reflexivity|constructor]).
  all: match goal with
       | H : LatencyDt.size_loop _ _ _ _ = Ok _ |- _ =>
           apply latency_size_loop_log in H as (rounds & Hlog & Hrounds)
       end;
       exists rounds; split; [|done]; unfold LatencyDt.stop; simpl;
       by rewrite Hlog.
Qed.

Lemma latency_main_bad_layout (fuel : nat) (sub : LatencyDt.substrate)
    (o : options_t) (p : LatencyDt.process) :
  sanity_check o = true ->
  exit_status (LatencyDt.main fuel sub o p) = Ok EXIT_FAILURE /\
  steps (LatencyDt.main fuel sub o p) = [Sanity_check true].
Proof.
  intros Hbad. unfold LatencyDt.main. cbv zeta. rewrite Hbad.
  change (bool_decide (PO_BAD_USAGE = PO_OKAY)) with false.
  change (bool_decide (PO_BAD_USAGE = PO_VERSION_MESSAGE)) with false.
  rewrite andb_false_r. simpl. done.
Qed.

Lemma accel_guard (a : accel_type) (b : bool) :
  a = NONE \/ b = false -> bool_decide (a <> NONE) && b = false.
Proof. intros [->| ->]; [reflexivity|apply andb_false_r]. Qed.

(** [main] once the options are accepted and the device is set up. *)
Lemma latency_main_okay (fuel : nat) (sub : LatencyDt.substrate)
    (o : options_t) (p : LatencyDt.process) :
  sanity_check o = false ->
  LatencyDt.po_ret p = PO_OKAY ->
  accel o = NONE \/ LatencyDt.init_accel p = false ->
  LatencyDt.main fuel sub o p
  = let st := LatencyDt.initial_state false (raise_min_message_size o) in
    if negb (LatencyDt.numprocs p =? 2) then LatencyDt.stop EXIT_FAILURE st
    else if LatencyDt.allocate_memory_pt2pt p then LatencyDt.stop EXIT_FAILURE st
    else
      match LatencyDt.size_loop sub (LatencyDt.myid p) fuel st with
      | Ok st =>
          if bool_decide (accel (LatencyDt.options st) <> NONE)
             && LatencyDt.cleanup_accel p
          then LatencyDt.stop EXIT_FAILURE st
          else LatencyDt.stop EXIT_SUCCESS st
      | Div_by_zero =>
          {| exit_status := Div_by_zero; steps := LatencyDt.log st;
             trace := LatencyDt.calls (LatencyDt.set_buffers st) |}
      | Out_of_fuel =>
          {| exit_status := Out_of_fuel; steps := LatencyDt.log st;
             trace := LatencyDt.calls st |}
      end.
Proof.
  intros Hs Hpo Hinit. unfold LatencyDt.main. cbv zeta. rewrite Hs, Hpo.
  destruct (raise_min_message_size_frame o) as (_ & _ & Ha & _).
  cbv zeta in Ha. rewrite <- Ha in Hinit.
  change (bool_decide (PO_OKAY = PO_OKAY)) with true.
  change (bool_decide (PO_OKAY = PO_VERSION_MESSAGE)) with false.
  rewrite andb_true_l, (accel_guard _ _ Hinit), andb_false_r. reflexivity.
Qed.

Lemma latency_main_success (fuel : nat) (sub : LatencyDt.substrate)
    (o : options_t) (p : LatencyDt.process) :
  (33 <= fuel)%nat ->
  sanity_check o = false ->
  LatencyDt.po_ret p = PO_OKAY ->
  accel o = NONE \/ LatencyDt.init_accel p = false ->
  LatencyDt.numprocs p = 2 ->
  LatencyDt.allocate_memory_pt2pt p = false ->
  accel o = NONE \/ LatencyDt.cleanup_accel p = false ->
  1 <= dt_block_size o <= CInt.INT_MAX ->
  0 <= min_message_size o <= CInt.INT_MAX ->
  max_message_size o <= 1073741823 ->
  exit_status (LatencyDt.main fuel sub o p) = Ok EXIT_SUCCESS.
Proof.
  intros Hfuel Hs Hpo Hinit Hn Halloc Hclean Hb Hmin Hmax.
  rewrite latency_main_okay by done. cbv zeta. rewrite Hn, Halloc. simpl.
  destruct (raise_min_message_size_frame o) as (Hb' & Hm' & Ha' & Hmin').
  cbv zeta in Hb', Hm', Ha', Hmin'.
  destruct (latency_size_loop_from sub (LatencyDt.myid p) fuel
              (LatencyDt.initial_state false (raise_min_message_size o)))
    as (st' & sizes & -> & _ & _ & Hacc); try done.
  - simpl. rewrite Hmin'. rewrite CInt_wrap_id; [lia|].
    unfold CInt.in_range, CInt.INT_MIN. lia.
  - simpl. rewrite Hb'. lia.
  - simpl. by rewrite Hm'.
  - simpl in Hacc. rewrite Hacc, Ha', (accel_guard _ _ Hclean). reflexivity.
Qed.

(** *** osu_multi_lat_dt *)

Lemma multi_round_log (sub : MultiLatDt.substrate) (pairs : Z)
    (w w' : MultiLatDt.world) :
  MultiLatDt.round sub pairs w = Ok w' ->
  exists size rep, MultiLatDt.log w' = MultiLatDt.log w ++ [Round size rep].
Proof.
  unfold MultiLatDt.round. cbv zeta.
  case_match; [done|]. intros [= <-]. simpl. eauto.
Qed.

Lemma multi_latency_log (sub : MultiLatDt.substrate) (pairs : Z)
    (fuel : nat) (w w' : MultiLatDt.world) :
  MultiLatDt.multi_latency sub pairs fuel w = Ok w' ->
  exists rounds,
    MultiLatDt.log w' = MultiLatDt.log w ++ rounds /\ Forall is_round rounds.
Proof.
  revert w. induction fuel as [|fuel IH]; intros w Hrun; [done|].
  cbn [MultiLatDt.multi_latency] in Hrun.
  destruct (size_in_bounds (MultiLatDt.msg_size w) (MultiLatDt.options w)).
  - destruct (MultiLatDt.round sub pairs w) as [w1| |] eqn:Hr; try done.
    destruct (multi_round_log sub pairs w w1 Hr) as (size & rep & Hlog1).
    destruct (IH _ Hrun) as (rounds & Hlog & Hrounds).
    exists (Round size rep :: rounds). split.
    + rewrite Hlog. simpl. rewrite Hlog1. by rewrite <- app_assoc.
    + by constructor.
  - injection Hrun as <-. exists []. by rewrite app_nil_r.
Qed.

Lemma multi_main_steps (fuel : nat) (sub : MultiLatDt.substrate)
    (o : options_t) (p : MultiLatDt.process) :
  exists rounds,
    steps (MultiLatDt.main fuel sub o p) = Sanity_check (sanity_check o) :: rounds /\
    Forall is_round rounds.
Proof.
  unfold MultiLatDt.main. cbv zeta.
  repeat case_match; try (exists []; split; [reflexivity|constructor]).
  all: match goal with
       | H : MultiLatDt.multi_latency _ _ _ _ = Ok _ |- _ =>
           apply multi_latency_log in H as (rounds & Hlog & Hrounds)
       end;
       exists rounds; split; [|done]; unfold MultiLatDt.stop; simpl;
       by rewrite Hlog.
Qed.

Lemma multi_main_bad_layout (fuel : nat) (sub : MultiLatDt.substrate)
    (o : options_t) (p : MultiLatDt.process) :
  sanity_check o = true ->
  exit_status (MultiLatDt.main fuel sub o p) = Ok EXIT_FAILURE /\
  steps (MultiLatDt.main fuel sub o p) = [Sanity_check true].
Proof.
  intros Hbad. unfold MultiLatDt.main. cbv zeta. rewrite Hbad.
  change (bool_decide (PO_BAD_USAGE = PO_OKAY)) with false.
  simpl. done.
Qed.

Lemma multi_main_success (fuel : nat) (sub : MultiLatDt.substrate)
    (o : options_t) (p : MultiLatDt.process) :
  (33 <= fuel)%nat ->
  sanity_check o = false ->
  MultiLatDt.po_ret p = PO_OKAY ->
  accel o = NONE \/ MultiLatDt.init_accel p = false ->
  MultiLatDt.allocate_memory_pt2pt_mul p = false ->
  1 <= dt_block_size o <= CInt.INT_MAX ->
  0 <= min_message_size o <= CInt.INT_MAX ->
  max_message_size o <= 1073741823 ->
  exit_status (MultiLatDt.main fuel sub o p) = Ok EXIT_SUCCESS.
Proof.
  intros Hfuel Hs Hpo Hinit Halloc Hb Hmin Hmax.
  unfold MultiLatDt.main. cbv zeta. rewrite Hs, Hpo.
  destruct (raise_min_message_size_frame o) as (Hb' & Hm' & Ha' & Hmin').
  cbv zeta in Hb', Hm', Ha', Hmin'. rewrite <- Ha' in Hinit.
  change (bool_decide (PO_OKAY = PO_OKAY)) with true.
  rewrite andb_true_l, (accel_guard _ _ Hinit), Halloc.
  destruct fuel as [|fuel]; [lia|].
  destruct (multi_latency_run sub (CInt.div (MultiLatDt.nprocs p) 2) fuel
              (MultiLatDt.initial_world false (raise_min_message_size o)
                 (MultiLatDt.nprocs p)))
    as (w' & sizes & -> & _ & _); try done.
  - simpl. rewrite Hmin'. rewrite CInt_wrap_id; [lia|].
    unfold CInt.in_range, CInt.INT_MIN. lia.
  - simpl. rewrite Hb'. lia.
  - simpl. by rewrite Hm'.
  - simpl. rewrite Hm', Hmin'. rewrite CInt_wrap_id.
    2:{ unfold CInt.in_range, CInt.INT_MIN. lia. }
    assert (2 ^ 30 <= 2 ^ Z.of_nat fuel) by (apply Z.pow_le_mono_r; lia).
    change (2 ^ 30) with 1073741824 in *. nia.
Qed.

End DtMain.

(** ** The exit of the reduce-scatter benchmark *)

Section ReduceScatterMain.

Import IreduceScatter.

Context `{M : macros}.
Variables (sub : substrate) (o : options_t) (p : process).

Hypothesis Hpo : po_ret p = PO_OKAY.
Hypothesis Hinit : accel o = NONE \/ init_accel p = false.

(** [main] once the options are accepted and the device is set up. *)
Lemma reduce_scatter_main_okay (fuel : nat) :
  main fuel sub o p
  = if numprocs p <? 2 then Ok EXIT_FAILURE
    else if allocate_recvcounts p then Ok EXIT_FAILURE
    else if allocate_sendbuf p then Ok EXIT_FAILURE
    else if allocate_recvbuf p then Ok EXIT_FAILURE
    else
      match size_loop sub (numprocs p) fuel (initial_world o (numprocs p)) with
      | Ok w =>
          if bool_decide (accel (options w) <> NONE) && cleanup_accel p
          then Ok EXIT_FAILURE
          else if negb (errors w =? 0) && validate (options w) && (rank p =? 0)
          then Ok EXIT_FAILURE
          else Ok EXIT_SUCCESS
      | Div_by_zero => Div_by_zero
      | Out_of_fuel => Out_of_fuel
      end.
Proof.
  unfold main. rewrite Hpo.
  change (bool_decide (PO_OKAY = PO_OKAY)) with true.
  by rewrite andb_true_l, (accel_guard _ _ Hinit).
Qed.

Lemma reduce_scatter_too_few_ranks (fuel : nat) :
  numprocs p < 2 -> main fuel sub o p = Ok EXIT_FAILURE.
Proof.
  intros Hn. rewrite reduce_scatter_main_okay.
  destruct (Z.ltb_spec (numprocs p) 2); [done|lia].
Qed.

Lemma reduce_scatter_allocation_fails (fuel : nat) :
  allocate_recvcounts p || allocate_sendbuf p || allocate_recvbuf p = true ->
  main fuel sub o p = Ok EXIT_FAILURE.
Proof.
  intros Ha. rewrite reduce_scatter_main_okay.
  destruct (numprocs p <? 2); [done|].
  destruct (allocate_recvcounts p); [done|].
  destruct (allocate_sendbuf p); [done|].
  destruct (allocate_recvbuf p); [done|]. done.
Qed.

(** The exit of a process whose ranks got through the loop over sizes:
    only rank 0 turns a validation error into a failure. *)
Lemma reduce_scatter_exit (B : Z) (fuel : nat) :
  (31 <= fuel)%nat ->
  well_formed o (numprocs p) ->
  counts_fit o sub (numprocs p) B ->
  allocate_recvcounts p = false -> allocate_sendbuf p = false ->
  allocate_recvbuf p = false ->
  exists w,
    size_loop sub (numprocs p) fuel (initial_world o (numprocs p)) = Ok w /\
    (validate o = true ->
     (exists rec, rec ∈ history w /\ errors_at_exit rec <> 0) ->
     rank p = 0 -> main fuel sub o p = Ok EXIT_FAILURE) /\
    (accel o = NONE \/ cleanup_accel p = false ->
     rank p <> 0 -> main fuel sub o p = Ok EXIT_SUCCESS) /\
    (accel o = NONE \/ cleanup_accel p = false ->
     ~ (validate o = true /\
        exists rec, rec ∈ history w /\ errors_at_exit rec <> 0) ->
     main fuel sub o p = Ok EXIT_SUCCESS).
Proof.
  intros Hfuel Hwf Hfit Ha1 Ha2 Ha3.
  destruct (size_loop_from_initial_world sub o (numprocs p) B Hwf Hfit fuel Hfuel)
    as (w & Hrun & _ & Hrecs & Hex & Hv & Hacc).
  exists w. split; [exact Hrun|].
  assert (Hmain : main fuel sub o p
          = if bool_decide (accel o <> NONE) && cleanup_accel p
            then Ok EXIT_FAILURE
            else if negb (errors w =? 0) && validate o && (rank p =? 0)
            then Ok EXIT_FAILURE
            else Ok EXIT_SUCCESS).
  { rewrite reduce_scatter_main_okay, Hrun, Ha1, Ha2, Ha3, Hv, Hacc.
    destruct Hwf as (HR & _).
    destruct (Z.ltb_spec (numprocs p) 2); [lia|done]. }
  rewrite Hmain. split; [|split].
  - intros Hval (rec & Hrec & Hne) Hrank.
    destruct (proj1 (Forall_forall _ _) Hrecs rec Hrec) as (_ & _ & _ & [H0|Hw]);
      [done|].
    rewrite Hval, Hrank. rewrite Hw in Hne.
    destruct (Z.eqb_spec (errors w) 0); [done|].
    simpl. by case_match.
  - intros Hclean Hrank. rewrite (accel_guard _ _ Hclean).
    destruct (Z.eqb_spec (rank p) 0); [done|].
    by rewrite andb_false_r.
  - intros Hclean Hok. rewrite (accel_guard _ _ Hclean).
    destruct (Z.eqb_spec (errors w) 0) as [|Hne]; [done|].
    destruct (validate o) eqn:Hval; [|done].
    exfalso. apply Hok. split; [done|].
    destruct (Hex Hne) as (rec & Hrec & Heq).
    exists rec. split; [done|]. by rewrite Heq.
Qed.

End ReduceScatterMain.

(** ** Exit codes *)

(** C3, as the code has it.  A process whose option parsing returned
    [PO_OKAY] and whose device set-up succeeded exits with a non-zero
    code when fewer ranks are present than required (fewer than 2 in
    osu_ireduce_scatter, other than 2 in osu_latency_dt) and when a buffer
    allocation fails.  When validation is enabled and some message size
    produced a non-zero global error count, rank 0 of osu_ireduce_scatter
    exits with a non-zero code; the other ranks exit with 0 whether or
    not a size failed (unless the device clean-up fails).  A process
    exits with 0 on success: when nothing of the above happens and the
    device clean-up succeeds. *)
Theorem exit_codes `{M : macros} (fuel : nat)
    (sub : IreduceScatter.substrate) (o : options_t)
    (p : IreduceScatter.process) (B : Z)
    (lsub : LatencyDt.substrate) (lo : options_t) (lp : LatencyDt.process) :
  (33 <= fuel)%nat ->
  IreduceScatter.po_ret p = PO_OKAY ->
  accel o = NONE \/ IreduceScatter.init_accel p = false ->
  LatencyDt.po_ret lp = PO_OKAY ->
  Dt.sanity_check lo = false ->
  accel lo = NONE \/ LatencyDt.init_accel lp = false ->
  EXIT_SUCCESS = 0 /\ EXIT_FAILURE <> 0 /\
  (IreduceScatter.numprocs p < 2 ->
   IreduceScatter.main fuel sub o p = Ok EXIT_FAILURE) /\
  (IreduceScatter.allocate_recvcounts p || IreduceScatter.allocate_sendbuf p
   || IreduceScatter.allocate_recvbuf p = true ->
   IreduceScatter.main fuel sub o p = Ok EXIT_FAILURE) /\
  (IreduceScatter.well_formed o (IreduceScatter.numprocs p) ->
   IreduceScatter.counts_fit o sub (IreduceScatter.numprocs p) B ->
   IreduceScatter.allocate_recvcounts p = false ->
   IreduceScatter.allocate_sendbuf p = false ->
   IreduceScatter.allocate_recvbuf p = false ->
   exists w,
     IreduceScatter.size_loop sub (IreduceScatter.numprocs p) fuel
       (IreduceScatter.initial_world o (IreduceScatter.numprocs p)) = Ok w /\
     (validate o = true ->
      (exists rec, rec ∈ IreduceScatter.history w /\
                   IreduceScatter.errors_at_exit rec <> 0) ->
      IreduceScatter.rank p = 0 ->
      IreduceScatter.main fuel sub o p = Ok EXIT_FAILURE) /\
     (accel o = NONE \/ IreduceScatter.cleanup_accel p = false ->
      IreduceScatter.rank p <> 0 ->
      IreduceScatter.main fuel sub o p = Ok EXIT_SUCCESS) /\
     (accel o = NONE \/ IreduceScatter.cleanup_accel p = false ->
      ~ (validate o = true /\
         exists rec, rec ∈ IreduceScatter.history w /\
                     IreduceScatter.errors_at_exit rec <> 0) ->
      IreduceScatter.main fuel sub o p = Ok EXIT_SUCCESS)) /\
  (LatencyDt.numprocs lp <> 2 ->
   Dt.exit_status (LatencyDt.main fuel lsub lo lp) = Ok EXIT_FAILURE) /\
  (LatencyDt.allocate_memory_pt2pt lp = true ->
   Dt.exit_status (LatencyDt.main fuel lsub lo lp) = Ok EXIT_FAILURE) /\
  (LatencyDt.numprocs lp = 2 ->
   LatencyDt.allocate_memory_pt2pt lp = false ->
   accel lo = NONE \/ LatencyDt.cleanup_accel lp = false ->
   1 <= dt_block_size lo <= CInt.INT_MAX ->
   0 <= min_message_size lo <= CInt.INT_MAX ->
   max_message_size lo <= 1073741823 ->
   Dt.exit_status (LatencyDt.main fuel lsub lo lp) = Ok EXIT_SUCCESS).
Proof.
  intros Hfuel Hpo Hinit Hlpo Hls Hlinit.
  split; [reflexivity|]. split; [done|].
  split; [by apply reduce_scatter_too_few_ranks|].
  split; [by apply reduce_scatter_allocation_fails|].
  split.
  { intros Hwf Hfit Ha1 Ha2 Ha3.
    apply (reduce_scatter_exit sub o p Hpo Hinit B); [lia|done..]. }
  split.
  { intros Hn. rewrite latency_main_okay by done. cbv zeta.
    destruct (Z.eqb_spec (LatencyDt.numprocs lp) 2); [done|reflexivity]. }
  split.
  { intros Ha. rewrite latency_main_okay by done. cbv zeta. rewrite Ha.
    by destruct (negb (LatencyDt.numprocs lp =? 2)). }
  intros. by apply latency_main_success.
Qed.

(** Validation is on and the size of 4 elements fails, yet rank 1 exits
    with 0. *)
Lemma exit_codes_counterexample :
  ~ (validate Example.example_options = true ->
     (exists w rec,
        IreduceScatter.size_loop (H := Example.example_macros)
          Example.reduce_scatter_substrate 2 33
          (IreduceScatter.initial_world (H := Example.example_macros)
             Example.example_options 2) = Ok w /\
        rec ∈ IreduceScatter.history w /\
        IreduceScatter.errors_at_exit rec <> 0) ->
     exists status,
       IreduceScatter.main (H := Example.example_macros) 33
         Example.reduce_scatter_substrate Example.example_options
         (Example.reduce_scatter_process 1) = Ok status /\
       status <> 0).
Proof.
  intros Hclaim. destruct Hclaim as (status & Hmain & Hne).
  - reflexivity.
  - eexists. eexists. split; [vm_compute; reflexivity|]. split.
    + apply list_elem_of_further, list_elem_of_further, list_elem_of_here.
    + simpl. lia.
  - vm_compute in Hmain. injection Hmain as <-. done.
Qed.

Lemma exit_codes_witness :
  IreduceScatter.main (H := Example.example_macros) 33
    Example.reduce_scatter_substrate Example.example_options
    (Example.reduce_scatter_process 0) = Ok EXIT_FAILURE /\
  IreduceScatter.main (H := Example.example_macros) 33
    Example.reduce_scatter_substrate Example.example_options
    (Example.reduce_scatter_process 1) = Ok EXIT_SUCCESS /\
  Dt.exit_status
    (LatencyDt.main (H := Example.example_macros) 33
       Example.latency_substrate Example.example_options
       (Example.latency_process PO_OKAY 2 0)) = Ok EXIT_SUCCESS.
Proof.
  destruct (exit_codes (M := Example.example_macros) 33
              Example.reduce_scatter_substrate Example.example_options
              (Example.reduce_scatter_process 1) 1
              Example.latency_substrate Example.example_options
              (Example.latency_process PO_OKAY 2 0))
    as (_ & _ & _ & _ & Hrs & _ & _ & Hlat).
  - lia.
  - reflexivity.
  - by left.
  - reflexivity.
  - reflexivity.
  - by left.
  - split; [vm_compute; reflexivity|]. split.
    + destruct Hrs as (w & _ & _ & Hother & _).
      * unfold IreduceScatter.well_formed. repeat split; by vm_compute.
      * unfold IreduceScatter.counts_fit. split; [|split; by vm_compute].
        intros rank size overlap i. simpl. case_match; lia.
      * reflexivity.
      * reflexivity.
      * reflexivity.
      * apply Hother; [by left|]. simpl. lia.
    + clear Hrs.
      apply Hlat; try reflexivity; try (by left);
        simpl; unfold CInt.INT_MAX; lia.
Defined.

(** ** Validation of the layout parameters *)

(** C6.  Both latency benchmarks validate the layout parameters exactly
    once, at start-up, before any round: the log of every process starts
    with the check and holds nothing but rounds after it.  The check
    fails if and only if the block length exceeds the stride, or the
    block length exceeds [MAX_DT_BLOCK_SIZE], or the stride exceeds
    [MAX_DT_STRIDE_SIZE]; when it fails the run fails (bad usage, exit
    status [EXIT_FAILURE]) without running a round, whatever else holds.
    In a run in which everything else is in order (options accepted by
    [process_options], device set up and cleaned up, buffers allocated,
    a block length of at least 1, sizes within [int], two ranks for
    osu_latency_dt, an even number of ranks, at least two, for
    osu_multi_lat_dt) the exit status is different from zero if and only
    if one of those three conditions holds. *)
Theorem layout_validation `{M : macros} (fuel : nat)
    (lsub : LatencyDt.substrate) (msub : MultiLatDt.substrate)
    (o : options_t) (lp : LatencyDt.process) (mp : MultiLatDt.process) :
  let invalid :=
    dt_block_size o > dt_stride_size o \/
    dt_block_size o > MAX_DT_BLOCK_SIZE \/
    dt_stride_size o > MAX_DT_STRIDE_SIZE in
  (exists rounds,
     Dt.steps (LatencyDt.main fuel lsub o lp)
     = Dt.Sanity_check (Dt.sanity_check o) :: rounds /\
     Forall Dt.is_round rounds) /\
  (exists rounds,
     Dt.steps (MultiLatDt.main fuel msub o mp)
     = Dt.Sanity_check (Dt.sanity_check o) :: rounds /\
     Forall Dt.is_round rounds) /\
  (Dt.sanity_check o = true <-> invalid) /\
  EXIT_FAILURE <> 0 /\
  (invalid ->
   Dt.exit_status (LatencyDt.main fuel lsub o lp) = Ok EXIT_FAILURE /\
   Dt.steps (LatencyDt.main fuel lsub o lp) = [Dt.Sanity_check true] /\
   Dt.exit_status (MultiLatDt.main fuel msub o mp) = Ok EXIT_FAILURE /\
   Dt.steps (MultiLatDt.main fuel msub o mp) = [Dt.Sanity_check true]) /\
  ((33 <= fuel)%nat ->
   1 <= dt_block_size o <= CInt.INT_MAX ->
   0 <= min_message_size o <= CInt.INT_MAX ->
   max_message_size o <= 1073741823 ->
   (LatencyDt.po_ret lp = PO_OKAY ->
    accel o = NONE \/ LatencyDt.init_accel lp = false ->
    LatencyDt.numprocs lp = 2 ->
    LatencyDt.allocate_memory_pt2pt lp = false ->
    accel o = NONE \/ LatencyDt.cleanup_accel lp = false ->
    ((exists status,
        Dt.exit_status (LatencyDt.main fuel lsub o lp) = Ok status /\
        status <> 0) <-> invalid) /\
    (~ invalid ->
     Dt.exit_status (LatencyDt.main fuel lsub o lp) = Ok 0)) /\
   (MultiLatDt.po_ret mp = PO_OKAY ->
    accel o = NONE \/ MultiLatDt.init_accel mp = false ->
    MultiLatDt.allocate_memory_pt2pt_mul mp = false ->
    2 <= MultiLatDt.nprocs mp <= CInt.INT_MAX ->
    Z.even (MultiLatDt.nprocs mp) = true ->
    ((exists status,
        Dt.exit_status (MultiLatDt.main fuel msub o mp) = Ok status /\
        status <> 0) <-> invalid) /\
    (~ invalid ->
     Dt.exit_status (MultiLatDt.main fuel msub o mp) = Ok 0))).
Proof.
  intros invalid.
  pose proof (sanity_check_spec o) as Hspec. fold invalid in Hspec.
  split; [apply latency_main_steps|].
  split; [apply multi_main_steps|].
  split; [exact Hspec|].
  split; [done|].
  split.
  - intros Hbad%Hspec.
    destruct (latency_main_bad_layout fuel lsub o lp Hbad) as (H1 & H2).
    destruct (multi_main_bad_layout fuel msub o mp Hbad) as (H3 & H4).
    done.
  - intros Hfuel Hb Hmin Hmax. split.
    + intros Hpo Hinit Hn Halloc Hclean.
      destruct (Dt.sanity_check o) eqn:Hs.
      * destruct (latency_main_bad_layout fuel lsub o lp Hs) as (Hexit & _).
        split; [|intros Hvalid; destruct Hvalid; by apply Hspec].
        split; [intros _; by apply Hspec|].
        intros _. exists EXIT_FAILURE. by split.
      * pose proof (latency_main_success fuel lsub o lp Hfuel Hs Hpo Hinit Hn
                      Halloc Hclean Hb Hmin Hmax) as Hexit.
        split; [|by intros _].
        split.
        -- intros (status & Hstatus & Hnz). rewrite Hexit in Hstatus.
           injection Hstatus as <-. done.
        -- intros Hbad%Hspec. done.
    + intros Hpo Hinit Halloc Hn Heven.
      destruct (Dt.sanity_check o) eqn:Hs.
      * destruct (multi_main_bad_layout fuel msub o mp Hs) as (Hexit & _).
        split; [|intros Hvalid; destruct Hvalid; by apply Hspec].
        split; [intros _; by apply Hspec|].
        intros _. exists EXIT_FAILURE. by split.
      * pose proof (multi_main_success fuel msub o mp Hfuel Hs Hpo Hinit
                      Halloc Hb Hmin Hmax) as Hexit.
        split; [|by intros _].
        split.
        -- intros (status & Hstatus & Hnz). rewrite Hexit in Hstatus.
           injection Hstatus as <-. done.
        -- intros Hbad%Hspec. done.
Qed.

Lemma layout_validation_witness :
  Dt.exit_status
    (LatencyDt.main (H := Example.example_macros) 33
       Example.latency_substrate Example.example_options
       (Example.latency_process PO_OKAY 2 0)) = Ok 0 /\
  Dt.exit_status
    (MultiLatDt.main (H := Example.example_macros) 33
       Example.multi_latency_substrate Example.example_options
       (Example.multi_latency_process PO_OKAY 4 0)) = Ok 0 /\
  Dt.exit_status
    (LatencyDt.main (H := Example.example_macros) 33
       Example.latency_substrate (Example.options_with_block 5)
       (Example.latency_process PO_OKAY 2 0)) = Ok EXIT_FAILURE.
Proof.
  destruct (layout_validation (M := Example.example_macros) 33
              Example.latency_substrate Example.multi_latency_substrate
              Example.example_options
              (Example.latency_process PO_OKAY 2 0)
              (Example.multi_latency_process PO_OKAY 4 0))
    as (_ & _ & _ & _ & _ & Hok).
  destruct (layout_validation (M := Example.example_macros) 33
              Example.latency_substrate Example.multi_latency_substrate
              (Example.options_with_block 5)
              (Example.latency_process PO_OKAY 2 0)
              (Example.multi_latency_process PO_OKAY 4 0))
    as (_ & _ & _ & _ & Hbad & _).
  destruct Hok as (Hl & Hm).
  - lia.
  - simpl. unfold CInt.INT_MAX. lia.
  - simpl. unfold CInt.INT_MAX. lia.
  - simpl. lia.
  - destruct Hl as (_ & Hl0); try reflexivity; try (by left).
    destruct Hm as (_ & Hm0); try reflexivity; try (by left).
    { simpl. unfold CInt.INT_MAX. lia. }
    destruct Hbad as (Hfail & _).
    { left. simpl. lia. }
    split; [|split; [|exact Hfail]].
    + apply Hl0. simpl. lia.
    + apply Hm0. simpl. lia.
Defined.

(** * Further properties of the three programs *)

(** ** One request at a time *)

Section Requests.

Lemma request_after_app (pending : bool) (cs1 cs2 : list call) :
  request_after pending (cs1 ++ cs2)
  = request_after pending cs1 ≫= fun pending' => request_after pending' cs2.
Proof.
  revert pending. induction cs1 as [|c cs1 IH]; intros pending; [done|].
  destruct c, pending; simpl; auto.
Qed.

Lemma request_after_idle_app (cs1 cs2 : list call) :
  request_after false cs1 = Some false ->
  request_after false cs2 = Some false ->
  request_after false (cs1 ++ cs2) = Some false.
Proof. intros H1 H2. by rewrite request_after_app, H1. Qed.

Lemma request_after_concat (blocks : list (list call)) :
  Forall (fun b => request_after false b = Some false) blocks ->
  request_after false (concat blocks) = Some false.
Proof. induction 1; simpl; [done|]. by apply request_after_idle_app. Qed.

Lemma request_after_iterations {A} (f : A -> list call) (js : list A) :
  (forall j, request_after false (f j) = Some false) ->
  request_after false (concat (map f js)) = Some false.
Proof.
  intros Hf. apply request_after_concat, Forall_forall.
  intros b (j & -> & _)%list_elem_of_fmap. apply Hf.
Qed.

End Requests.

Section ReduceScatterRequests.

Import IreduceScatter.

Variables (o : options_t) (rank size : Z).

Lemma validation_warmup_idle (i : nat) (rc : list Z) :
  request_after false (validation_warmup o size i rc) = Some false.
Proof.
  unfold validation_warmup. destruct (validate o); [|done].
  cbn [request_after starts_request].
  apply request_after_idle_app; [|done].
  apply request_after_concat, Forall_replicate. reflexivity.
Qed.

Lemma validation_check_idle (i : nat) (rc : list Z) :
  request_after false (validation_check_calls o rc rank size i) = Some false.
Proof. unfold validation_check_calls. by case_match. Qed.

Lemma latency_iteration_idle (rc : list Z) (i : nat) :
  request_after false (latency_iteration_calls o rc rank size i) = Some false.
Proof.
  unfold latency_iteration_calls.
  apply request_after_idle_app; [apply validation_warmup_idle|].
  apply request_after_idle_app; [done|apply validation_check_idle].
Qed.

Lemma overlap_iteration_idle (rc : list Z) (secs : float) (i : nat) :
  request_after false (overlap_iteration_calls o rc rank size secs i)
  = Some false.
Proof.
  unfold overlap_iteration_calls.
  apply request_after_idle_app; [apply validation_warmup_idle|].
  apply request_after_idle_app; [done|apply validation_check_idle].
Qed.

Lemma round_of_rank_idle (sub : substrate) (numprocs : Z) (l : locals) :
  0 <= skip o -> 0 <= iterations o ->
  exists cs,
    calls (round_of_rank o sub numprocs size rank l) = calls l ++ cs /\
    request_after false cs = Some false.
Proof.
  intros Hs Hi. rewrite round_of_rank_calls by done. cbv zeta.
  eexists. split; [reflexivity|].
  apply request_after_idle_app; [done|].
  apply request_after_idle_app.
  { apply request_after_iterations, latency_iteration_idle. }
  apply request_after_idle_app; [done|].
  apply request_after_idle_app; [|done].
  apply request_after_iterations, overlap_iteration_idle.
Qed.

End ReduceScatterRequests.

Section LatencyRequests.

Import Dt LatencyDt.

Context `{M : macros}.

Lemma receiver_run_clock (st : state) (js : list nat) :
  t_start (foldl receiver_iteration st js) = t_start st /\
  t_end (foldl receiver_iteration st js) = t_end st.
Proof.
  revert st. induction js as [|j js IH]; intros st; [done|]. simpl.
  destruct (IH (receiver_iteration st j)) as (-> & ->). done.
Qed.

(** A round of osu_latency_dt on any rank: rank 0 sends first, rank 1
    receives first, and only rank 0 reads the clock and prints. *)
Lemma latency_round_calls (sub : substrate) (myid : Z) (st : state) :
  let size := msg_size st in
  let o := large_message_profile size (options st) in
  dt_block_size o <> 0 ->
  exists st',
    round sub myid st = Ok st' /\
    calls st'
    = calls st
      ++ [set_buffer_pt2pt s_buf "a" size; set_buffer_pt2pt r_buf "b" size;
          MPI_Type_vector (rep_count size o) (dt_block_size o) (dt_stride_size o);
          MPI_Type_commit; MPI_Barrier]
      ++ (if myid =? 0 then concat (map (fun _ => ping 1) (iteration_indices o))
          else if myid =? 1
          then concat (map (fun _ => pong 0) (iteration_indices o))
          else [])
      ++ (if myid =? 0
          then [print_latency size (one_way_latency (t_start st') (t_end st') o)]
          else [])
      ++ [MPI_Type_free] /\
    (myid <> 0 -> t_start st' = t_start st /\ t_end st' = t_end st).
Proof.
  intros size o Hb. unfold round. cbv zeta.
  cbn [msg_size options set_options set_buffers emit]. fold size o.
  destruct (Z.eqb_spec (dt_block_size o) 0) as [|_]; [done|].
  eexists. split; [reflexivity|].
  destruct (Z.eqb_spec myid 0) as [->|H0]; [|destruct (myid =? 1)];
    cbn [msg_size options t_start t_end calls log emit set_t_start set_t_end
         set_options set_msg_size record_step set_buffers].
  - rewrite sender_run_calls.
    cbn [msg_size options t_start t_end calls log emit set_t_start set_t_end
         set_options set_msg_size record_step set_buffers].
    split; [by rewrite <- !app_assoc|done].
  - rewrite receiver_run_calls.
    cbn [msg_size options t_start t_end calls log emit set_t_start set_t_end
         set_options set_msg_size record_step set_buffers].
    split; [by rewrite <- !app_assoc|].
    intros _.
    match goal with
    | |- context [foldl receiver_iteration ?x ?js] =>
        destruct (receiver_run_clock x js) as (-> & ->)
    end.
    done.
  - split; [by rewrite <- !app_assoc|done].
Qed.

Lemma ping_idle (peer : Z) : request_after false (ping peer) = Some false.
Proof. reflexivity. Qed.

Lemma pong_idle (peer : Z) : request_after false (pong peer) = Some false.
Proof. reflexivity. Qed.

Lemma latency_round_idle (sub : substrate) (myid : Z) (st : state) :
  dt_block_size (large_message_profile (msg_size st) (options st)) <> 0 ->
  exists st' cs,
    round sub myid st = Ok st' /\
    calls st' = calls st ++ cs /\
    request_after false cs = Some false.
Proof.
  intros Hb.
  destruct (latency_round_calls sub myid st Hb) as (st' & Hr & Hc & _).
  exists st'. eexists. split; [exact Hr|]. split; [exact Hc|].
  apply request_after_idle_app; [done|].
  apply request_after_idle_app.
  { destruct (myid =? 0); [|destruct (myid =? 1)]; [| |done];
      apply request_after_iterations; intros _; reflexivity. }
  apply request_after_idle_app; [|done].
  by destruct (myid =? 0).
Qed.

End LatencyRequests.

Section MultiLatencyRequests.

Import Dt MultiLatDt.

Lemma round_of_rank_partner (sub : substrate) (o : options_t)
    (pairs size rank : Z) (l : locals) :
  calls (round_of_rank sub o pairs size rank l)
  = calls l
    ++ [MPI_Type_vector (rep_count size o) (dt_block_size o) (dt_stride_size o);
        MPI_Type_commit; MPI_Barrier]
    ++ concat (map (iteration_calls o pairs rank) (iteration_indices o))
    ++ [MPI_Type_free].
Proof.
  rewrite round_of_rank_exchange. do 2 f_equal. f_equal. f_equal.
  apply map_ext. intros i. unfold iteration_calls, partner, sends_first.
  by destruct (rank <? pairs).
Qed.

Lemma iteration_calls_idle (o : options_t) (pairs rank : Z) (i : nat) :
  request_after false (iteration_calls o pairs rank i) = Some false.
Proof.
  unfold iteration_calls.
  apply request_after_idle_app; [by case_match|].
  destruct (sends_first pairs rank); reflexivity.
Qed.

Lemma multi_round_of_rank_idle (sub : substrate) (o : options_t)
    (pairs size rank : Z) (l : locals) :
  exists cs,
    calls (round_of_rank sub o pairs size rank l) = calls l ++ cs /\
    request_after false cs = Some false.
Proof.
  rewrite round_of_rank_partner. eexists. split; [reflexivity|].
  apply request_after_idle_app; [done|].
  apply request_after_idle_app; [|done].
  apply request_after_iterations, iteration_calls_idle.
Qed.

End MultiLatencyRequests.

(** X1.  Every program keeps one request in flight at most.  Among the
    calls of a round that are recorded (those to the messaging substrate
    and to the helpers of the benchmark library; the readings of the
    clock are not), in a round of the reduce-scatter benchmark on any
    rank, in a round of osu_latency_dt on any rank and in a round of
    [multi_latency] on any of the [2 * pairs] ranks that have a partner:
    each non-blocking operation is started with no other one in flight,
    each [MPI_Wait] finds the operation started last in flight,
    [dummy_compute] is called only with an operation in flight, which it
    is handed, no other recorded call is made between the start of an
    operation and its wait, and no operation is left in flight when the
    round ends.  The iteration counts of each round are within [int]. *)
Theorem one_request_in_flight `{M : macros}
    (o : options_t) (sub : IreduceScatter.substrate) (numprocs size rank : Z)
    (l : IreduceScatter.locals)
    (lsub : LatencyDt.substrate) (myid : Z) (st : LatencyDt.state)
    (msub : MultiLatDt.substrate) (mo : options_t) (pairs msize mrank : Z)
    (ml : MultiLatDt.locals) :
  0 <= skip o -> 0 <= iterations o ->
  iterations o + skip o <= CInt.INT_MAX ->
  let lo := large_message_profile (LatencyDt.msg_size st) (LatencyDt.options st) in
  dt_block_size lo <> 0 ->
  iterations lo + skip lo <= CInt.INT_MAX ->
  0 <= mrank < 2 * pairs ->
  iterations mo + skip mo <= CInt.INT_MAX ->
  (exists cs,
     IreduceScatter.calls (IreduceScatter.round_of_rank o sub numprocs size rank l)
     = IreduceScatter.calls l ++ cs /\
     request_after false cs = Some false) /\
  (exists st' cs,
     LatencyDt.round lsub myid st = Ok st' /\
     LatencyDt.calls st' = LatencyDt.calls st ++ cs /\
     request_after false cs = Some false) /\
  (exists cs,
     MultiLatDt.calls (MultiLatDt.round_of_rank msub mo pairs msize mrank ml)
     = MultiLatDt.calls ml ++ cs /\
     request_after false cs = Some false).
Proof.
  intros Hs Hi _ lo Hb _ _ _. split; [|split].
  - by apply round_of_rank_idle.
  - by apply latency_round_idle.
  - apply multi_round_of_rank_idle.
Qed.

Lemma one_request_in_flight_witness :
  request_after false
    (IreduceScatter.calls
       (IreduceScatter.round_of_rank Example.example_options
          Example.reduce_scatter_substrate 2 4 0
          (IreduceScatter.initial_locals 2))) = Some false /\
  (exists st',
     LatencyDt.round (H := Example.example_macros) Example.latency_substrate 1
       (Example.latency_state_at 16) = Ok st' /\
     request_after false (LatencyDt.calls st') = Some false).
Proof.
  destruct (one_request_in_flight (M := Example.example_macros)
              Example.example_options Example.reduce_scatter_substrate 2 4 0
              (IreduceScatter.initial_locals 2)
              Example.latency_substrate 1 (Example.latency_state_at 16)
              Example.multi_latency_substrate Example.example_options 2 16 0
              MultiLatDt.initial_locals)
    as ((cs & Hcs & Hidle) & (st' & cs' & Hr & Hcs' & Hidle') & _).
  - simpl. lia.
  - simpl. lia.
  - simpl. unfold CInt.INT_MAX. lia.
  - by vm_compute.
  - by vm_compute.
  - lia.
  - simpl. unfold CInt.INT_MAX. lia.
  - split.
    + rewrite Hcs. exact Hidle.
    + exists st'. split; [exact Hr|]. rewrite Hcs'. exact Hidle'.
Defined.

(** ** How many calls a round of the reduce-scatter benchmark makes *)

Section Counting.

Lemma count_calls_app (f : call -> bool) (cs1 cs2 : list call) :
  count_calls f (cs1 ++ cs2) = (count_calls f cs1 + count_calls f cs2)%nat.
Proof. unfold count_calls. by rewrite List.filter_app, length_app. Qed.

Lemma count_calls_cons (f : call -> bool) (c : call) (cs : list call) :
  count_calls f (c :: cs) = (count_calls f [c] + count_calls f cs)%nat.
Proof. apply (count_calls_app f [c] cs). Qed.

Lemma count_calls_replicate (f : call -> bool) (n : nat) (block : list call) :
  count_calls f (concat (replicate n block)) = (n * count_calls f block)%nat.
Proof.
  induction n as [|n IH]; [done|]. simpl. rewrite count_calls_app, IH. lia.
Qed.

Lemma count_calls_iterations {A} (f : call -> bool) (g : A -> list call)
    (k : nat) (js : list A) :
  (forall j, count_calls f (g j) = k) ->
  count_calls f (concat (map g js)) = (length js * k)%nat.
Proof.
  intros Hg. induction js as [|j js IH]; [done|]. simpl.
  rewrite count_calls_app, IH, Hg. lia.
Qed.

End Counting.

Section ReduceScatterCounting.

Import IreduceScatter.

Variables (o : options_t) (sub : substrate) (numprocs size rank : Z).

Lemma count_validation_warmup (f : call -> bool) (i : nat) (rc : list Z) :
  count_calls f (validation_warmup o size i rc)
  = if validate o
    then (count_calls f [set_buffer_validation size i]
          + Z.to_nat (warmup_validation o)
            * count_calls f [MPI_Barrier; MPI_Ireduce_scatter rc; MPI_Wait]
          + count_calls f [MPI_Barrier])%nat
    else O.
Proof.
  unfold validation_warmup. destruct (validate o); [|done].
  rewrite count_calls_cons, count_calls_app, count_calls_replicate. lia.
Qed.

Lemma count_latency_iteration (f : call -> bool) (rc : list Z) (i : nat) :
  count_calls f (latency_iteration_calls o rc rank size i)
  = (count_calls f (validation_warmup o size i rc)
     + count_calls f [MPI_Ireduce_scatter rc; MPI_Wait; MPI_Barrier]
     + count_calls f (validation_check_calls o rc rank size i))%nat.
Proof. unfold latency_iteration_calls. rewrite !count_calls_app. lia. Qed.

Lemma count_overlap_iteration (f : call -> bool) (rc : list Z) (secs : float)
    (i : nat) :
  count_calls f (overlap_iteration_calls o rc rank size secs i)
  = (count_calls f (validation_warmup o size i rc)
     + count_calls f [MPI_Ireduce_scatter rc; dummy_compute secs; MPI_Wait;
                      MPI_Barrier]
     + count_calls f (validation_check_calls o rc rank size i))%nat.
Proof. unfold overlap_iteration_calls. rewrite !count_calls_app. lia. Qed.

(** The calls of a round that [f] selects, when each iteration of the
    first loop makes [a] of them, each iteration of the second loop [b],
    and [f] selects neither a barrier nor [init_arrays]. *)
Lemma count_round_of_rank (f : call -> bool) (a b : nat) (l : locals)
    (cs : list call) :
  0 <= skip o -> 0 <= iterations o ->
  f MPI_Barrier = false ->
  (forall secs, f (init_arrays secs) = false) ->
  let rc := set_recvcounts size numprocs (recvcounts l) in
  (forall i, count_calls f (latency_iteration_calls o rc rank size i) = a) ->
  (forall secs i,
     count_calls f (overlap_iteration_calls o rc rank size secs i) = b) ->
  calls (round_of_rank o sub numprocs size rank l) = calls l ++ cs ->
  count_calls f cs = (Z.to_nat (iterations o + skip o) * (a + b))%nat.
Proof.
  intros Hs Hi Hbar Hinit rc Ha Hb. rewrite round_of_rank_calls by done.
  cbv zeta. intros <-%app_inv_head.
  rewrite !count_calls_app.
  rewrite (count_calls_iterations f _ a) by apply Ha.
  rewrite (count_calls_iterations f _ b) by apply Hb.
  unfold count_calls at 1 2 3. simpl. rewrite Hbar, Hinit. simpl.
  unfold iteration_indices. rewrite length_seq. lia.
Qed.

Lemma round_of_rank_emits (l : locals) :
  0 <= skip o -> 0 <= iterations o ->
  exists cs, calls (round_of_rank o sub numprocs size rank l) = calls l ++ cs.
Proof. intros Hs Hi. rewrite round_of_rank_calls by done. eauto. Qed.

(** X2.  A round of the reduce-scatter benchmark of [n = iterations +
    skip] iterations per loop, [n] within [int], starts [2 * n * (1 +
    w)] reduce-scatter
    operations on every rank and waits for as many, where [w] is
    [warmup_validation] when validation is on and 0 when it is off; it
    calls [dummy_compute] [n] times, once per iteration of the second
    loop, and [set_buffer_validation] [2 * n] times when validation is on
    and never when it is off. *)
Theorem collectives_per_round (l : locals) :
  0 <= skip o -> 0 <= iterations o ->
  iterations o + skip o <= CInt.INT_MAX ->
  let n := Z.to_nat (iterations o + skip o) in
  let w := if validate o then Z.to_nat (warmup_validation o) else O in
  exists cs,
    calls (round_of_rank o sub numprocs size rank l) = calls l ++ cs /\
    count_calls is_reduce_scatter cs = (2 * n * (1 + w))%nat /\
    count_calls is_wait cs = (2 * n * (1 + w))%nat /\
    count_calls is_dummy_compute cs = n /\
    count_calls is_set_buffer_validation cs
    = (if validate o then 2 * n else 0)%nat.
Proof.
  intros Hs Hi _ n w.
  destruct (round_of_rank_emits l Hs Hi) as (cs & Hcs).
  exists cs. split; [exact Hcs|].
  assert (Hcheck : forall f rc i,
            f (validate_reduce_scatter size i) = false ->
            count_calls f (validation_check_calls o rc rank size i) = O).
  { intros f rc i Hf. unfold validation_check_calls.
    case_match; [|done]. unfold count_calls. simpl. by rewrite Hf. }
  repeat split.
  - rewrite (count_round_of_rank is_reduce_scatter (w + 1) (w + 1) l cs);
      try done; [fold n; lia| |].
    + intros i. rewrite count_latency_iteration, count_validation_warmup,
        Hcheck by done.
      subst w. destruct (validate o); unfold count_calls; simpl; lia.
    + intros secs i. rewrite count_overlap_iteration, count_validation_warmup,
        Hcheck by done.
      subst w. destruct (validate o); unfold count_calls; simpl; lia.
  - rewrite (count_round_of_rank is_wait (w + 1) (w + 1) l cs);
      try done; [fold n; lia| |].
    + intros i. rewrite count_latency_iteration, count_validation_warmup,
        Hcheck by done.
      subst w. destruct (validate o); unfold count_calls; simpl; lia.
    + intros secs i. rewrite count_overlap_iteration, count_validation_warmup,
        Hcheck by done.
      subst w. destruct (validate o); unfold count_calls; simpl; lia.
  - rewrite (count_round_of_rank is_dummy_compute 0 1 l cs);
      try done; [fold n; lia| |].
    + intros i. rewrite count_latency_iteration, count_validation_warmup,
        Hcheck by done.
      destruct (validate o); unfold count_calls; simpl; lia.
    + intros secs i. rewrite count_overlap_iteration, count_validation_warmup,
        Hcheck by done.
      destruct (validate o); unfold count_calls; simpl; lia.
  - set (v := if validate o then 1%nat else O).
    rewrite (count_round_of_rank is_set_buffer_validation v v l cs);
      try done.
    + fold n. subst v. destruct (validate o); lia.
    + intros i. rewrite count_latency_iteration, count_validation_warmup,
        Hcheck by done.
      subst v. destruct (validate o); unfold count_calls; simpl; lia.
    + intros secs i. rewrite count_overlap_iteration, count_validation_warmup,
        Hcheck by done.
      subst v. destruct (validate o); unfold count_calls; simpl; lia.
Qed.

End ReduceScatterCounting.

Lemma collectives_per_round_witness :
  let cs :=
    IreduceScatter.calls
      (IreduceScatter.round_of_rank Example.example_options
         Example.reduce_scatter_substrate 2 4 0
         (IreduceScatter.initial_locals 2)) in
  count_calls is_reduce_scatter cs = 20%nat /\
  count_calls is_wait cs = 20%nat /\
  count_calls is_dummy_compute cs = 5%nat /\
  count_calls is_set_buffer_validation cs = 10%nat.
Proof.
  destruct (collectives_per_round Example.example_options
              Example.reduce_scatter_substrate 2 4 0
              (IreduceScatter.initial_locals 2))
    as (cs & Hcs & Hr & Hw & Hd & Hb).
  - simpl. lia.
  - simpl. lia.
  - simpl. unfold CInt.INT_MAX. lia.
  - cbv zeta. rewrite Hcs. exact (conj Hr (conj Hw (conj Hd Hb))).
Defined.

(** ** Which ranks validate *)

Section ValidationByRank.

Import IreduceScatter.

Lemma partition_entry_zero (S R r : Z) :
  1 <= S -> 2 <= R -> 0 <= r < R ->
  partition_entry S R r = 0 <-> S <= r.
Proof.
  intros HS HR Hr. unfold partition_entry.
  destruct (Z.leb_spec R S) as [Hle|Hlt].
  - assert (0 < S / R) by (apply Z.div_str_pos; lia).
    destruct (S mod R >? r) eqn:E; case_match; lia.
  - destruct (Z.ltb_spec r S); lia.
Qed.

(** X3.  Only a rank that receives elements validates.  In the round of
    [S] elements over [R] ranks, rank [r] is left with a count of zero
    exactly when [S <= r].  With validation on and [r < S] it calls
    [validate_reduce_scatter] once per iteration of either loop, warm-up
    iterations included, their number being within [int]; with
    validation off, or [S <= r], it never calls
    it and its [local_errors] is what it was when the round began. *)
Theorem validation_needs_elements (o : options_t) (sub : substrate)
    (R S r : Z) (l : locals) :
  0 <= skip o -> 0 <= iterations o ->
  iterations o + skip o <= CInt.INT_MAX ->
  1 <= S <= CInt.INT_MAX -> 2 <= R <= CInt.INT_MAX -> 0 <= r < R ->
  length (recvcounts l) = Z.to_nat R ->
  let n := Z.to_nat (iterations o + skip o) in
  let l' := round_of_rank o sub R S r l in
  (recvcounts l' !! Z.to_nat r = Some 0 <-> S <= r) /\
  exists cs,
    calls l' = calls l ++ cs /\
    count_calls is_validate_reduce_scatter cs
    = (if validate o && (r <? S) then (2 * n)%nat else O) /\
    (validate o = false \/ S <= r -> local_errors l' = local_errors l).
Proof.
  intros Hs Hi _ HS HR Hr Hlen n l'.
  pose proof (set_recvcounts_lookup S R r (recvcounts l) HS HR Hlen Hr) as Hlook.
  pose proof (partition_entry_zero S R r) as Hzero.
  assert (Hnz : negb (default 0 (set_recvcounts S R (recvcounts l) !! Z.to_nat r)
                      =? 0) = (r <? S)).
  { rewrite Hlook. simpl.
    destruct (Z.eqb_spec (partition_entry S R r) 0) as [E|E];
      destruct (Z.ltb_spec r S); simpl; try done; lia. }
  split.
  - subst l'. destruct (round_of_rank_latency o sub r S R l Hs Hi) as (_ & _ & ->).
    rewrite Hlook. split; [intros [= E]|intros E; f_equal]; lia.
  - destruct (round_of_rank_emits o sub R S r l Hs Hi) as (cs & Hcs).
    exists cs. split; [exact Hcs|]. split.
    + set (v := if validate o && (r <? S) then 1%nat else O).
      rewrite (count_round_of_rank o sub R S r is_validate_reduce_scatter
                 v v l cs); try done.
      * fold n. subst v. destruct (validate o && (r <? S)); lia.
      * intros i. rewrite count_latency_iteration, count_validation_warmup.
        unfold validation_check_calls. rewrite Hnz. subst v.
        destruct (validate o), (r <? S); unfold count_calls; simpl; lia.
      * intros secs i. rewrite count_overlap_iteration, count_validation_warmup.
        unfold validation_check_calls. rewrite Hnz. subst v.
        destruct (validate o), (r <? S); unfold count_calls; simpl; lia.
    + intros Hoff. subst l'. rewrite round_of_rank_local_errors. cbv zeta.
      rewrite Hnz.
      destruct Hoff as [-> | Hge]; [done|].
      destruct (Z.ltb_spec r S); [lia|]. by rewrite andb_false_r.
Qed.

End ValidationByRank.

Lemma validation_needs_elements_witness :
  let l' :=
    IreduceScatter.round_of_rank Example.example_options
      Example.reduce_scatter_substrate 4 2 3
      (IreduceScatter.initial_locals 4) in
  IreduceScatter.recvcounts l' !! 3%nat = Some 0 /\
  count_calls is_validate_reduce_scatter (IreduceScatter.calls l') = 0%nat /\
  IreduceScatter.local_errors l' = 0.
Proof.
  destruct (validation_needs_elements Example.example_options
              Example.reduce_scatter_substrate 4 2 3
              (IreduceScatter.initial_locals 4))
    as (Hzero & cs & Hcs & Hcount & Herr).
  - simpl. lia.
  - simpl. lia.
  - simpl. unfold CInt.INT_MAX. lia.
  - unfold CInt.INT_MAX. lia.
  - unfold CInt.INT_MAX. lia.
  - lia.
  - reflexivity.
  - cbv zeta. split; [|split].
    + apply Hzero. lia.
    + rewrite Hcs. exact Hcount.
    + rewrite Herr; [reflexivity|right; lia].
Defined.

(** ** More on the scatter partition *)

Section PartitionShape.

Import IreduceScatter.

Lemma set_recvcounts_total (S R : Z) (recvcounts : list Z) :
  1 <= S <= CInt.INT_MAX -> 2 <= R <= CInt.INT_MAX ->
  length recvcounts = Z.to_nat R ->
  total (set_recvcounts S R recvcounts) = S.
Proof.
  intros HS HR Hlen. rewrite set_recvcounts_map by done.
  rewrite (map_ext _ (fun i : nat => partition_entry S R (Z.of_nat i))).
  - apply total_partition; lia.
  - intros i. apply recvcount_partition_entry; lia.
Qed.

(** X4.  The partition is balanced and favours the low ranks: of two
    ranks, the lower one is given as many elements as the higher one or
    one more. *)
Theorem partition_balanced (S R i j : Z) (recvcounts : list Z) :
  1 <= S <= CInt.INT_MAX -> 2 <= R <= CInt.INT_MAX ->
  length recvcounts = Z.to_nat R ->
  0 <= i <= j -> j < R ->
  exists a b,
    set_recvcounts S R recvcounts !! Z.to_nat i = Some a /\
    set_recvcounts S R recvcounts !! Z.to_nat j = Some b /\
    b <= a <= b + 1.
Proof.
  intros HS HR Hlen Hi Hj.
  exists (partition_entry S R i), (partition_entry S R j).
  split; [apply set_recvcounts_lookup; lia|].
  split; [apply set_recvcounts_lookup; lia|].
  unfold partition_entry.
  destruct (R <=? S);
    repeat match goal with
           | |- context [?x <? ?y] => destruct (Z.ltb_spec x y)
           end; lia.
Qed.

(** X5.  What the collective reads from [sendbuf] fits in it: in a
    round the loop over sizes admits, the counts of all the ranks add up
    to [S] elements, and [S] elements of [sizeof(float)] bytes are no
    more than the [bufsize] bytes [sendbuf] was allocated with. *)
Theorem sendcounts_fit_sendbuf (o : options_t) (R S : Z)
    (recvcounts : list Z) :
  2 <= R <= CInt.INT_MAX -> 1 <= S <= CInt.INT_MAX ->
  size_in_bounds S o = true ->
  length recvcounts = Z.to_nat R ->
  total (set_recvcounts S R recvcounts) = S /\
  total (set_recvcounts S R recvcounts) * SizeT.sizeof_float
  <= sendbuf_bufsize o.
Proof.
  intros HR HS Hbound Hlen.
  apply size_in_bounds_spec in Hbound; [|lia].
  rewrite set_recvcounts_total by done.
  unfold sendbuf_bufsize, SizeT.sizeof_float. lia.
Qed.

End PartitionShape.

Lemma partition_balanced_witness :
  exists a b,
    IreduceScatter.set_recvcounts 10 4 [7; 7; 7; 7] !! Z.to_nat 1 = Some a /\
    IreduceScatter.set_recvcounts 10 4 [7; 7; 7; 7] !! Z.to_nat 2 = Some b /\
    b <= a <= b + 1.
Proof.
  apply (partition_balanced 10 4 1 2 [7; 7; 7; 7]);
    unfold CInt.INT_MAX; try lia; reflexivity.
Defined.

Lemma sendcounts_fit_sendbuf_witness :
  IreduceScatter.total (IreduceScatter.set_recvcounts 8 3 [0; 0; 0]) = 8 /\
  IreduceScatter.total (IreduceScatter.set_recvcounts 8 3 [0; 0; 0])
  * SizeT.sizeof_float
  <= IreduceScatter.sendbuf_bufsize Example.example_options.
Proof.
  apply (sendcounts_fit_sendbuf Example.example_options 3 8 [0; 0; 0]);
    unfold CInt.INT_MAX; try lia; reflexivity.
Defined.

(** ** The two sides of an exchange *)

Section Exchanges.

Lemma point_to_point_app (cs1 cs2 : list call) :
  point_to_point (cs1 ++ cs2) = point_to_point cs1 ++ point_to_point cs2.
Proof. apply List.filter_app. Qed.

Lemma point_to_point_iterations {A} (f : A -> list call) (e : list call)
    (js : list A) :
  (forall j, point_to_point (f j) = e) ->
  point_to_point (concat (map f js)) = concat (replicate (length js) e).
Proof.
  intros Hf. induction js as [|j js IH]; [done|]. simpl.
  by rewrite point_to_point_app, Hf, IH.
Qed.

(** [n] exchanges of a rank [x] that sends first with a rank [y] that
    receives first. *)
Lemma exchanges_met (x y : Z) (n : nat) :
  Forall2 (fun a b => met_by x y a b = true)
    (concat (replicate n [MPI_Isend y; MPI_Irecv y]))
    (concat (replicate n [MPI_Irecv x; MPI_Isend x])).
Proof.
  induction n as [|n IH]; simpl; [constructor|].
  repeat constructor; [| |exact IH]; simpl; by rewrite !Z.eqb_refl.
Qed.

Lemma length_exchanges (n : nat) (a b : call) :
  length (concat (replicate n [a; b])) = (2 * n)%nat.
Proof. induction n as [|n IH]; simpl; lia. Qed.

End Exchanges.

Section LatencyExchange.

Import Dt LatencyDt.

Context `{M : macros}.


End LatencyExchange.


Section MultiLatencyExchange.

Import Dt MultiLatDt.

Lemma partner_below (pairs rank : Z) :
  0 <= rank < pairs -> pairs <= 1073741823 ->
  sends_first pairs rank = true /\ partner pairs rank = rank + pairs.
Proof.
  intros Hr Hp. unfold partner, sends_first.
  destruct (Z.ltb_spec rank pairs); [|lia]. split; [done|].
  apply CInt_wrap_id. unfold CInt.in_range, CInt.INT_MIN, CInt.INT_MAX. lia.
Qed.

Lemma partner_above (pairs rank : Z) :
  0 <= pairs <= rank -> rank <= CInt.INT_MAX ->
  sends_first pairs rank = false /\ partner pairs rank = rank - pairs.
Proof.
  intros Hr Hp. unfold partner, sends_first.
  destruct (Z.ltb_spec rank pairs); [lia|]. split; [done|].
  unfold CInt.add. rewrite CInt_wrap_id; [lia|].
  unfold CInt.in_range, CInt.INT_MIN, CInt.INT_MAX in *. lia.
Qed.

Lemma point_to_point_iteration_calls (o : options_t) (pairs rank : Z) (i : nat) :
  point_to_point (iteration_calls o pairs rank i)
  = if sends_first pairs rank
    then [MPI_Isend (partner pairs rank); MPI_Irecv (partner pairs rank)]
    else [MPI_Irecv (partner pairs rank); MPI_Isend (partner pairs rank)].
Proof.
  unfold iteration_calls. rewrite point_to_point_app.
  destruct (Z.of_nat i =? skip o), (sends_first pairs rank); reflexivity.
Qed.

(** The sends and receives of a round of [multi_latency] on one rank. *)
Lemma point_to_point_round (sub : substrate) (o : options_t)
    (pairs size rank : Z) (l : locals) :
  exists cs,
    calls (round_of_rank sub o pairs size rank l) = calls l ++ cs /\
    point_to_point cs
    = concat (replicate (Z.to_nat (iterations o + skip o))
                (if sends_first pairs rank
                 then [MPI_Isend (partner pairs rank);
                       MPI_Irecv (partner pairs rank)]
                 else [MPI_Irecv (partner pairs rank);
                       MPI_Isend (partner pairs rank)])).
Proof.
  rewrite round_of_rank_partner. eexists. split; [reflexivity|].
  rewrite !point_to_point_app.
  rewrite (point_to_point_iterations _ _ _
             (point_to_point_iteration_calls o pairs rank)).
  unfold iteration_indices. rewrite length_seq.
  cbn [point_to_point List.filter is_point_to_point app].
  by rewrite app_nil_r.
Qed.

(** X7.  The pairing of [multi_latency].  A rank below [pairs] sends
    first and its partner is [rank + pairs]; that rank receives first
    and has the first one as its partner.  In a round the two run with
    the same size and options, with a number of iterations within
    [int], their sends and receives meet one to one in program order,
    two operations per iteration on either side, warm-up iterations
    included. *)
Theorem partners_matched (sub : substrate) (o : options_t)
    (pairs size rank : Z) (l l2 : locals) :
  0 <= rank < pairs -> pairs <= 1073741823 ->
  iterations o + skip o <= CInt.INT_MAX ->
  let peer := partner pairs rank in
  peer = rank + pairs /\
  partner pairs peer = rank /\
  sends_first pairs rank = true /\
  sends_first pairs peer = false /\
  exists cs cs2,
    calls (round_of_rank sub o pairs size rank l) = calls l ++ cs /\
    calls (round_of_rank sub o pairs size peer l2) = calls l2 ++ cs2 /\
    Forall2 (fun a b => met_by rank peer a b = true)
      (point_to_point cs) (point_to_point cs2) /\
    length (point_to_point cs) = (2 * Z.to_nat (iterations o + skip o))%nat.
Proof.
  intros Hr Hp _ peer.
  destruct (partner_below pairs rank Hr Hp) as (Hfirst & Hpeer).
  destruct (partner_above pairs peer) as (Hsecond & Hback).
  { subst peer. lia. }
  { subst peer. unfold CInt.INT_MAX. lia. }
  assert (Hrank : partner pairs peer = rank) by (subst peer; lia).
  repeat split; try done.
  destruct (point_to_point_round sub o pairs size rank l) as (cs & Hcs & Hp2p).
  destruct (point_to_point_round sub o pairs size peer l2) as (cs2 & Hcs2 & Hp2p2).
  rewrite Hfirst in Hp2p. rewrite Hsecond, Hrank in Hp2p2.
  exists cs, cs2. split; [exact Hcs|]. split; [exact Hcs2|].
  rewrite Hp2p, Hp2p2. fold peer.
  split; [apply exchanges_met|apply length_exchanges].
Qed.

(** X8.  An odd number of ranks leaves the last rank without a
    partner.  [main] does not look at the parity of [nprocs].  With
    [nprocs] odd and [pairs = nprocs / 2], the last rank takes the
    branch that receives first, with rank [pairs] as its partner: in a
    round of at least one iteration, and of a number of iterations
    within [int], the first message it asks for is one from rank
    [pairs].  But no rank has the last rank as its partner: among the
    calls of a round of any rank there is no send to it. *)
Theorem odd_world_last_rank_unmatched (sub : substrate) (o : options_t)
    (nprocs size : Z) :
  3 <= nprocs <= CInt.INT_MAX -> Z.odd nprocs = true ->
  1 <= iterations o + skip o <= CInt.INT_MAX ->
  let pairs := CInt.div nprocs 2 in
  let last := nprocs - 1 in
  sends_first pairs last = false /\
  partner pairs last = pairs /\
  (forall l, exists cs,
     calls (round_of_rank sub o pairs size last l) = calls l ++ cs /\
     head (point_to_point cs) = Some (MPI_Irecv pairs)) /\
  (forall r l, 0 <= r < nprocs ->
     partner pairs r <> last /\
     exists cs,
       calls (round_of_rank sub o pairs size r l) = calls l ++ cs /\
       Forall (fun c => c <> MPI_Isend last) cs).
Proof.
  intros Hn Hodd Hiter pairs last.
  apply Z.odd_spec in Hodd as (k & Hk).
  assert (Hpairs : pairs = k).
  { subst pairs. rewrite CInt_div_nonneg by lia.
    symmetry. apply (Z.div_unique nprocs 2 k 1); lia. }
  unfold CInt.INT_MAX in Hn.
  destruct (partner_above pairs last) as (Hsecond & Hlast).
  { subst last. lia. }
  { subst last. unfold CInt.INT_MAX. lia. }
  assert (Hlast' : partner pairs last = pairs) by (subst last; lia).
  assert (Hpartner : forall r, 0 <= r < nprocs -> partner pairs r <> last).
  { intros r Hr. destruct (Z.lt_ge_cases r pairs) as [Hlt|Hge].
    - destruct (partner_below pairs r) as (_ & ->); subst last; lia.
    - destruct (partner_above pairs r) as (_ & ->);
        unfold CInt.INT_MAX; subst last; lia. }
  split; [exact Hsecond|]. split; [exact Hlast'|]. split.
  - intros l.
    destruct (point_to_point_round sub o pairs size last l) as (cs & Hcs & Hp2p).
    exists cs. split; [exact Hcs|]. rewrite Hp2p, Hsecond, Hlast'.
    destruct (Z.to_nat (iterations o + skip o)) as [|n] eqn:E; [lia|done].
  - intros r l Hr. split; [by apply Hpartner|].
    rewrite round_of_rank_partner. eexists. split; [reflexivity|].
    do 3 (constructor; [done|]). apply Forall_app. split; [|by repeat constructor].
    apply Forall_concat, Forall_forall.
    intros b (j & -> & _)%list_elem_of_fmap.
    unfold iteration_calls. apply Forall_app. split.
    + case_match; by repeat constructor.
    + specialize (Hpartner r Hr).
      destruct (sends_first pairs r); repeat constructor; congruence.
Qed.

End MultiLatencyExchange.

Lemma partners_matched_witness :
  MultiLatDt.partner 2 1 = 3 /\
  MultiLatDt.partner 2 3 = 1 /\
  exists cs cs2,
    MultiLatDt.calls
      (MultiLatDt.round_of_rank Example.multi_latency_substrate
         Example.example_options 2 16 1 MultiLatDt.initial_locals) = cs /\
    MultiLatDt.calls
      (MultiLatDt.round_of_rank Example.multi_latency_substrate
         Example.example_options 2 16 3 MultiLatDt.initial_locals) = cs2 /\
    Forall2 (fun a b => met_by 1 3 a b = true)
      (point_to_point cs) (point_to_point cs2).
Proof.
  destruct (partners_matched Example.multi_latency_substrate
              Example.example_options 2 16 1
              MultiLatDt.initial_locals MultiLatDt.initial_locals)
    as (Hpeer & Hback & _ & _ & cs & cs2 & Hcs & Hcs2 & Hmet & _).
  - lia.
  - lia.
  - simpl. unfold CInt.INT_MAX. lia.
  - split; [exact Hpeer|]. split; [exact Hback|].
    exists cs, cs2. split; [exact Hcs|]. split; [exact Hcs2|]. exact Hmet.
Defined.

Lemma odd_world_last_rank_unmatched_witness :
  MultiLatDt.sends_first (CInt.div 5 2) 4 = false /\
  MultiLatDt.partner (CInt.div 5 2) 4 = 2 /\
  MultiLatDt.partner (CInt.div 5 2) 2 = 0.
Proof.
  destruct (odd_world_last_rank_unmatched Example.multi_latency_substrate
              Example.example_options 5 16)
    as (Hfirst & Hlast & _ & _).
  - unfold CInt.INT_MAX. lia.
  - reflexivity.
  - simpl. unfold CInt.INT_MAX. lia.
  - split; [exact Hfirst|]. split; [exact Hlast|]. reflexivity.
Defined.

(** ** The rounds of the latency benchmarks *)

Section SeriesBounds.

Import Series.

Variables (next : Z -> Z) (bound : Z -> Prop).

(** The sizes visited are not below the first one. *)
Lemma series_from first sizes complete :
  series next bound first sizes complete ->
  forall s, s ∈ sizes -> first <= s.
Proof.
  induction 1 as [s Hs|s Hs|s sizes complete Hs Hlt _ IH]; intros x Hx.
  - by apply elem_of_nil in Hx.
  - apply list_elem_of_singleton in Hx. lia.
  - apply elem_of_cons in Hx as [->|Hx]; [lia|]. specialize (IH x Hx). lia.
Qed.

End SeriesBounds.

Section DtRuns.

Import Dt.

Context `{M : macros}.

Lemma rep_count_raised (s : Z) (o : options_t) :
  rep_count s (raise_min_message_size o) = rep_count s o.
Proof.
  unfold rep_count.
  by destruct (raise_min_message_size_frame o) as (-> & _).
Qed.

(** [main] of osu_latency_dt once the options are accepted, the device
    is set up, there are two ranks and the buffers are allocated: the
    rounds it runs and the status it leaves. *)
Lemma latency_main_run (fuel : nat) (sub : LatencyDt.substrate)
    (o : options_t) (p : LatencyDt.process) :
  (33 <= fuel)%nat ->
  sanity_check o = false ->
  LatencyDt.po_ret p = PO_OKAY ->
  accel o = NONE \/ LatencyDt.init_accel p = false ->
  LatencyDt.numprocs p = 2 ->
  LatencyDt.allocate_memory_pt2pt p = false ->
  1 <= dt_block_size o <= CInt.INT_MAX ->
  0 <= min_message_size o <= CInt.INT_MAX ->
  max_message_size o <= 1073741823 ->
  exists sizes,
    steps (LatencyDt.main fuel sub o p)
    = Sanity_check false :: map (fun s => Round s (rep_count s o)) sizes /\
    Series.series Series.doubled (fun s => s <= max_message_size o)
      (Z.max (min_message_size o) (dt_block_size o)) sizes true /\
    exit_status (LatencyDt.main fuel sub o p)
    = Ok (if bool_decide (accel o <> NONE) && LatencyDt.cleanup_accel p
          then EXIT_FAILURE else EXIT_SUCCESS).
Proof.
  intros Hfuel Hs Hpo Hinit Hn Halloc Hb Hmin Hmax.
  rewrite latency_main_okay by done. cbv zeta. rewrite Hn, Halloc. simpl.
  destruct (raise_min_message_size_frame o) as (Hb' & Hm' & Ha' & Hmin').
  cbv zeta in Hb', Hm', Ha', Hmin'.
  destruct (latency_size_loop_from sub (LatencyDt.myid p) fuel
              (LatencyDt.initial_state false (raise_min_message_size o)))
    as (st' & sizes & -> & Hlog & Hser & Hacc); try done.
  - simpl. rewrite Hmin'. rewrite CInt_wrap_id; [lia|].
    unfold CInt.in_range, CInt.INT_MIN. lia.
  - simpl. rewrite Hb'. lia.
  - simpl. by rewrite Hm'.
  - simpl in Hlog, Hser, Hacc. rewrite Hm', Hmin' in Hser.
    rewrite CInt_wrap_id in Hser
      by (unfold CInt.in_range, CInt.INT_MIN; lia).
    rewrite Hacc, Ha'. exists sizes.
    assert (Hsteps : LatencyDt.log st'
                     = Sanity_check false
                       :: map (fun s => Round s (rep_count s o)) sizes).
    { rewrite Hlog. simpl. f_equal. apply map_ext. intros s.
      by rewrite rep_count_raised. }
    destruct (bool_decide (accel o <> NONE) && LatencyDt.cleanup_accel p);
      simpl; auto.
Qed.

(** In every other case [main] runs no round. *)
Lemma latency_main_no_round (fuel : nat) (sub : LatencyDt.substrate)
    (o : options_t) (p : LatencyDt.process) :
  ~ (sanity_check o = false /\ LatencyDt.po_ret p = PO_OKAY /\
     (accel o = NONE \/ LatencyDt.init_accel p = false) /\
     LatencyDt.numprocs p = 2 /\ LatencyDt.allocate_memory_pt2pt p = false) ->
  steps (LatencyDt.main fuel sub o p) = [Sanity_check (sanity_check o)] /\
  trace (LatencyDt.main fuel sub o p) = [].
Proof.
  intros Hnot. unfold LatencyDt.main. cbv zeta.
  destruct (raise_min_message_size_frame o) as (_ & _ & Ha & _).
  cbv zeta in Ha. rewrite Ha.
  destruct (sanity_check o) eqn:Hs.
  { change (bool_decide (PO_BAD_USAGE = PO_OKAY)) with false.
    change (bool_decide (PO_BAD_USAGE = PO_VERSION_MESSAGE)) with false.
    rewrite andb_false_r. done. }
  destruct (LatencyDt.po_ret p) eqn:Hpo;
    try (cbv iota; repeat case_match; done).
  change (bool_decide (PO_OKAY = PO_OKAY)) with true.
  change (bool_decide (PO_OKAY = PO_VERSION_MESSAGE)) with false.
  rewrite andb_true_l, andb_false_r.
  destruct (accel o) eqn:Hacc, (LatencyDt.init_accel p) eqn:Hinit; simpl;
    try done;
    destruct (Z.eqb_spec (LatencyDt.numprocs p) 2) as [Hn|Hn]; simpl;
    try done;
    destruct (LatencyDt.allocate_memory_pt2pt p) eqn:Halloc; simpl;
    try done;
    exfalso; apply Hnot; auto 10.
Qed.

(** The same for osu_multi_lat_dt, which asks nothing of the number of
    ranks and has no device to clean up. *)
Lemma multi_main_run (fuel : nat) (sub : MultiLatDt.substrate)
    (o : options_t) (p : MultiLatDt.process) :
  (33 <= fuel)%nat ->
  sanity_check o = false ->
  MultiLatDt.po_ret p = PO_OKAY ->
  accel o = NONE \/ MultiLatDt.init_accel p = false ->
  MultiLatDt.allocate_memory_pt2pt_mul p = false ->
  1 <= dt_block_size o <= CInt.INT_MAX ->
  0 <= min_message_size o <= CInt.INT_MAX ->
  max_message_size o <= 1073741823 ->
  exists sizes,
    steps (MultiLatDt.main fuel sub o p)
    = Sanity_check false :: map (fun s => Round s (rep_count s o)) sizes /\
    Series.series Series.doubled (fun s => s <= max_message_size o)
      (Z.max (min_message_size o) (dt_block_size o)) sizes true /\
    exit_status (MultiLatDt.main fuel sub o p) = Ok EXIT_SUCCESS.
Proof.
  intros Hfuel Hs Hpo Hinit Halloc Hb Hmin Hmax.
  unfold MultiLatDt.main. cbv zeta. rewrite Hs, Hpo.
  destruct (raise_min_message_size_frame o) as (Hb' & Hm' & Ha' & Hmin').
  cbv zeta in Hb', Hm', Ha', Hmin'. rewrite <- Ha' in Hinit.
  change (bool_decide (PO_OKAY = PO_OKAY)) with true.
  rewrite andb_true_l, (accel_guard _ _ Hinit), Halloc.
  destruct fuel as [|fuel]; [lia|].
  destruct (multi_latency_run sub (CInt.div (MultiLatDt.nprocs p) 2) fuel
              (MultiLatDt.initial_world false (raise_min_message_size o)
                 (MultiLatDt.nprocs p)))
    as (w' & sizes & -> & Hlog & Hser); try done.
  - simpl. rewrite Hmin'. rewrite CInt_wrap_id; [lia|].
    unfold CInt.in_range, CInt.INT_MIN. lia.
  - simpl. rewrite Hb'. lia.
  - simpl. by rewrite Hm'.
  - simpl. rewrite Hm', Hmin'. rewrite CInt_wrap_id.
    2:{ unfold CInt.in_range, CInt.INT_MIN. lia. }
    assert (2 ^ 30 <= 2 ^ Z.of_nat fuel) by (apply Z.pow_le_mono_r; lia).
    change (2 ^ 30) with 1073741824 in *. nia.
  - simpl in Hlog, Hser. rewrite Hm', Hmin' in Hser.
    rewrite CInt_wrap_id in Hser
      by (unfold CInt.in_range, CInt.INT_MIN; lia).
    exists sizes. simpl. split; [|done].
    rewrite Hlog. simpl. f_equal. apply map_ext. intros s.
    by rewrite rep_count_raised.
Qed.

Lemma multi_main_no_round (fuel : nat) (sub : MultiLatDt.substrate)
    (o : options_t) (p : MultiLatDt.process) :
  ~ (sanity_check o = false /\ MultiLatDt.po_ret p = PO_OKAY /\
     (accel o = NONE \/ MultiLatDt.init_accel p = false) /\
     MultiLatDt.allocate_memory_pt2pt_mul p = false) ->
  steps (MultiLatDt.main fuel sub o p) = [Sanity_check (sanity_check o)] /\
  trace (MultiLatDt.main fuel sub o p) = [].
Proof.
  intros Hnot. unfold MultiLatDt.main. cbv zeta.
  destruct (raise_min_message_size_frame o) as (_ & _ & Ha & _).
  cbv zeta in Ha. rewrite Ha.
  assert (Hnone : forall n : Z,
            MultiLatDt.calls
              (default MultiLatDt.initial_locals
                 (replicate (Z.to_nat (MultiLatDt.nprocs p))
                    MultiLatDt.initial_locals !! Z.to_nat n)) = []).
  { intros n.
    destruct (replicate _ _ !! _) as [l|] eqn:E; [|done].
    by apply lookup_replicate in E as (-> & _). }
  destruct (sanity_check o) eqn:Hs.
  { change (bool_decide (PO_BAD_USAGE = PO_OKAY)) with false.
    simpl. split; [done|apply Hnone]. }
  destruct (MultiLatDt.po_ret p) eqn:Hpo;
    try (simpl; split; [done|apply Hnone]).
  change (bool_decide (PO_OKAY = PO_OKAY)) with true.
  rewrite andb_true_l.
  destruct (accel o) eqn:Hacc, (MultiLatDt.init_accel p) eqn:Hinit; simpl;
    try (split; [done|apply Hnone]);
    destruct (MultiLatDt.allocate_memory_pt2pt_mul p) eqn:Halloc; simpl;
    try (split; [done|apply Hnone]);
    exfalso; apply Hnot; auto 10.
Qed.

End DtRuns.

(** X9.  The sizes of osu_multi_lat_dt.  With the layout accepted, the
    options in order, the buffers allocated and the ranks in pairs (an
    even number of them, at least 2), [main], through [multi_latency],
    ends with status 0, and the rounds it runs are those of the sizes
    that start at the larger of the minimum size and the block length,
    double from one round to the next and stop at the last one within
    the maximum size; each round is logged with its repeat count. *)
Theorem multi_latency_message_sizes `{M : macros} (fuel : nat)
    (sub : MultiLatDt.substrate) (o : options_t) (p : MultiLatDt.process) :
  (33 <= fuel)%nat ->
  Dt.sanity_check o = false ->
  MultiLatDt.po_ret p = PO_OKAY ->
  accel o = NONE \/ MultiLatDt.init_accel p = false ->
  MultiLatDt.allocate_memory_pt2pt_mul p = false ->
  2 <= MultiLatDt.nprocs p <= CInt.INT_MAX ->
  Z.even (MultiLatDt.nprocs p) = true ->
  1 <= dt_block_size o <= CInt.INT_MAX ->
  0 <= min_message_size o <= CInt.INT_MAX ->
  max_message_size o <= 1073741823 ->
  exists sizes,
    Dt.steps (MultiLatDt.main fuel sub o p)
    = Dt.Sanity_check false
      :: map (fun s => Dt.Round s (Dt.rep_count s o)) sizes /\
    Series.doubling_series (Z.max (min_message_size o) (dt_block_size o))
      (fun s => s <= max_message_size o) sizes true /\
    Dt.exit_status (MultiLatDt.main fuel sub o p) = Ok EXIT_SUCCESS.
Proof.
  intros Hfuel Hs Hpo Hinit Halloc _ _ Hb Hmin Hmax.
  destruct (multi_main_run fuel sub o p) as (sizes & Hsteps & Hser & Hexit);
    try done.
  exists sizes. split; [exact Hsteps|]. split; [|exact Hexit].
  by apply series_doubling.
Qed.

Lemma multi_latency_message_sizes_witness :
  Dt.steps
    (MultiLatDt.main (H := Example.example_macros) 33
       Example.multi_latency_substrate Example.example_options
       (Example.multi_latency_process PO_OKAY 4 0))
  = [Dt.Sanity_check false; Dt.Round 4 1; Dt.Round 8 2; Dt.Round 16 5;
     Dt.Round 32 10] /\
  Dt.exit_status
    (MultiLatDt.main (H := Example.example_macros) 33
       Example.multi_latency_substrate Example.example_options
       (Example.multi_latency_process PO_OKAY 4 0)) = Ok EXIT_SUCCESS.
Proof.
  destruct (multi_latency_message_sizes (M := Example.example_macros) 33
              Example.multi_latency_substrate Example.example_options
              (Example.multi_latency_process PO_OKAY 4 0))
    as (sizes & Hsteps & _ & Hexit).
  - lia.
  - reflexivity.
  - reflexivity.
  - by left.
  - reflexivity.
  - simpl. unfold CInt.INT_MAX. lia.
  - reflexivity.
  - simpl. unfold CInt.INT_MAX. lia.
  - simpl. unfold CInt.INT_MAX. lia.
  - simpl. lia.
  - split; [|exact Hexit]. clear. vm_compute. reflexivity.
Defined.

Section BlocksPerRound.

Import Dt.

Context `{M : macros}.

Lemma round_in_series (o : options_t) (first s r : Z) (sizes : list Z) :
  1 <= dt_block_size o ->
  Series.series Series.doubled (fun s => s <= max_message_size o)
    (Z.max first (dt_block_size o)) sizes true ->
  Round s r ∈ map (fun s => Round s (rep_count s o)) sizes ->
  dt_block_size o <= s <= max_message_size o /\
  first <= s /\
  r = s / dt_block_size o /\
  1 <= r /\
  r * dt_block_size o <= s.
Proof.
  intros Hb Hser (s' & [= -> ->] & Hin)%list_elem_of_fmap.
  pose proof (series_from _ _ _ _ _ Hser _ Hin) as Hfrom.
  pose proof (series_bounded _ _ _ _ _ Hser _ Hin) as Hbound. simpl in Hbound.
  rewrite rep_count_floor by lia.
  assert (1 <= s' / dt_block_size o) by (apply Z.div_le_lower_bound; lia).
  pose proof (Z.mul_div_le s' (dt_block_size o)).
  repeat split; lia.
Qed.

(** X10.  Every round of the latency benchmarks transfers at least one
    whole block.  Whatever the process, a round that osu_latency_dt or
    osu_multi_lat_dt runs has a size between the block length and the
    maximum size and not below the minimum size, because [main] raises
    the minimum size to the block length first; its repeat count is the
    size divided by the block length, rounded down, which is at least 1,
    and that many blocks are no longer than the message. *)
Theorem rounds_hold_a_block (fuel : nat)
    (lsub : LatencyDt.substrate) (msub : MultiLatDt.substrate)
    (o : options_t) (lp : LatencyDt.process) (mp : MultiLatDt.process)
    (s r : Z) :
  (33 <= fuel)%nat ->
  1 <= dt_block_size o <= CInt.INT_MAX ->
  0 <= min_message_size o <= CInt.INT_MAX ->
  max_message_size o <= 1073741823 ->
  Round s r ∈ steps (LatencyDt.main fuel lsub o lp) \/
  Round s r ∈ steps (MultiLatDt.main fuel msub o mp) ->
  dt_block_size o <= s <= max_message_size o /\
  min_message_size o <= s /\
  r = s / dt_block_size o /\
  1 <= r /\
  r * dt_block_size o <= s.
Proof.
  intros Hfuel Hb Hmin Hmax [Hin|Hin].
  - destruct (decide (sanity_check o = false /\ LatencyDt.po_ret lp = PO_OKAY /\
                      (accel o = NONE \/ LatencyDt.init_accel lp = false) /\
                      LatencyDt.numprocs lp = 2 /\
                      LatencyDt.allocate_memory_pt2pt lp = false))
      as [(Hs & Hpo & Hinit & Hn & Halloc)|Hnot].
    + destruct (latency_main_run fuel lsub o lp) as (sizes & Hsteps & Hser & _);
        try done.
      rewrite Hsteps in Hin. apply elem_of_cons in Hin as [Hin|Hin]; [done|].
      eapply round_in_series; [lia|exact Hser|exact Hin].
    + destruct (latency_main_no_round fuel lsub o lp Hnot) as (Hsteps & _).
      rewrite Hsteps in Hin. apply list_elem_of_singleton in Hin. done.
  - destruct (decide (sanity_check o = false /\ MultiLatDt.po_ret mp = PO_OKAY /\
                      (accel o = NONE \/ MultiLatDt.init_accel mp = false) /\
                      MultiLatDt.allocate_memory_pt2pt_mul mp = false))
      as [(Hs & Hpo & Hinit & Halloc)|Hnot].
    + destruct (multi_main_run fuel msub o mp) as (sizes & Hsteps & Hser & _);
        try done.
      rewrite Hsteps in Hin. apply elem_of_cons in Hin as [Hin|Hin]; [done|].
      eapply round_in_series; [lia|exact Hser|exact Hin].
    + destruct (multi_main_no_round fuel msub o mp Hnot) as (Hsteps & _).
      rewrite Hsteps in Hin. apply list_elem_of_singleton in Hin. done.
Qed.

End BlocksPerRound.

Lemma rounds_hold_a_block_witness :
  Dt.Round 16 5
  ∈ Dt.steps
      (LatencyDt.main (H := Example.example_macros) 33
         Example.latency_substrate Example.example_options
         (Example.latency_process PO_OKAY 2 0)) /\
  3 <= 16 <= 32 /\ 5 = 16 / 3 /\ 5 * 3 <= 16.
Proof.
  assert (Hin : Dt.Round 16 5
                ∈ Dt.steps
                    (LatencyDt.main (H := Example.example_macros) 33
                       Example.latency_substrate Example.example_options
                       (Example.latency_process PO_OKAY 2 0))).
  { vm_compute. repeat constructor. }
  split; [exact Hin|].
  destruct (rounds_hold_a_block (M := Example.example_macros) 33
              Example.latency_substrate Example.multi_latency_substrate
              Example.example_options
              (Example.latency_process PO_OKAY 2 0)
              (Example.multi_latency_process PO_OKAY 4 0) 16 5)
    as (Hsize & _ & Hrep & _ & Hfit).
  - lia.
  - simpl. unfold CInt.INT_MAX. lia.
  - simpl. unfold CInt.INT_MAX. lia.
  - simpl. lia.
  - left. exact Hin.
  - auto.
Defined.

(** ** Block length zero *)

Section ZeroBlock.

Import Dt.

Context `{M : macros}.

(** X11.  A block length of zero passes the sanity check and stops the
    first round.  With [dt_block_size = 0], a stride and maxima that are
    not negative, the sanity check accepts the layout and the minimum
    size is left as it is; if that size is within the maximum size, the
    first round of osu_latency_dt and of osu_multi_lat_dt divides the
    size by zero when it computes the repeat count.  osu_latency_dt has
    filled its two buffers by then, with [set_buffer_pt2pt], and made no
    other call; osu_multi_lat_dt has made no call of the round. *)
Theorem zero_block_length_faults (fuel : nat)
    (lsub : LatencyDt.substrate) (msub : MultiLatDt.substrate)
    (o : options_t) (lp : LatencyDt.process) (mp : MultiLatDt.process) :
  dt_block_size o = 0 ->
  0 <= dt_stride_size o <= MAX_DT_STRIDE_SIZE -> 0 <= MAX_DT_BLOCK_SIZE ->
  0 <= min_message_size o <= CInt.INT_MAX ->
  min_message_size o <= max_message_size o ->
  LatencyDt.po_ret lp = PO_OKAY ->
  accel o = NONE \/ LatencyDt.init_accel lp = false ->
  LatencyDt.numprocs lp = 2 ->
  LatencyDt.allocate_memory_pt2pt lp = false ->
  MultiLatDt.po_ret mp = PO_OKAY ->
  accel o = NONE \/ MultiLatDt.init_accel mp = false ->
  MultiLatDt.allocate_memory_pt2pt_mul mp = false ->
  sanity_check o = false /\
  raise_min_message_size o = o /\
  LatencyDt.main (S fuel) lsub o lp
  = {| exit_status := Div_by_zero; steps := [Sanity_check false];
       trace := [set_buffer_pt2pt s_buf "a" (min_message_size o);
                 set_buffer_pt2pt r_buf "b" (min_message_size o)] |} /\
  MultiLatDt.main (S fuel) msub o mp
  = {| exit_status := Div_by_zero; steps := [Sanity_check false]; trace := [] |}.
Proof.
  intros Hb Hstride Hblock Hmin Hle Hlpo Hlinit Hn Hlalloc Hmpo Hminit Hmalloc.
  assert (Hs : sanity_check o = false).
  { unfold sanity_check. rewrite Hb.
    destruct (Z.ltb_spec (dt_stride_size o) 0); [lia|].
    destruct (Z.ltb_spec MAX_DT_BLOCK_SIZE 0); [lia|].
    destruct (Z.ltb_spec MAX_DT_STRIDE_SIZE (dt_stride_size o)); [lia|done]. }
  assert (Hraise : raise_min_message_size o = o).
  { unfold raise_min_message_size. rewrite Hb.
    destruct (Z.ltb_spec (min_message_size o) 0); [lia|done]. }
  assert (Hwrap : CInt.wrap (min_message_size o) = min_message_size o).
  { apply CInt_wrap_id. unfold CInt.in_range, CInt.INT_MIN. lia. }
  assert (Hprofile : forall s, dt_block_size (large_message_profile s o) = 0).
  { intros s.
    by destruct (large_message_profile_frame s o) as (_ & _ & _ & -> & _). }
  split; [exact Hs|]. split; [exact Hraise|]. split.
  - rewrite latency_main_okay by done. cbv zeta. rewrite Hn, Hlalloc, Hraise.
    simpl. rewrite Hwrap. unfold size_in_bounds.
    destruct (Z.leb_spec (min_message_size o) (max_message_size o)); [|lia].
    unfold LatencyDt.round. cbv zeta.
    cbn [LatencyDt.msg_size LatencyDt.options LatencyDt.set_options
         LatencyDt.initial_state LatencyDt.set_buffers LatencyDt.emit
         LatencyDt.calls LatencyDt.log].
    rewrite Hprofile. reflexivity.
  - unfold MultiLatDt.main. cbv zeta. rewrite Hs, Hmpo, Hraise.
    change (bool_decide (PO_OKAY = PO_OKAY)) with true.
    rewrite andb_true_l, (accel_guard _ _ Hminit), Hmalloc.
    cbn [MultiLatDt.multi_latency MultiLatDt.initial_world
         MultiLatDt.msg_size MultiLatDt.options].
    rewrite Hwrap. unfold size_in_bounds.
    destruct (Z.leb_spec (min_message_size o) (max_message_size o)); [|lia].
    unfold MultiLatDt.round. cbv zeta.
    cbn [MultiLatDt.msg_size MultiLatDt.options].
    rewrite Hprofile. reflexivity.
Qed.

End ZeroBlock.

Lemma zero_block_length_faults_witness :
  Dt.exit_status
    (LatencyDt.main (H := Example.example_macros) 1 Example.latency_substrate
       (Example.options_with_block 0)
       (Example.latency_process PO_OKAY 2 0)) = Div_by_zero /\
  Dt.trace
    (LatencyDt.main (H := Example.example_macros) 1 Example.latency_substrate
       (Example.options_with_block 0)
       (Example.latency_process PO_OKAY 2 0))
  = [set_buffer_pt2pt s_buf "a" 4; set_buffer_pt2pt r_buf "b" 4] /\
  Dt.exit_status
    (MultiLatDt.main (H := Example.example_macros) 1
       Example.multi_latency_substrate (Example.options_with_block 0)
       (Example.multi_latency_process PO_OKAY 4 0)) = Div_by_zero.
Proof.
  destruct (zero_block_length_faults (M := Example.example_macros) 0
              Example.latency_substrate Example.multi_latency_substrate
              (Example.options_with_block 0)
              (Example.latency_process PO_OKAY 2 0)
              (Example.multi_latency_process PO_OKAY 4 0))
    as (_ & _ & -> & ->); try reflexivity.
  - simpl. lia.
  - simpl. lia.
  - simpl. unfold CInt.INT_MAX. lia.
  - simpl. lia.
  - by left.
  - by left.
  - repeat split; reflexivity.
Defined.

(** ** Requests for help, unavailable devices and device failures *)

Section StartUp.

Import Dt.

Context `{M : macros}.

(** X12.  A request for the help text or for the version ends with
    status 0 before anything is measured.  The reduce-scatter benchmark
    answers it whatever the number of ranks; the two latency benchmarks
    answer it when the layout passes the sanity check, and then run no
    round, whatever the number of ranks and the results of the
    allocation and of the device set-up would have been.  For
    osu_multi_lat_dt this is stated for the help text on every rank and
    for the version on the ranks other than 0: rank 0 prints the version
    and finalizes, then leaves the first [switch] and finalizes again in
    the second. *)
Theorem help_and_version_exit (fuel : nat)
    (sub : IreduceScatter.substrate) (o : options_t)
    (p : IreduceScatter.process)
    (lsub : LatencyDt.substrate) (msub : MultiLatDt.substrate)
    (lo : options_t) (lp : LatencyDt.process) (mp : MultiLatDt.process) :
  IreduceScatter.po_ret p = PO_HELP_MESSAGE \/
  IreduceScatter.po_ret p = PO_VERSION_MESSAGE ->
  LatencyDt.po_ret lp = PO_HELP_MESSAGE \/
  LatencyDt.po_ret lp = PO_VERSION_MESSAGE ->
  MultiLatDt.po_ret mp = PO_HELP_MESSAGE \/
  (MultiLatDt.po_ret mp = PO_VERSION_MESSAGE /\ MultiLatDt.rank mp <> 0) ->
  sanity_check lo = false ->
  IreduceScatter.main fuel sub o p = Ok EXIT_SUCCESS /\
  LatencyDt.main fuel lsub lo lp
  = {| exit_status := Ok EXIT_SUCCESS; steps := [Sanity_check false];
       trace := [] |} /\
  MultiLatDt.main fuel msub lo mp
  = {| exit_status := Ok EXIT_SUCCESS; steps := [Sanity_check false];
       trace := [] |}.
Proof.
  intros Hp Hlp Hmp Hs. split; [|split].
  - unfold IreduceScatter.main.
    destruct Hp as [-> | ->]; reflexivity.
  - unfold LatencyDt.main. cbv zeta. rewrite Hs.
    destruct Hlp as [-> | ->]; cbv iota;
      rewrite (bool_decide_eq_false_2 (_ = PO_OKAY)) by done;
      rewrite andb_false_l; cbv iota; by case_match.
  - unfold MultiLatDt.main. cbv zeta. rewrite Hs.
    assert (Hnone : MultiLatDt.stop EXIT_SUCCESS
                      (MultiLatDt.initial_world false
                         (raise_min_message_size lo) (MultiLatDt.nprocs mp))
                      (MultiLatDt.rank mp)
                    = {| exit_status := Ok EXIT_SUCCESS;
                         steps := [Sanity_check false]; trace := [] |}).
    { unfold MultiLatDt.stop. simpl. f_equal.
      destruct (replicate _ _ !! _) as [l|] eqn:E; [|done].
      by apply lookup_replicate in E as (-> & _). }
    destruct Hmp as [-> | (-> & _)]; cbv iota;
      rewrite (bool_decide_eq_false_2 (_ = PO_OKAY)) by done;
      rewrite andb_false_l; cbv iota; exact Hnone.
Qed.

(** X13.  The reduce-scatter benchmark has no case for an unavailable
    device.  When [process_options] reports that CUDA or OpenACC support
    is missing, the two latency benchmarks end with a failure status
    without running a round, but [main] of osu_ireduce_scatter goes on
    as it does for [PO_OKAY], only without setting up the device. *)
Theorem unavailable_device_not_handled (fuel : nat)
    (sub : IreduceScatter.substrate) (o : options_t)
    (p : IreduceScatter.process)
    (lsub : LatencyDt.substrate) (msub : MultiLatDt.substrate)
    (lo : options_t) (lp : LatencyDt.process) (mp : MultiLatDt.process) :
  IreduceScatter.po_ret p = PO_CUDA_NOT_AVAIL \/
  IreduceScatter.po_ret p = PO_OPENACC_NOT_AVAIL ->
  LatencyDt.po_ret lp = PO_CUDA_NOT_AVAIL \/
  LatencyDt.po_ret lp = PO_OPENACC_NOT_AVAIL ->
  MultiLatDt.po_ret mp = PO_CUDA_NOT_AVAIL \/
  MultiLatDt.po_ret mp = PO_OPENACC_NOT_AVAIL ->
  IreduceScatter.main fuel sub o p
  = IreduceScatter.main fuel sub o
      {| IreduceScatter.po_ret := PO_OKAY;
         IreduceScatter.init_accel := false;
         IreduceScatter.numprocs := IreduceScatter.numprocs p;
         IreduceScatter.rank := IreduceScatter.rank p;
         IreduceScatter.allocate_recvcounts := IreduceScatter.allocate_recvcounts p;
         IreduceScatter.allocate_sendbuf := IreduceScatter.allocate_sendbuf p;
         IreduceScatter.allocate_recvbuf := IreduceScatter.allocate_recvbuf p;
         IreduceScatter.cleanup_accel := IreduceScatter.cleanup_accel p |} /\
  exit_status (LatencyDt.main fuel lsub lo lp) = Ok EXIT_FAILURE /\
  steps (LatencyDt.main fuel lsub lo lp) = [Sanity_check (sanity_check lo)] /\
  exit_status (MultiLatDt.main fuel msub lo mp) = Ok EXIT_FAILURE /\
  steps (MultiLatDt.main fuel msub lo mp) = [Sanity_check (sanity_check lo)].
Proof.
  intros Hp Hlp Hmp. split; [|split; [|split; [|split]]].
  - unfold IreduceScatter.main.
    cbn [IreduceScatter.po_ret IreduceScatter.init_accel
         IreduceScatter.numprocs IreduceScatter.rank
         IreduceScatter.allocate_recvcounts IreduceScatter.allocate_sendbuf
         IreduceScatter.allocate_recvbuf IreduceScatter.cleanup_accel].
    rewrite andb_false_r.
    destruct Hp as [-> | ->];
      rewrite (bool_decide_eq_false_2 (_ = PO_OKAY)) by done; reflexivity.
  - unfold LatencyDt.main. cbv zeta.
    destruct (sanity_check lo); [|destruct Hlp as [-> | ->]]; cbv iota;
      rewrite (bool_decide_eq_false_2 (_ = PO_OKAY)) by done;
      rewrite (bool_decide_eq_false_2 (_ = PO_VERSION_MESSAGE)) by done;
      rewrite andb_false_l, andb_false_r; reflexivity.
  - destruct (latency_main_no_round fuel lsub lo lp) as (Hsteps & _);
      [|exact Hsteps].
    intros (_ & Hpo & _). destruct Hlp as [H|H]; congruence.
  - unfold MultiLatDt.main. cbv zeta.
    destruct (sanity_check lo); [|destruct Hmp as [-> | ->]]; cbv iota;
      rewrite (bool_decide_eq_false_2 (_ = PO_OKAY)) by done;
      rewrite andb_false_l; reflexivity.
  - destruct (multi_main_no_round fuel msub lo mp) as (Hsteps & _);
      [|exact Hsteps].
    intros (_ & Hpo & _). destruct Hmp as [H|H]; congruence.
Qed.

(** X14.  A device that cannot be set up ends every program with a
    failure status before any round.  With options that are accepted and
    a device selected, a failing [init_accel] makes the three programs
    leave with [EXIT_FAILURE]; the latency benchmarks have run no round
    and made no call by then. *)
Theorem device_set_up_failure (fuel : nat)
    (sub : IreduceScatter.substrate) (o : options_t)
    (p : IreduceScatter.process)
    (lsub : LatencyDt.substrate) (msub : MultiLatDt.substrate)
    (lo : options_t) (lp : LatencyDt.process) (mp : MultiLatDt.process) :
  IreduceScatter.po_ret p = PO_OKAY -> accel o <> NONE ->
  IreduceScatter.init_accel p = true ->
  sanity_check lo = false -> accel lo <> NONE ->
  LatencyDt.po_ret lp = PO_OKAY -> LatencyDt.init_accel lp = true ->
  MultiLatDt.po_ret mp = PO_OKAY -> MultiLatDt.init_accel mp = true ->
  IreduceScatter.main fuel sub o p = Ok EXIT_FAILURE /\
  LatencyDt.main fuel lsub lo lp
  = {| exit_status := Ok EXIT_FAILURE; steps := [Sanity_check false];
       trace := [] |} /\
  MultiLatDt.main fuel msub lo mp
  = {| exit_status := Ok EXIT_FAILURE; steps := [Sanity_check false];
       trace := [] |}.
Proof.
  intros Hpo Hacc Hinit Hs Hlacc Hlpo Hlinit Hmpo Hminit.
  assert (Hraised : accel (raise_min_message_size lo) <> NONE).
  { by destruct (raise_min_message_size_frame lo) as (_ & _ & -> & _). }
  split; [|split].
  - unfold IreduceScatter.main. rewrite Hpo, Hinit.
    rewrite !bool_decide_eq_true_2 by done. reflexivity.
  - unfold LatencyDt.main. cbv zeta. rewrite Hs, Hlpo, Hlinit.
    rewrite !bool_decide_eq_true_2 by done. reflexivity.
  - unfold MultiLatDt.main. cbv zeta.
    rewrite Hs, Hmpo, Hminit. rewrite !bool_decide_eq_true_2 by done.
    unfold MultiLatDt.stop. simpl. f_equal.
    destruct (replicate _ _ !! _) as [l|] eqn:E; [|done].
    by apply lookup_replicate in E as (-> & _).
Qed.

End StartUp.

Lemma help_and_version_exit_witness :
  IreduceScatter.main (H := Example.example_macros) 33
    Example.reduce_scatter_substrate Example.example_options
    (Example.reduce_scatter_start_up PO_HELP_MESSAGE false false 1 0)
  = Ok EXIT_SUCCESS /\
  Dt.exit_status
    (LatencyDt.main (H := Example.example_macros) 33
       Example.latency_substrate Example.example_options
       (Example.latency_start_up PO_VERSION_MESSAGE false false 5 3))
  = Ok EXIT_SUCCESS /\
  Dt.steps
    (MultiLatDt.main (H := Example.example_macros) 33
       Example.multi_latency_substrate Example.example_options
       (Example.multi_latency_start_up PO_HELP_MESSAGE false 4 0))
  = [Dt.Sanity_check false].
Proof.
  destruct (help_and_version_exit (M := Example.example_macros) 33
              Example.reduce_scatter_substrate Example.example_options
              (Example.reduce_scatter_start_up PO_HELP_MESSAGE false false 1 0)
              Example.latency_substrate Example.multi_latency_substrate
              Example.example_options
              (Example.latency_start_up PO_VERSION_MESSAGE false false 5 3)
              (Example.multi_latency_start_up PO_HELP_MESSAGE false 4 0))
    as (Hr & -> & ->).
  - by left.
  - by right.
  - by left.
  - reflexivity.
  - split; [exact Hr|]. split; reflexivity.
Defined.

Lemma unavailable_device_not_handled_witness :
  IreduceScatter.main (H := Example.example_macros) 33
    Example.reduce_scatter_substrate Example.example_options
    (Example.reduce_scatter_start_up PO_CUDA_NOT_AVAIL true false 2 1)
  = Ok EXIT_SUCCESS /\
  Dt.exit_status
    (LatencyDt.main (H := Example.example_macros) 33
       Example.latency_substrate Example.example_options
       (Example.latency_start_up PO_CUDA_NOT_AVAIL true false 2 1))
  = Ok EXIT_FAILURE.
Proof.
  destruct (unavailable_device_not_handled (M := Example.example_macros) 33
              Example.reduce_scatter_substrate Example.example_options
              (Example.reduce_scatter_start_up PO_CUDA_NOT_AVAIL true false 2 1)
              Example.latency_substrate Example.multi_latency_substrate
              Example.example_options
              (Example.latency_start_up PO_CUDA_NOT_AVAIL true false 2 1)
              (Example.multi_latency_start_up PO_OPENACC_NOT_AVAIL false 4 0))
    as (-> & Hl & _).
  - by left.
  - by left.
  - by right.
  - split; [|exact Hl]. vm_compute. reflexivity.
Defined.

Lemma device_set_up_failure_witness :
  IreduceScatter.main (H := Example.example_macros) 33
    Example.reduce_scatter_substrate Example.options_on_device
    (Example.reduce_scatter_start_up PO_OKAY true false 2 0)
  = Ok EXIT_FAILURE /\
  Dt.steps
    (LatencyDt.main (H := Example.example_macros) 33
       Example.latency_substrate Example.options_on_device
       (Example.latency_start_up PO_OKAY true false 2 0))
  = [Dt.Sanity_check false] /\
  Dt.exit_status
    (MultiLatDt.main (H := Example.example_macros) 33
       Example.multi_latency_substrate Example.options_on_device
       (Example.multi_latency_start_up PO_OKAY true 4 0))
  = Ok EXIT_FAILURE.
Proof.
  destruct (device_set_up_failure (M := Example.example_macros) 33
              Example.reduce_scatter_substrate Example.options_on_device
              (Example.reduce_scatter_start_up PO_OKAY true false 2 0)
              Example.latency_substrate Example.multi_latency_substrate
              Example.options_on_device
              (Example.latency_start_up PO_OKAY true false 2 0)
              (Example.multi_latency_start_up PO_OKAY true 4 0))
    as (Hr & -> & ->); try done.
Defined.

(** ** The round that detects a mismatch is the last one *)

Section FailFast.

Import IreduceScatter.

Context `{M : macros}.
Variables (sub : substrate) (R : Z).

Lemma round_history (w : world) :
  msg_size (round sub R w) = msg_size w /\
  history (round sub R w)
  = history w ++ [{| at_size := msg_size w;
                     local_errors_at_entry := map local_errors (ranks w);
                     errors_at_exit := errors (round sub R w) |}].
Proof. unfold round. cbv zeta. cbn [msg_size history errors]. done. Qed.

(** The loop over sizes leaves through [break] after the first round
    whose [errors] is not zero. *)
Lemma size_loop_fail_fast (fuel : nat) (w w' : world) :
  size_loop sub R fuel w = Ok w' ->
  exists recs,
    history w' = history w ++ recs /\
    (forall k rec,
       recs !! k = Some rec -> (S k < length recs)%nat ->
       errors_at_exit rec = 0) /\
    (forall rec, last recs = Some rec -> errors_at_exit rec = errors w') /\
    (recs = [] -> errors w' = errors w) /\
    (errors w' <> 0 ->
     forall rec, last recs = Some rec -> at_size rec = msg_size w').
Proof.
  revert w. induction fuel as [|fuel IH]; intros w Hrun; [done|].
  cbn [size_loop] in Hrun.
  destruct (size_in_bounds (msg_size w) (options w)).
  2:{ injection Hrun as <-. exists []. rewrite app_nil_r.
      repeat split; try done. }
  destruct (round_history w) as (Hsize & Hhist).
  set (w1 := round sub R w) in *.
  destruct (Z.eqb_spec (errors w1) 0) as [Hzero|Hnonzero]; simpl in Hrun.
  - destruct (IH _ Hrun) as (recs & Hrecs & Hearlier & Hlast & Hnone & Hat).
    cbn [history errors set_msg_size] in Hrecs, Hnone.
    eexists (_ :: recs). split.
    { rewrite Hrecs, Hhist, <- app_assoc. reflexivity. }
    split; [|split; [|split]].
    + intros [|k] rec Hk Hlen.
      * injection Hk as <-. exact Hzero.
      * simpl in Hk, Hlen. apply (Hearlier k); [done|lia].
    + intros rec. rewrite last_cons.
      destruct (last recs) as [rec'|] eqn:E.
      * intros [= <-]. by apply Hlast.
      * intros [= <-]. apply last_None in E. simpl.
        by rewrite Hnone.
    + done.
    + intros Herr rec. rewrite last_cons.
      destruct (last recs) as [rec'|] eqn:E.
      * intros [= <-]. by apply Hat.
      * apply last_None in E. rewrite Hnone, Hzero in Herr; done.
  - injection Hrun as <-. eexists [_]. split; [exact Hhist|].
    split; [|split; [|split]].
    + intros [|k] rec Hk Hlen; simpl in Hlen; lia.
    + by intros rec [= <-].
    + done.
    + intros _ rec [= <-]. by rewrite Hsize.
Qed.

End FailFast.

(** X15.  Validation fails fast.  In a run of the reduce-scatter
    benchmark only the last round can have left [errors] different from
    zero: every earlier round left it at zero.  [errors] at the end of
    the loop is what the last round left, and when it is not zero [size]
    still holds the size of that round, which is the size the error
    message names. *)
Theorem validation_fails_fast `{M : macros} (sub : IreduceScatter.substrate)
    (o : options_t) (R B : Z) (fuel : nat) :
  IreduceScatter.well_formed o R ->
  IreduceScatter.counts_fit o sub R B ->
  (31 <= fuel)%nat ->
  exists w',
    IreduceScatter.size_loop sub R fuel (IreduceScatter.initial_world o R)
    = Ok w' /\
    (forall k rec,
       IreduceScatter.history w' !! k = Some rec ->
       (S k < length (IreduceScatter.history w'))%nat ->
       IreduceScatter.errors_at_exit rec = 0) /\
    (forall rec,
       last (IreduceScatter.history w') = Some rec ->
       IreduceScatter.errors_at_exit rec = IreduceScatter.errors w') /\
    (IreduceScatter.errors w' <> 0 ->
     exists rec,
       last (IreduceScatter.history w') = Some rec /\
       IreduceScatter.at_size rec = IreduceScatter.msg_size w').
Proof.
  intros Hwf Hfit Hfuel.
  destruct (size_loop_from_initial_world sub o R B Hwf Hfit fuel Hfuel)
    as (w' & Hrun & _).
  exists w'. split; [exact Hrun|].
  destruct (size_loop_fail_fast sub R fuel _ _ Hrun)
    as (recs & Hrecs & Hearlier & Hlast & Hnone & Hat).
  simpl in Hrecs, Hnone. rewrite Hrecs.
  split; [exact Hearlier|]. split; [exact Hlast|].
  intros Herr. destruct (last recs) as [rec|] eqn:E.
  - exists rec. split; [done|]. by apply Hat.
  - apply last_None in E. by rewrite Hnone in Herr.
Qed.

Lemma validation_fails_fast_witness :
  exists w',
    IreduceScatter.size_loop (H := Example.example_macros)
      Example.reduce_scatter_substrate 2 31
      (IreduceScatter.initial_world (H := Example.example_macros)
         Example.example_options 2) = Ok w' /\
    map IreduceScatter.errors_at_exit (IreduceScatter.history w') = [0; 0; 1] /\
    IreduceScatter.errors w' = 1 /\
    IreduceScatter.msg_size w' = 4.
Proof.
  destruct (validation_fails_fast (M := Example.example_macros)
              Example.reduce_scatter_substrate Example.example_options 2 1 31)
    as (w' & Hrun & _).
  - unfold IreduceScatter.well_formed, CInt.INT_MAX. simpl.
    repeat split; try lia; by vm_compute.
  - unfold IreduceScatter.counts_fit, CInt.INT_MAX. simpl. split; [|lia].
    intros rank size overlap i. repeat case_match; lia.
  - lia.
  - exists w'. split; [exact Hrun|].
    vm_compute in Hrun. injection Hrun as <-. vm_compute. done.
Defined.

(** X16.  A device that cannot be cleaned up turns a complete run into
    a failure.  With a device selected and set up, the reduce-scatter
    benchmark and osu_latency_dt run all their rounds, and a failing
    [cleanup_accel] then makes [main] leave with [EXIT_FAILURE], on
    every rank and whether or not the validation found a mismatch. *)
Theorem device_clean_up_failure `{M : macros} (fuel : nat)
    (sub : IreduceScatter.substrate) (o : options_t)
    (p : IreduceScatter.process) (B : Z)
    (lsub : LatencyDt.substrate) (lo : options_t) (lp : LatencyDt.process) :
  (33 <= fuel)%nat ->
  IreduceScatter.po_ret p = PO_OKAY -> accel o <> NONE ->
  IreduceScatter.init_accel p = false ->
  IreduceScatter.well_formed o (IreduceScatter.numprocs p) ->
  IreduceScatter.counts_fit o sub (IreduceScatter.numprocs p) B ->
  IreduceScatter.allocate_recvcounts p = false ->
  IreduceScatter.allocate_sendbuf p = false ->
  IreduceScatter.allocate_recvbuf p = false ->
  IreduceScatter.cleanup_accel p = true ->
  Dt.sanity_check lo = false -> LatencyDt.po_ret lp = PO_OKAY ->
  accel lo <> NONE -> LatencyDt.init_accel lp = false ->
  LatencyDt.numprocs lp = 2 -> LatencyDt.allocate_memory_pt2pt lp = false ->
  1 <= dt_block_size lo <= CInt.INT_MAX ->
  0 <= min_message_size lo <= CInt.INT_MAX ->
  max_message_size lo <= 1073741823 ->
  LatencyDt.cleanup_accel lp = true ->
  IreduceScatter.main fuel sub o p = Ok EXIT_FAILURE /\
  Dt.exit_status (LatencyDt.main fuel lsub lo lp) = Ok EXIT_FAILURE /\
  exists sizes,
    Dt.steps (LatencyDt.main fuel lsub lo lp)
    = Dt.Sanity_check false
      :: map (fun s => Dt.Round s (Dt.rep_count s lo)) sizes /\
    Series.doubling_series (Z.max (min_message_size lo) (dt_block_size lo))
      (fun s => s <= max_message_size lo) sizes true.
Proof.
  intros Hfuel Hpo Hacc Hinit Hwf Hfit Ha1 Ha2 Ha3 Hclean
    Hs Hlpo Hlacc Hlinit Hn Hlalloc Hb Hmin Hmax Hlclean.
  split.
  - rewrite reduce_scatter_main_okay by auto.
    destruct Hwf as (HR & Hwf'). unfold CInt.INT_MAX in HR.
    destruct (Z.ltb_spec (IreduceScatter.numprocs p) 2); [lia|].
    rewrite Ha1, Ha2, Ha3.
    destruct (size_loop_from_initial_world sub o (IreduceScatter.numprocs p) B
                (conj HR Hwf') Hfit fuel)
      as (w' & -> & _ & _ & _ & _ & Haccel); [lia|].
    rewrite Haccel, Hclean, bool_decide_eq_true_2 by done. reflexivity.
  - destruct (latency_main_run fuel lsub lo lp) as (sizes & Hsteps & Hser & ->);
      auto.
    rewrite Hlclean, bool_decide_eq_true_2 by done.
    split; [reflexivity|]. exists sizes. split; [exact Hsteps|].
    by apply series_doubling.
Qed.

Lemma device_clean_up_failure_witness :
  IreduceScatter.main (H := Example.example_macros) 33
    Example.reduce_scatter_substrate Example.options_on_device
    (Example.reduce_scatter_start_up PO_OKAY false true 2 1)
  = Ok EXIT_FAILURE /\
  Dt.exit_status
    (LatencyDt.main (H := Example.example_macros) 33
       Example.latency_substrate Example.options_on_device
       (Example.latency_start_up PO_OKAY false true 2 0))
  = Ok EXIT_FAILURE.
Proof.
  destruct (device_clean_up_failure (M := Example.example_macros) 33
              Example.reduce_scatter_substrate Example.options_on_device
              (Example.reduce_scatter_start_up PO_OKAY false true 2 1) 1
              Example.latency_substrate Example.options_on_device
              (Example.latency_start_up PO_OKAY false true 2 0))
    as (Hr & Hl & _).
  - lia.
  - reflexivity.
  - discriminate.
  - reflexivity.
  - unfold IreduceScatter.well_formed, CInt.INT_MAX. simpl.
    repeat split; try lia; by vm_compute.
  - unfold IreduceScatter.counts_fit, CInt.INT_MAX. simpl. split; [|lia].
    intros rank size overlap i. repeat case_match; lia.
  - reflexivity.
  - reflexivity.
  - reflexivity.
  - reflexivity.
  - reflexivity.
  - reflexivity.
  - discriminate.
  - reflexivity.
  - reflexivity.
  - reflexivity.
  - simpl. unfold CInt.INT_MAX. lia.
  - simpl. unfold CInt.INT_MAX. lia.
  - simpl. lia.
  - reflexivity.
  - split; [exact Hr|exact Hl].
Defined.

(** ** The iteration counts of a round follow its size *)

Section ProfileBySize.

Import Dt LatencyDt.

Context `{M : macros}.

(** Once applied at a size, the large-message profile is what a later
    application at a larger size gives. *)
Lemma large_message_profile_absorb (s1 s2 : Z) (o : options_t) :
  s1 <= s2 ->
  large_message_profile s2 (large_message_profile s1 o)
  = large_message_profile s2 o.
Proof.
  intros Hle. unfold large_message_profile.
  destruct (Z.ltb_spec LARGE_MESSAGE_SIZE s1);
    destruct (Z.ltb_spec LARGE_MESSAGE_SIZE s2); try reflexivity; lia.
Qed.

Lemma large_message_profile_counts (s : Z) (o : options_t) :
  0 <= skip o -> 1 <= iterations o ->
  0 <= skip_large o -> 1 <= iterations_large o ->
  0 <= skip (large_message_profile s o) /\
  1 <= iterations (large_message_profile s o).
Proof.
  intros. unfold large_message_profile.
  destruct (LARGE_MESSAGE_SIZE <? s); simpl; lia.
Qed.

Lemma round_calls_raised (sub : substrate) (myid s size : Z) (o : options_t) :
  round_calls sub myid (large_message_profile s (raise_min_message_size o)) size
  = round_calls sub myid (large_message_profile s o) size.
Proof.
  unfold raise_min_message_size, large_message_profile.
  destruct (min_message_size o <? dt_block_size o);
    destruct (LARGE_MESSAGE_SIZE <? s); reflexivity.
Qed.

Variables (sub : substrate) (myid : Z).

Lemma latency_round_trace (st : state) :
  let size := msg_size st in
  let o := large_message_profile size (options st) in
  dt_block_size o <> 0 -> 0 <= skip o -> 1 <= iterations o ->
  exists st',
    round sub myid st = Ok st' /\
    msg_size st' = size /\
    options st' = o /\
    log st' = log st ++ [Round size (rep_count size o)] /\
    calls st' = calls st ++ round_calls sub myid o size.
Proof.
  intros size o Hb Hs Hi.
  destruct (round_control sub myid st Hb) as (st1 & Hr & Hsz & Ho & Hlog).
  exists st1. split; [exact Hr|]. split; [exact Hsz|]. split; [exact Ho|].
  split; [exact Hlog|].
  destruct (latency_round_calls sub myid st Hb) as (st2 & Hr2 & Hc & _).
  rewrite Hr in Hr2. injection Hr2 as <-.
  rewrite Hc. unfold round_calls. fold size o.
  destruct (Z.eqb_spec myid 0) as [->|Hn0]; [|reflexivity].
  destruct (round_of_rank_0 sub st Hb Hs Hi) as (st3 & Hr3 & Hts & Hte & _).
  rewrite Hr in Hr3. injection Hr3 as <-.
  fold size o in Hts, Hte. by rewrite Hts, Hte.
Qed.

Variable o0 : options_t.

Hypothesis Hblock : dt_block_size o0 <> 0.
Hypothesis Hmax : max_message_size o0 <= 1073741823.
Hypothesis Hcounts : 0 <= skip o0 /\ 1 <= iterations o0.
Hypothesis Hlarge : 0 <= skip_large o0 /\ 1 <= iterations_large o0.

(** The loop over sizes from a state whose options are those of the
    start, [o0], or what an earlier round at a smaller size made of
    them. *)
Lemma latency_loop_trace (fuel : nat) (st : state) :
  1 <= msg_size st ->
  max_message_size o0 < msg_size st * 2 ^ Z.of_nat fuel ->
  (forall s, msg_size st <= s ->
     large_message_profile s (options st) = large_message_profile s o0) ->
  exists st' sizes,
    size_loop sub myid (S fuel) st = Ok st' /\
    log st' = log st ++ map (fun s => Round s (rep_count s o0)) sizes /\
    Series.series Series.doubled (fun s => s <= max_message_size o0)
      (msg_size st) sizes true /\
    calls st'
    = calls st
      ++ concat (map (fun s => round_calls sub myid
                                 (large_message_profile s o0) s) sizes) /\
    accel (options st') = accel o0.
Proof.
  revert st. induction fuel as [|fuel IH]; intros st Hsize Hfuel Hprofile.
  all: pose proof (Hprofile (msg_size st) ltac:(lia)) as Hnow.
  all: destruct (large_message_profile_frame (msg_size st) (options st))
         as (_ & Hm & _ & Hb & _ & Ha & _); cbv zeta in Hm, Hb, Ha.
  all: destruct (large_message_profile_frame (msg_size st) o0)
         as (_ & Hm0 & _ & Hb0 & _ & Ha0 & _); cbv zeta in Hm0, Hb0, Ha0.
  all: rewrite Hnow in Hm, Hb, Ha; rewrite Hm0 in Hm; rewrite Hb0 in Hb;
       rewrite Ha0 in Ha.
  - exists st, []. simpl. unfold size_in_bounds. rewrite <- Hm.
    destruct (Z.leb_spec (msg_size st) (max_message_size o0));
      [simpl in Hfuel; lia|].
    rewrite !app_nil_r. repeat split; try done.
    apply Series.series_end. lia.
  - cbn [size_loop]. unfold size_in_bounds. rewrite <- Hm.
    destruct (Z.leb_spec (msg_size st) (max_message_size o0)) as [Hle|Hgt].
    2:{ exists st, []. rewrite !app_nil_r. repeat split; try done.
        apply Series.series_end. lia. }
    destruct (large_message_profile_counts (msg_size st) o0)
      as (Hs1 & Hi1); try tauto.
    destruct (latency_round_trace st)
      as (st1 & -> & Hsz1 & Ho1 & Hlog1 & Hc1).
    { cbv zeta. rewrite Hnow. by rewrite Hb0. }
    { cbv zeta. by rewrite Hnow. }
    { cbv zeta. by rewrite Hnow. }
    cbv zeta in Hsz1, Ho1, Hlog1, Hc1. rewrite Hnow in Ho1, Hlog1, Hc1.
    rewrite rep_count_profile in Hlog1.
    rewrite Hsz1, next_size_doubled by lia.
    destruct (IH (set_msg_size (Series.doubled (msg_size st)) st1))
      as (st' & sizes & Hrun & Hlog & Hser & Hcalls & Hacc).
    + simpl. unfold Series.doubled. case_match; lia.
    + simpl. unfold Series.doubled.
      rewrite Nat2Z.inj_succ, Z.pow_succ_r in Hfuel by lia.
      destruct (Z.eqb_spec (msg_size st) 0); lia.
    + simpl. intros s Hs. rewrite Ho1.
      apply large_message_profile_absorb.
      unfold Series.doubled in Hs. destruct (Z.eqb_spec (msg_size st) 0); lia.
    + simpl in Hlog, Hser, Hcalls.
      exists st', (msg_size st :: sizes). split; [exact Hrun|].
      split; [by rewrite Hlog, Hlog1, <- app_assoc|].
      split.
      { apply Series.series_step; [done| |done].
        unfold Series.doubled. destruct (Z.eqb_spec (msg_size st) 0); lia. }
      split; [|exact Hacc].
      by rewrite Hcalls, Hc1, <- app_assoc.
Qed.

End ProfileBySize.

(** X17.  The calls of a whole run of osu_latency_dt.  With the layout
    accepted, the options in order, two ranks and the buffers allocated,
    the calls a process makes are those of its rounds, one round per
    size of the series and in that order.  The round of size [s] runs
    with the iteration counts its own size selects: [iterations_large]
    and [skip_large] when [s] exceeds [LARGE_MESSAGE_SIZE], [iterations]
    and [skip] as given otherwise, although the loop overwrites the
    options when it first meets a large size.  It fills the two
    buffers, builds the descriptor of [s / dt_block_size] blocks,
    exchanges one message each way per iteration, and on rank 0 prints
    the latency between the clock reading after [skip] iterations and
    the one at the end of the loop.  Both pairs of iteration counts are
    within [int], as the loop counts with an [int]. *)
Theorem latency_trace_by_size `{M : macros} (fuel : nat)
    (sub : LatencyDt.substrate) (o : options_t) (p : LatencyDt.process) :
  (33 <= fuel)%nat ->
  Dt.sanity_check o = false ->
  LatencyDt.po_ret p = PO_OKAY ->
  accel o = NONE \/ LatencyDt.init_accel p = false ->
  LatencyDt.numprocs p = 2 ->
  LatencyDt.allocate_memory_pt2pt p = false ->
  1 <= dt_block_size o <= CInt.INT_MAX ->
  0 <= min_message_size o <= CInt.INT_MAX ->
  max_message_size o <= 1073741823 ->
  0 <= skip o -> 1 <= iterations o ->
  iterations o + skip o <= CInt.INT_MAX ->
  0 <= skip_large o -> 1 <= iterations_large o ->
  iterations_large o + skip_large o <= CInt.INT_MAX ->
  exists sizes,
    Dt.steps (LatencyDt.main fuel sub o p)
    = Dt.Sanity_check false
      :: map (fun s => Dt.Round s (Dt.rep_count s o)) sizes /\
    Series.doubling_series (Z.max (min_message_size o) (dt_block_size o))
      (fun s => s <= max_message_size o) sizes true /\
    Dt.trace (LatencyDt.main fuel sub o p)
    = concat (map (fun s => LatencyDt.round_calls sub (LatencyDt.myid p)
                              (large_message_profile s o) s) sizes).
Proof.
  intros Hfuel Hs Hpo Hinit Hn Halloc Hb Hmin Hmax Hsk Hit _ Hskl Hitl _.
  rewrite latency_main_okay by done. cbv zeta. rewrite Hn, Halloc. simpl.
  destruct (raise_min_message_size_frame o) as (Hb' & Hm' & Ha' & Hmin').
  cbv zeta in Hb', Hm', Ha', Hmin'.
  assert (Hkept : skip (Dt.raise_min_message_size o) = skip o /\
                  iterations (Dt.raise_min_message_size o) = iterations o /\
                  skip_large (Dt.raise_min_message_size o) = skip_large o /\
                  iterations_large (Dt.raise_min_message_size o)
                  = iterations_large o).
  { unfold Dt.raise_min_message_size. by case_match. }
  destruct Hkept as (Hk1 & Hk2 & Hk3 & Hk4).
  destruct fuel as [|fuel]; [lia|].
  assert (Hwrap : CInt.wrap (Z.max (min_message_size o) (dt_block_size o))
                  = Z.max (min_message_size o) (dt_block_size o)).
  { apply CInt_wrap_id. unfold CInt.in_range, CInt.INT_MIN. lia. }
  destruct (latency_loop_trace sub (LatencyDt.myid p)
              (Dt.raise_min_message_size o)) with
      (fuel := fuel)
      (st := LatencyDt.initial_state false (Dt.raise_min_message_size o))
    as (st' & sizes & -> & Hlog & Hser & Hcalls & _).
  - rewrite Hb'. lia.
  - by rewrite Hm'.
  - rewrite Hk1, Hk2. lia.
  - rewrite Hk3, Hk4. lia.
  - simpl. rewrite Hmin', Hwrap. lia.
  - simpl. rewrite Hm', Hmin', Hwrap.
    assert (2 ^ 30 <= 2 ^ Z.of_nat fuel) by (apply Z.pow_le_mono_r; lia).
    change (2 ^ 30) with 1073741824 in *. nia.
  - done.
  - simpl in Hlog, Hser, Hcalls. rewrite Hm', Hmin', Hwrap in Hser.
    exists sizes.
    assert (Hsteps : LatencyDt.log st'
                     = Dt.Sanity_check false
                       :: map (fun s => Dt.Round s (Dt.rep_count s o)) sizes).
    { rewrite Hlog. simpl. f_equal. apply map_ext. intros s.
      by rewrite rep_count_raised. }
    assert (Htrace : LatencyDt.calls st'
                     = concat (map (fun s => LatencyDt.round_calls sub
                                               (LatencyDt.myid p)
                                               (large_message_profile s o) s)
                                   sizes)).
    { rewrite Hcalls. f_equal. apply map_ext. intros s.
      apply round_calls_raised. }
    apply series_doubling in Hser.
    destruct (bool_decide _ && LatencyDt.cleanup_accel p); simpl; auto.
Qed.

Lemma latency_trace_by_size_witness :
  exists sizes,
    Dt.steps
      (LatencyDt.main (H := Example.example_macros) 33
         Example.latency_substrate Example.example_options
         (Example.latency_process PO_OKAY 2 1))
    = Dt.Sanity_check false
      :: map (fun s => Dt.Round s (Dt.rep_count s Example.example_options))
             sizes /\
    Dt.trace
      (LatencyDt.main (H := Example.example_macros) 33
         Example.latency_substrate Example.example_options
         (Example.latency_process PO_OKAY 2 1))
    = concat (map (fun s => LatencyDt.round_calls Example.latency_substrate 1
                              (large_message_profile
                                 (H := Example.example_macros) s
                                 Example.example_options) s) sizes).
Proof.
  destruct (latency_trace_by_size (M := Example.example_macros) 33
              Example.latency_substrate Example.example_options
              (Example.latency_process PO_OKAY 2 1))
    as (sizes & Hsteps & _ & Htrace).
  - lia.
  - reflexivity.
  - reflexivity.
  - by left.
  - reflexivity.
  - reflexivity.
  - simpl. unfold CInt.INT_MAX. lia.
  - simpl. unfold CInt.INT_MAX. lia.
  - simpl. lia.
  - simpl. lia.
  - simpl. lia.
  - simpl. unfold CInt.INT_MAX. lia.
  - simpl. lia.
  - simpl. lia.
  - simpl. unfold CInt.INT_MAX. lia.
  - exists sizes. split; [exact Hsteps|exact Htrace].
Defined.

(** ** No measured iteration *)

Section NoMeasuredIteration.

Import IreduceScatter.

(** X18.  With [iterations = 0] the reduce-scatter benchmark divides
    zero by zero.  No iteration is measured, [timer] is still [0.0]
    after the first loop, and both [latency] and [latency_in_secs] are
    the quotient of zero by zero, which is not a number; that value is
    handed to [init_arrays] and to [dummy_compute] in each of the [skip]
    warm-up iterations of the second loop. *)
Theorem zero_iterations_latency_is_nan (o : options_t) (sub : substrate)
    (numprocs size rank : Z) (l : locals) :
  iterations o = 0 -> 0 <= skip o ->
  let l' := round_of_rank o sub numprocs size rank l in
  measured_indices o = [] /\
  latency_in_secs l' = nan /\
  latency l' = nan /\
  exists cs,
    calls l' = calls l ++ cs /\
    init_arrays nan ∈ cs /\
    dummy_compute_targets cs = replicate (Z.to_nat (skip o)) nan.
Proof.
  intros Hi Hs l'.
  assert (Hnone : measured_indices o = []).
  { unfold measured_indices. by rewrite Hi. }
  assert (Hmean : mean_latency o sub rank size = nan).
  { unfold mean_latency, measured_total. rewrite Hnone, Hi. reflexivity. }
  destruct (round_of_rank_latency o sub rank size numprocs l)
    as (Hsecs & Hlat & _); [done|lia|].
  fold l' in Hsecs, Hlat.
  split; [exact Hnone|]. split; [by rewrite Hsecs|]. split.
  { rewrite Hlat. unfold measured_total. rewrite Hnone, Hi. reflexivity. }
  eexists. split.
  { subst l'. rewrite round_of_rank_calls by lia. reflexivity. }
  rewrite Hmean. split.
  - rewrite !elem_of_app. right. right. left.
    apply list_elem_of_further, list_elem_of_here.
  - rewrite !targets_app, targets_latency_run, targets_overlap_run.
    simpl. rewrite app_nil_r.
    unfold iteration_indices. rewrite length_seq, Hi. done.
Qed.

End NoMeasuredIteration.

Lemma zero_iterations_latency_is_nan_witness :
  let l' :=
    IreduceScatter.round_of_rank
      (set_iterations_skip 0 2 Example.example_options)
      Example.reduce_scatter_substrate 2 4 0
      (IreduceScatter.initial_locals 2) in
  IreduceScatter.latency_in_secs l' = nan /\
  IreduceScatter.latency l' = nan /\
  IreduceScatter.dummy_compute_targets (IreduceScatter.calls l') = [nan; nan].
Proof.
  destruct (zero_iterations_latency_is_nan
              (set_iterations_skip 0 2 Example.example_options)
              Example.reduce_scatter_substrate 2 4 0
              (IreduceScatter.initial_locals 2))
    as (_ & Hsecs & Hlat & cs & Hcs & _ & Htargets).
  - reflexivity.
  - simpl. lia.
  - cbv zeta. split; [exact Hsecs|]. split; [exact Hlat|].
    rewrite Hcs. exact Htargets.
Defined.

(** ** The collective operations of a round *)

Section Collectives.








End Collectives.

